(** * Model and chain orchestration of obsidian-copilot

    A shallow embedding of the chat-model manager (both revisions kept in the
    repository), of the chain manager and of the streaming turn of
    [langchainStream.ts], with the properties of the orchestration core
    proved over it.

    JavaScript objects that the code builds by spreading ([{...a, ...b}]) are
    finite maps from property names to values; classes of the LangChain
    library, the settings store and the other collaborators the code only
    calls are gathered in one record of externals. *)

From Stdlib Require Import QArith.
From stdpp Require Import gmap strings list fin_maps.

Local Open Scope string_scope.
Set Warnings "-register-all".

(** ** JavaScript values *)

(** The values that end up in a configuration object. Functions
    ([safeFetch], the callback handlers) are opaque and named. *)
Inductive Value : Type :=
| VUndef
| VBool (b : bool)
| VNum (q : Q)
| VStr (s : string)
| VArr (items : list Value)
| VObj (fields : list (string * Value))
| VFun (fname : string).

(** A flat object: property name to value. A property bound to [VUndef] is
    present, as in JavaScript, and so survives a spread. *)
Abbreviation Config := (gmap string Value).

(** [{...a, ...b}]: the properties of [b] win. *)
Definition spread (a b : Config) : Config := b ∪ a.

(** JavaScript truthiness (no [NaN] among the numbers of the model). *)
Definition truthy (v : Value) : bool :=
  match v with
  | VUndef => false
  | VBool b => b
  | VNum q => negb (Qeq_bool q 0)
  | VStr s => negb (String.eqb s "")
  | VArr _ | VObj _ | VFun _ => true
  end.

(** [o[k]]: a missing property reads as [undefined]. *)
Definition getProp (o : Config) (k : string) : Value := default VUndef (o !! k).

(** [a || b] on values. *)
Definition vOr (a b : Value) : Value := if truthy a then a else b.

(** An optional string property, [s?: string]. *)
Definition ofOptStr (o : option string) : Value :=
  match o with Some s => VStr s | None => VUndef end.

Definition ofOptBool (o : option bool) : Value :=
  match o with Some b => VBool b | None => VUndef end.

Definition ofOptNum (o : option Q) : Value :=
  match o with Some q => VNum q | None => VUndef end.

(** [a || b] where [a] is an optional string and [b] a string. *)
Definition strOr (a : option string) (b : string) : string :=
  match a with
  | Some s => if String.eqb s "" then b else s
  | None => b
  end.

(** [Boolean(s)] for an optional string. *)
Definition optTruthy (a : option string) : bool :=
  match a with
  | Some s => negb (String.eqb s "")
  | None => false
  end.

(** [hay.includes(needle)]. *)
Fixpoint includes (needle hay : string) : bool :=
  String.prefix needle hay ||
  match hay with
  | EmptyString => false
  | String _ rest => includes needle rest
  end.

(** What a [throw] carries: an [Error] (message, optional cause), or any
    other value, kept by its [JSON.stringify] / [String] renderings. *)
Inductive Thrown : Type :=
| JsError (message : string) (cause : option string)
| JsObject (json : string)
| JsOther (str : string).

Definition mkError (msg : string) : Thrown := JsError msg None.

(** [error.message], [undefined] off an [Error]. *)
Definition messageOf (e : Thrown) : option string :=
  match e with JsError m _ => Some m | _ => None end.

(** The result of a call that may throw. *)
Inductive Result (A : Type) : Type :=
| Ok (a : A)
| Throw (e : Thrown).
Arguments Ok {A} a.
Arguments Throw {A} e.

(** ** Providers and their LangChain classes *)

(** The members of the [ChatModelProviders] enum, as the constructor table
    lists them. *)
Inductive ChatModelProviders : Type :=
| OPENAI | AZURE_OPENAI | ANTHROPIC | COHEREAI | GOOGLE
| OPENROUTERAI | OLLAMA | LM_STUDIO | GROQ | OPENAI_FORMAT.

Inductive ChatConstructorType : Type :=
| ChatOpenAI | ChatAnthropic | ChatCohere
| ChatGoogleGenerativeAI | ChatOllama | ChatGroq.

Definition CHAT_PROVIDER_CONSTRUCTORS (p : ChatModelProviders) : ChatConstructorType :=
  match p with
  | OPENAI => ChatOpenAI
  | AZURE_OPENAI => ChatOpenAI
  | ANTHROPIC => ChatAnthropic
  | COHEREAI => ChatCohere
  | GOOGLE => ChatGoogleGenerativeAI
  | OPENROUTERAI => ChatOpenAI
  | OLLAMA => ChatOllama
  | LM_STUDIO => ChatOpenAI
  | GROQ => ChatGroq
  | OPENAI_FORMAT => ChatOpenAI
  end.

(** [Object.values(ChatModelProviders)] in declaration order. *)
Definition providerMembers : list ChatModelProviders :=
  [OPENAI; AZURE_OPENAI; ANTHROPIC; COHEREAI; GOOGLE;
   OPENROUTERAI; OLLAMA; LM_STUDIO; GROQ; OPENAI_FORMAT].

(** A chat model object: its class and its own properties. *)
Record BaseChatModel : Type := {
  mi_class : ChatConstructorType;
  mi_props : Config;
}.

(** ** Collaborators

    What the orchestration code calls but does not define: the string
    values of the provider enum and the sender constants ([constants.ts]),
    key decryption ([encryptionService]), [err2String] ([utils]), the
    LangChain constructors and their [invoke], and the formatted clock. *)
Record Externals : Type := {
  providerTag : ChatModelProviders → string;
  AI_SENDER : string;
  DEFAULT_SYSTEM_PROMPT : string;
  getDecryptedKey : string → string;
  err2String : Thrown → string;
  newModel : ChatConstructorType → Config → Result BaseChatModel;
  invoke : BaseChatModel → string → Result Value;
  formatDateTimeNow : string;
}.

(** [provider as ChatModelProviders] used as the key of a table indexed by
    the enum: the member whose string value is [s], if any. *)
Definition providerOf (X : Externals) (s : string) : option ChatModelProviders :=
  List.find (λ p, String.eqb (providerTag X p) s) providerMembers.

(** [Object.values(ChatModelProviders).includes(s)]. *)
Definition isKnownProvider (X : Externals) (s : string) : bool :=
  existsb (λ p, String.eqb (providerTag X p) s) providerMembers.

(** ** Effects

    State passing with exceptions: a call returns a value or throws, and
    the state it leaves behind is kept either way, as in JavaScript. *)
Definition M (S A : Type) : Type := S → Result A * S.

Definition ret {S A} (a : A) : M S A := λ s, (Ok a, s).

Definition bind {S A B} (c : M S A) (k : A → M S B) : M S B :=
  λ s, match c s with
       | (Ok a, s') => k a s'
       | (Throw e, s') => (Throw e, s')
       end.

Definition throw {S A} (e : Thrown) : M S A := λ s, (Throw e, s).

(** [try { c } catch (e) { h e }]. *)
Definition tryCatch {S A} (c : M S A) (h : Thrown → M S A) : M S A :=
  λ s, match c s with
       | (Ok a, s') => (Ok a, s')
       | (Throw e, s') => h e s'
       end.

Definition gets {S A} (f : S → A) : M S A := λ s, (Ok (f s), s).

Definition modify {S} (f : S → S) : M S unit := λ s, (Ok tt, f s).

(** The value of a run that did not throw. *)
Definition okValue {S A} (r : Result A * S) : option A :=
  match r.1 with Ok a => Some a | Throw _ => None end.

(** Lifting a pure call that may throw. *)
Definition liftR {S A} (r : Result A) : M S A := λ s, (r, s).

Declare Scope js_scope.
Delimit Scope js_scope with js.
Notation "'let*' x := c 'in' k" := (bind c (λ x, k))
  (at level 10, x name, c at level 100, k at level 200) : js_scope.
Notation "c ;; k" := (bind c (λ _, k))
  (at level 100, k at level 200, right associativity) : js_scope.
Local Open Scope js_scope.

(** A message of the conversation, as handed to [addMessage]. *)
Record ChatMessage : Type := {
  message : string;
  sender : string;
  isVisible : bool;
  timestamp : string;
}.

(** What leaves the orchestration code: notices, console lines, the two UI
    callbacks of a turn, and the rejection of a promise nobody awaits. *)
Inductive Event : Type :=
| ENotice (text : string)
| EConsoleError (text : string) (arg : option Thrown)
| EConsoleWarn (text : string)
| EConsoleLog (text : string)
| EAddMessage (m : ChatMessage)
| EUpdateCurrentAiMessage (text : string)
| EUnhandledRejection (e : Thrown).

(** A literal [{k1: v1, ..., kn: vn}]: a later key wins. *)
Definition obj (l : list (string * Value)) : Config :=
  foldl (λ m kv, <[kv.1 := kv.2]> m) ∅ l.

Definition isStr (v : Value) (s : string) : bool :=
  match v with VStr t => String.eqb t s | _ => false end.

Definition Qltb (a b : Q) : bool := negb (Qle_bool b a).

(** [Number.isInteger]. *)
Definition isInteger (q : Q) : bool := Pos.eqb (Qden (Qred q)) 1.

(** The three chain types of [chainFactory]. *)
Inductive ChainType : Type := LLM_CHAIN | VAULT_QA_CHAIN | COPILOT_PLUS_CHAIN.

(** A prompt template, by its messages. *)
Inductive PromptMessage : Type :=
| RoleMessage (role text : string)
| MessagesPlaceholder (variable : string)
| HumanMessagePromptTemplate (template : string).

Definition ChatPromptTemplate : Type := list PromptMessage.

(** * The synchronous chat-model manager (first revision) *)
Module V1.

(** ** Data *)

Record CustomModel : Type := {
  name : string;
  provider : string;
  baseUrl : option string;
  apiKey : option string;
  enabled : bool;
  isEmbeddingModel : option bool;
  isBuiltIn : option bool;
  enableCors : option bool;
  core : option bool;
  azureOpenAIApiDeploymentName : option string;
  azureOpenAIApiInstanceName : option string;
  azureOpenAIApiVersion : option string;
}.

Record SpecialSettings : Type := {
  maxCompletionTokens : option Q;
  reasoningEffort : option Q;
}.

Record AzureDeployment : Type := {
  dep_modelKey : string;
  dep_modelFamily : string;
  dep_deploymentName : string;
  dep_instanceName : string;
  dep_apiVersion : string;
  dep_apiKey : string;
  dep_specialSettings : option SpecialSettings;
}.

(** The fields of [CopilotSettings] that the orchestration reads.
    [activeModels] may be nullish: [buildModelMap] guards it with [??]. *)
Record CopilotSettings : Type := {
  openAIApiKey : string;
  openAIOrgId : string;
  cohereApiKey : string;
  anthropicApiKey : string;
  modelConfigs : gmap string Config;
  azureOpenAIApiKey : string;
  azureOpenAIApiInstanceName_s : string;
  azureOpenAIApiVersion_s : string;
  googleApiKey : string;
  openRouterAiApiKey : string;
  groqApiKey : string;
  defaultChainType : option ChainType;
  defaultModelKey : string;
  temperature : Q;
  maxTokens : Q;
  userSystemPrompt : string;
  maxSourceChunks : Q;
  debug : bool;
  activeModels : option (list CustomModel);
  azureOpenAIApiDeployments : list AzureDeployment;
}.

(** An entry of [ChatModelManager.modelMap]. *)
Record RegistryEntry : Type := {
  hasApiKey : bool;
  AIConstructor : ChatConstructorType;
  vendor : string;
}.

(** A chain of [ChainFactory], by what it was built from. *)
Inductive RunnableSequence : Type :=
| LLMChain (llm : BaseChatModel) (memory : nat) (prompt : ChatPromptTemplate)
| ConversationalRetrievalChain (llm : BaseChatModel) (retrieverEmbeddings : nat)
    (maxK : Q) (systemMessage : string).

(** The model a chain was built around. *)
Definition llmOf (c : RunnableSequence) : BaseChatModel :=
  match c with
  | LLMChain llm _ _ => llm
  | ConversationalRetrievalChain llm _ _ _ => llm
  end.

(** The options of [setChain] that the chain manager passes. *)
Record SetChainOptions : Type := {
  opt_prompt : option ChatPromptTemplate;
  opt_refreshIndex : bool;
}.

(** A [setChain] call suspended at its first [await], with the locals it
    captured before suspending. *)
Record PendingChain : Type := {
  pc_chainType : ChainType;
  pc_options : SetChainOptions;
  pc_chatModel : BaseChatModel;
  pc_memory : nat;
  pc_chatPrompt : ChatPromptTemplate;
  pc_embeddingsAPI : nat;
}.

(** The process-wide state: the settings atom, the two user atoms of
    [aiParams], the statics of [ChatModelManager] and [ChainManager], the
    built-in model table (its objects can be written through an alias), the
    singletons the chain manager reads, the suspended [setChain] calls, and
    what was shown, logged or called back. *)
Record World : Type := {
  settings : CopilotSettings;
  userModelKey : option string;
  userChainType : option ChainType;
  chatModel : option BaseChatModel;
  modelMap : gmap string RegistryEntry;
  chain : option RunnableSequence;
  retrievalChain : option RunnableSequence;
  builtinModels : list CustomModel;
  chatPrompt : ChatPromptTemplate;
  memoryId : nat;
  embeddingsAPI : option nat;
  pending : list PendingChain;
  events : list Event;
}.

Definition with_settings (f : CopilotSettings → CopilotSettings) (w : World) : World :=
  {| settings := f (settings w); userModelKey := userModelKey w;
     userChainType := userChainType w; chatModel := chatModel w;
     modelMap := modelMap w; chain := chain w;
     retrievalChain := retrievalChain w; builtinModels := builtinModels w;
     chatPrompt := chatPrompt w; memoryId := memoryId w;
     embeddingsAPI := embeddingsAPI w; pending := pending w;
     events := events w |}.

Definition with_userModelKey (k : option string) (w : World) : World :=
  {| settings := settings w; userModelKey := k;
     userChainType := userChainType w; chatModel := chatModel w;
     modelMap := modelMap w; chain := chain w;
     retrievalChain := retrievalChain w; builtinModels := builtinModels w;
     chatPrompt := chatPrompt w; memoryId := memoryId w;
     embeddingsAPI := embeddingsAPI w; pending := pending w;
     events := events w |}.

Definition with_userChainType (c : option ChainType) (w : World) : World :=
  {| settings := settings w; userModelKey := userModelKey w;
     userChainType := c; chatModel := chatModel w; modelMap := modelMap w;
     chain := chain w; retrievalChain := retrievalChain w;
     builtinModels := builtinModels w; chatPrompt := chatPrompt w;
     memoryId := memoryId w; embeddingsAPI := embeddingsAPI w;
     pending := pending w; events := events w |}.

Definition with_chatModel (m : option BaseChatModel) (w : World) : World :=
  {| settings := settings w; userModelKey := userModelKey w;
     userChainType := userChainType w; chatModel := m; modelMap := modelMap w;
     chain := chain w; retrievalChain := retrievalChain w;
     builtinModels := builtinModels w; chatPrompt := chatPrompt w;
     memoryId := memoryId w; embeddingsAPI := embeddingsAPI w;
     pending := pending w; events := events w |}.

Definition with_modelMap (m : gmap string RegistryEntry) (w : World) : World :=
  {| settings := settings w; userModelKey := userModelKey w;
     userChainType := userChainType w; chatModel := chatModel w; modelMap := m;
     chain := chain w; retrievalChain := retrievalChain w;
     builtinModels := builtinModels w; chatPrompt := chatPrompt w;
     memoryId := memoryId w; embeddingsAPI := embeddingsAPI w;
     pending := pending w; events := events w |}.

Definition with_chain (c : option RunnableSequence) (w : World) : World :=
  {| settings := settings w; userModelKey := userModelKey w;
     userChainType := userChainType w; chatModel := chatModel w;
     modelMap := modelMap w; chain := c; retrievalChain := retrievalChain w;
     builtinModels := builtinModels w; chatPrompt := chatPrompt w;
     memoryId := memoryId w; embeddingsAPI := embeddingsAPI w;
     pending := pending w; events := events w |}.

Definition with_retrievalChain (c : option RunnableSequence) (w : World) : World :=
  {| settings := settings w; userModelKey := userModelKey w;
     userChainType := userChainType w; chatModel := chatModel w;
     modelMap := modelMap w; chain := chain w; retrievalChain := c;
     builtinModels := builtinModels w; chatPrompt := chatPrompt w;
     memoryId := memoryId w; embeddingsAPI := embeddingsAPI w;
     pending := pending w; events := events w |}.

Definition with_builtinModels (l : list CustomModel) (w : World) : World :=
  {| settings := settings w; userModelKey := userModelKey w;
     userChainType := userChainType w; chatModel := chatModel w;
     modelMap := modelMap w; chain := chain w;
     retrievalChain := retrievalChain w; builtinModels := l;
     chatPrompt := chatPrompt w; memoryId := memoryId w;
     embeddingsAPI := embeddingsAPI w; pending := pending w;
     events := events w |}.

Definition with_pending (l : list PendingChain) (w : World) : World :=
  {| settings := settings w; userModelKey := userModelKey w;
     userChainType := userChainType w; chatModel := chatModel w;
     modelMap := modelMap w; chain := chain w;
     retrievalChain := retrievalChain w; builtinModels := builtinModels w;
     chatPrompt := chatPrompt w; memoryId := memoryId w;
     embeddingsAPI := embeddingsAPI w; pending := l; events := events w |}.

Definition emit (e : Event) (w : World) : World :=
  {| settings := settings w; userModelKey := userModelKey w;
     userChainType := userChainType w; chatModel := chatModel w;
     modelMap := modelMap w; chain := chain w;
     retrievalChain := retrievalChain w; builtinModels := builtinModels w;
     chatPrompt := chatPrompt w; memoryId := memoryId w;
     embeddingsAPI := embeddingsAPI w; pending := pending w;
     events := events w ++ [e] |}.

(** ** [aiParams]: the model-key and chain-type atoms *)

Definition getModelKey (w : World) : string :=
  default (defaultModelKey (settings w)) (userModelKey w).

Definition setModelKey (k : string) : M World unit :=
  modify (with_userModelKey (Some k)).

Definition getChainType (w : World) : option ChainType :=
  match userChainType w with
  | Some c => Some c
  | None => defaultChainType (settings w)
  end.

Definition setChainType (c : ChainType) : M World unit :=
  modify (with_userChainType (Some c)).

(** [`${model.name}|${model.provider}`]. *)
Definition keyOf (m : CustomModel) : string := name m +:+ "|" +:+ provider m.

Definition findCustomModel (modelKey : string) (models : list CustomModel)
  : option CustomModel :=
  List.find (λ m, String.eqb (keyOf m) modelKey) models.

Definition notice (t : string) : M World unit := modify (emit (ENotice t)).

(** Two states that differ at most in what was shown, logged or called
    back. *)
Definition eventsOnly (w w' : World) : Prop :=
  settings w' = settings w ∧ userModelKey w' = userModelKey w ∧
  userChainType w' = userChainType w ∧ chatModel w' = chatModel w ∧
  modelMap w' = modelMap w ∧ chain w' = chain w ∧
  retrievalChain w' = retrievalChain w ∧ builtinModels w' = builtinModels w ∧
  chatPrompt w' = chatPrompt w ∧ memoryId w' = memoryId w ∧
  embeddingsAPI w' = embeddingsAPI w ∧ pending w' = pending w.

(** Two states that differ at most in the chains, the selected chain type,
    the suspended calls and the events. *)
Definition chainOnly (w w' : World) : Prop :=
  settings w' = settings w ∧ userModelKey w' = userModelKey w ∧
  chatModel w' = chatModel w ∧ modelMap w' = modelMap w ∧
  builtinModels w' = builtinModels w ∧ chatPrompt w' = chatPrompt w ∧
  memoryId w' = memoryId w ∧ embeddingsAPI w' = embeddingsAPI w.

(** Two states that differ at most in the registry and the events. *)
Definition registryOnly (w w' : World) : Prop :=
  settings w' = settings w ∧ userModelKey w' = userModelKey w ∧
  userChainType w' = userChainType w ∧ chatModel w' = chatModel w ∧
  chain w' = chain w ∧ retrievalChain w' = retrievalChain w ∧
  builtinModels w' = builtinModels w ∧ chatPrompt w' = chatPrompt w ∧
  memoryId w' = memoryId w ∧ embeddingsAPI w' = embeddingsAPI w ∧
  pending w' = pending w.

Definition consoleError (t : string) (arg : option Thrown) : M World unit :=
  modify (emit (EConsoleError t arg)).

Definition consoleWarn (t : string) : M World unit := modify (emit (EConsoleWarn t)).

Definition consoleLog (t : string) : M World unit := modify (emit (EConsoleLog t)).

(** [array.forEach(f)]: a throwing callback ends the loop. *)
Fixpoint forEach {A} (l : list A) (f : A → M World unit) : M World unit :=
  match l with
  | [] => ret tt
  | x :: rest => f x ;; forEach rest f
  end.

Definition safetySettings : Value :=
  VArr (map (λ c, VObj [("category", VStr c); ("threshold", VStr "BLOCK_NONE")])
          ["HARM_CATEGORY_SEXUALLY_EXPLICIT"; "HARM_CATEGORY_HATE_SPEECH";
           "HARM_CATEGORY_DANGEROUS_CONTENT"; "HARM_CATEGORY_HARASSMENT"]).

(** The handler that strips unsupported parameters when an o1-preview call
    starts; the list it keeps. *)
Definition o1PreviewSupportedParameters : list string :=
  ["modelName"; "temperature"; "maxCompletionTokens"; "stop";
   "presencePenalty"; "frequencyPenalty"; "logitBias"; "user";
   "azureOpenAIApiKey"; "azureOpenAIApiInstanceName";
   "azureOpenAIApiDeploymentName"; "azureOpenAIApiVersion"].

Section Manager.
Context (X : Externals).

Definition isProvider (p : ChatModelProviders) (m : CustomModel) : bool :=
  String.eqb (provider m) (providerTag X p).

(** [customModel.enableCors ? safeFetch : undefined]. *)
Definition fetchOf (m : CustomModel) : Value :=
  if default false (enableCors m) then VFun "safeFetch" else VUndef.

Definition configurationOf (baseURL : Value) (m : CustomModel) : Value :=
  VObj [("baseURL", baseURL); ("fetch", fetchOf m)].

(** [settings.modelConfigs[modelKey]?.field]. *)
Definition modelConfigField (w : World) (modelKey field : string) : Value :=
  match modelConfigs (settings w) !! modelKey with
  | Some c => getProp c field
  | None => VUndef
  end.

Definition handleAzureOpenAIExtraArgs (w : World) (isO1PreviewModel : bool)
    (maxTokens temperature : Q) : Config :=
  let reasoningEffort := modelConfigField w (getModelKey w) "reasoningEffort" in
  if isO1PreviewModel then
    obj [("maxCompletionTokens", VNum maxTokens);
         ("temperature", VNum 1);
         ("extraParams",
          VObj (if truthy reasoningEffort
                then [("reasoning_effort", reasoningEffort)] else []))]
  else
    obj [("maxTokens", VNum maxTokens); ("temperature", VNum temperature)].

(** The table [providerConfig] of [getModelConfig], one entry per provider. *)
Definition providerConfig (w : World) (customModel : CustomModel)
    (p : ChatModelProviders) : Config :=
  let s := settings w in
  let modelKey := getModelKey w in
  let modelName := name customModel in
  let isO1PreviewModel := String.eqb modelName "o1-preview" in
  let extra := handleAzureOpenAIExtraArgs w isO1PreviewModel (maxTokens s) (temperature s) in
  let key (fallback : string) :=
    VStr (getDecryptedKey X (strOr (apiKey customModel) fallback)) in
  match p with
  | OPENAI =>
      spread (obj [("modelName", VStr modelName);
                   ("openAIApiKey", key (openAIApiKey s));
                   ("configuration",
                    configurationOf (ofOptStr (baseUrl customModel)) customModel)])
             extra
  | ANTHROPIC =>
      obj [("anthropicApiKey", key (anthropicApiKey s));
           ("modelName", VStr modelName);
           ("anthropicApiUrl", ofOptStr (baseUrl customModel));
           ("clientOptions",
            VObj [("defaultHeaders",
                   VObj [("anthropic-dangerous-direct-browser-access", VStr "true")]);
                  ("fetch", fetchOf customModel)])]
  | AZURE_OPENAI =>
      spread
        (spread
           (spread
              (obj [("azureOpenAIApiKey", key (azureOpenAIApiKey s));
                    ("azureOpenAIApiInstanceName",
                     VStr (strOr (azureOpenAIApiInstanceName customModel) ""));
                    ("azureOpenAIApiDeploymentName",
                     if isProvider AZURE_OPENAI customModel
                     then vOr (modelConfigField w modelKey "azureOpenAIApiDeploymentName")
                              (VStr "")
                     else VStr "");
                    ("azureOpenAIApiVersion", VStr (azureOpenAIApiVersion_s s))])
              extra)
           (obj [("configuration",
                  configurationOf (ofOptStr (baseUrl customModel)) customModel)]))
        (if isO1PreviewModel
         then obj [("callbacks", VArr [VObj [("handleLLMStart", VFun "handleLLMStart")]])]
         else ∅)
  | COHEREAI =>
      obj [("apiKey", key (cohereApiKey s)); ("model", VStr modelName)]
  | GOOGLE =>
      obj [("apiKey", key (googleApiKey s));
           ("modelName", VStr modelName);
           ("safetySettings", safetySettings);
           ("baseUrl", ofOptStr (baseUrl customModel))]
  | OPENROUTERAI =>
      obj [("modelName", VStr modelName);
           ("openAIApiKey", key (openRouterAiApiKey s));
           ("configuration",
            configurationOf (VStr (strOr (baseUrl customModel) "https://openrouter.ai/api/v1"))
                            customModel)]
  | GROQ =>
      obj [("apiKey", key (groqApiKey s)); ("modelName", VStr modelName)]
  | OLLAMA =>
      obj [("model", VStr modelName);
           ("apiKey", VStr (strOr (apiKey customModel) "default-key"));
           ("baseUrl", VStr (strOr (baseUrl customModel) "http://localhost:11434"))]
  | LM_STUDIO =>
      obj [("modelName", VStr modelName);
           ("openAIApiKey", VStr (strOr (apiKey customModel) "default-key"));
           ("configuration",
            configurationOf (VStr (strOr (baseUrl customModel) "http://localhost:1234/v1"))
                            customModel)]
  | OPENAI_FORMAT =>
      spread (obj [("modelName", VStr modelName);
                   ("openAIApiKey", key (openAIApiKey s));
                   ("configuration",
                    VObj [("baseURL", ofOptStr (baseUrl customModel));
                          ("fetch", fetchOf customModel);
                          ("dangerouslyAllowBrowser", VBool true)])])
             extra
  end.

Definition invalidMaxTokens : string :=
  "Invalid maxTokens value in settings. Please use a positive integer.".

Definition invalidTemperature : string :=
  "Invalid temperature value in settings. Please use a number between 0 and 2.".

Definition getModelConfig (customModel : CustomModel) : M World Config :=
  let* w := gets id in
  let s := settings w in
  let modelKey := getModelKey w in
  let modelName := name customModel in
  let baseConfig : Config :=
    obj [("modelName", VStr modelName);
         ("temperature", VNum (temperature s));
         ("streaming", VBool true);
         ("maxRetries", VNum 3);
         ("maxConcurrency", VNum 3);
         ("enableCors", ofOptBool (enableCors customModel));
         ("azureOpenAIApiDeploymentName",
          vOr (modelConfigField w modelKey "azureOpenAIApiDeploymentName") (VStr ""));
         ("azureOpenAIApiInstanceName",
          vOr (modelConfigField w modelKey "azureOpenAIApiInstanceName") (VStr ""));
         ("azureOpenAIApiVersion",
          vOr (modelConfigField w modelKey "azureOpenAIApiVersion") (VStr ""))] in
  if Qle_bool (maxTokens s) 0 || negb (isInteger (maxTokens s)) then
    notice invalidMaxTokens ;; throw (mkError invalidMaxTokens)
  else if Qltb (temperature s) 0 || Qltb 2 (temperature s) then
    notice invalidTemperature ;; throw (mkError invalidTemperature)
  else
    let selectedProviderConfig : Config :=
      match providerOf X (provider customModel) with
      | Some p => providerConfig w customModel p
      | None => ∅
      end in
    let selectedProviderConfig :=
      if isProvider OPENAI customModel && negb (String.eqb (openAIOrgId s) "")
      then <["openAIOrgId" := VStr (getDecryptedKey X (openAIOrgId s))]> selectedProviderConfig
      else selectedProviderConfig in
    ret (spread baseConfig selectedProviderConfig).

(** [settings.azureOpenAIApiDeployments.find(d => d.modelKey === modelKey)]
    for the current model key. *)
Definition deploymentFor (w : World) : option AzureDeployment :=
  List.find (λ d, String.eqb (dep_modelKey d) (getModelKey w))
            (azureOpenAIApiDeployments (settings w)).

Definition getAzureModelConfig (customModel : CustomModel) : M World Config :=
  let* w := gets id in
  let s := settings w in
  let modelKey := getModelKey w in
  let isO1PreviewModel := String.eqb (name customModel) "o1-preview" in
  match deploymentFor w with
  | None => throw (mkError ("No Azure deployment found for model: " +:+ modelKey))
  | Some deployment =>
      let baseConfig : Config :=
        obj [("modelName", VStr (name customModel));
             ("temperature", VNum (temperature s));
             ("streaming", VBool true);
             ("maxRetries", VNum 3);
             ("maxConcurrency", VNum 3);
             ("enableCors", ofOptBool (enableCors customModel));
             ("azureOpenAIApiDeploymentName", VStr (dep_deploymentName deployment));
             ("azureOpenAIApiInstanceName", VStr (dep_instanceName deployment));
             ("azureOpenAIApiVersion", VStr (dep_apiVersion deployment))] in
      let azureConfig : Config :=
        spread baseConfig
          (obj [("azureOpenAIApiKey", VStr (getDecryptedKey X (dep_apiKey deployment)));
                ("azureOpenAIApiInstanceName", VStr (dep_instanceName deployment));
                ("azureOpenAIApiDeploymentName", VStr (dep_deploymentName deployment));
                ("azureOpenAIApiVersion", VStr (dep_apiVersion deployment));
                ("configuration",
                 configurationOf (ofOptStr (baseUrl customModel)) customModel)]) in
      let special := dep_specialSettings deployment in
      ret (if isO1PreviewModel then
             <["maxTokens" := VUndef]>
               (<["streaming" := VBool false]>
                  (<["temperature" := VNum 1]>
                     (<["reasoningEffort" := ofOptNum (special ≫= reasoningEffort)]>
                        (<["maxCompletionTokens" :=
                             ofOptNum (special ≫= maxCompletionTokens)]> azureConfig))))
           else azureConfig)
  end.

Definition getChatModelConfiguration (modelKey : string) : M World Config :=
  let* w := gets id in
  match activeModels (settings w) with
  | None =>
      throw (mkError "Cannot read properties of undefined (reading 'find')")
  | Some models =>
      match findCustomModel modelKey models with
      | None => throw (mkError ("Model config not found for key: " +:+ modelKey))
      | Some model =>
          if isProvider AZURE_OPENAI model
          then getAzureModelConfig model
          else getModelConfig model
      end
  end.

(** ** The registry *)

Definition providerApiKeyMap (s : CopilotSettings) (p : ChatModelProviders) : string :=
  match p with
  | OPENAI => openAIApiKey s
  | GOOGLE => googleApiKey s
  | AZURE_OPENAI => azureOpenAIApiKey s
  | ANTHROPIC => anthropicApiKey s
  | COHEREAI => cohereApiKey s
  | OPENROUTERAI => openRouterAiApiKey s
  | GROQ => groqApiKey s
  | OLLAMA => "default-key"
  | LM_STUDIO => "default-key"
  | OPENAI_FORMAT => "default-key"
  end.

Definition unknownProvider (model : CustomModel) : string :=
  "Unknown provider: " +:+ provider model +:+ " for model: " +:+ name model.

Definition getProviderConstructor (model : CustomModel) : M World ChatConstructorType :=
  match providerOf X (provider model) with
  | Some p => ret (CHAT_PROVIDER_CONSTRUCTORS p)
  | None =>
      consoleWarn (unknownProvider model) ;;
      throw (mkError (unknownProvider model))
  end.

(** [model.apiKey || getDefaultApiKey()], where [getDefaultApiKey] is the
    entry of [providerApiKeyMap] for the provider string. *)
Definition apiKeyOrDefault (w : World) (model : CustomModel) : Result string :=
  if optTruthy (apiKey model) then Ok (strOr (apiKey model) "")
  else match providerOf X (provider model) with
       | Some p => Ok (providerApiKeyMap (settings w) p)
       | None => Throw (mkError "getDefaultApiKey is not a function")
       end.

(** The body of the [forEach] callback of [buildModelMap]. *)
Definition registerModel (model : CustomModel) : M World unit :=
  if enabled model then
    if negb (isKnownProvider X (provider model)) then
      consoleWarn (unknownProvider model)
    else
      let* constructor := getProviderConstructor model in
      let* w := gets id in
      let* apiKey' := liftR (apiKeyOrDefault w model) in
      let modelKey := keyOf model in
      modify (λ w, with_modelMap
                     (<[modelKey := {| hasApiKey := optTruthy (apiKey model) || negb (String.eqb apiKey' "");
                                       AIConstructor := constructor;
                                       vendor := provider model |}]> (modelMap w)) w)
  else ret tt.

Definition buildModelMap : M World unit :=
  let* w := gets id in
  let activeModels := activeModels (settings w) in
  modify (with_modelMap ∅) ;;
  let allModels := default (builtinModels w) activeModels in
  forEach allModels registerModel.

(** The registry the descriptors call for, entry by entry: a disabled
    descriptor and one with an unrecognized provider add nothing; the others
    are entered under their key, with credentials present when the
    descriptor has a key or the provider has a default one. *)
Definition expectedEntry (s : CopilotSettings) (model : CustomModel)
  : option RegistryEntry :=
  if enabled model then
    match providerOf X (provider model) with
    | Some p =>
        Some {| hasApiKey :=
                  optTruthy (apiKey model) ||
                  negb (String.eqb (providerApiKeyMap s p) "");
                AIConstructor := CHAT_PROVIDER_CONSTRUCTORS p;
                vendor := provider model |}
    | None => None
    end
  else None.

Definition expectedRegistry (s : CopilotSettings) (models : list CustomModel)
  : gmap string RegistryEntry :=
  foldl (λ m model,
           match expectedEntry s model with
           | Some e => <[keyOf model := e]> m
           | None => m
           end) ∅ models.

Definition noChatModel : string :=
  "No valid chat model available. Please check your API key settings.".

Definition getChatModel : M World BaseChatModel :=
  let* w := gets id in
  match chatModel w with
  | Some m => ret m
  | None => throw (mkError noChatModel)
  end.

Definition requiredFields : list string :=
  ["azureOpenAIApiKey"; "azureOpenAIApiInstanceName";
   "azureOpenAIApiDeploymentName"; "azureOpenAIApiVersion"].

Definition missingField (field modelKey : string) : string :=
  "Missing required field: " +:+ field +:+ " for Azure OpenAI model: " +:+ modelKey.

Definition noApiKey (modelKey : string) : string :=
  "API key is not provided for the model: " +:+ modelKey +:+ ". Model switch failed.".

Definition setChatModel (model : CustomModel) : M World unit :=
  let modelKey := keyOf model in
  let* w := gets id in
  match modelMap w !! modelKey with
  | None => throw (mkError ("No model found for: " +:+ modelKey))
  | Some selectedModel =>
      if negb (hasApiKey selectedModel) then
        notice (noApiKey modelKey) ;; throw (mkError (noApiKey modelKey))
      else
        let* modelConfig :=
          (if isProvider AZURE_OPENAI model
           then getAzureModelConfig model
           else getModelConfig model) in
        (if isProvider AZURE_OPENAI model then
           forEach requiredFields (λ field,
             if negb (truthy (getProp modelConfig field)) then
               notice (missingField field modelKey) ;;
               throw (mkError (missingField field modelKey))
             else ret tt)
         else ret tt) ;;
        setModelKey modelKey ;;
        tryCatch
          (let* newModelInstance :=
             liftR (newModel X (AIConstructor selectedModel) modelConfig) in
           modify (with_chatModel (Some newModelInstance)))
          (λ error,
             consoleError "" (Some error) ;;
             notice ("Error creating model: " +:+ modelKey))
  end.

(** [chatModel !== undefined && chatModel !== null]. *)
Definition validateChatModel (m : option BaseChatModel) : bool :=
  match m with Some _ => true | None => false end.

Definition validateCurrentModel : M World unit :=
  let* w := gets id in
  match chatModel w with
  | None => ret tt
  | Some _ =>
      let currentModelKey := getModelKey w in
      if String.eqb currentModelKey "" then ret tt
      else
        match modelMap w !! currentModelKey with
        | Some selectedModel =>
            if hasApiKey selectedModel then ret tt
            else
              modify (with_chatModel None) ;;
              consoleLog "Failed to reinitialize model due to missing API key"
        | None =>
            modify (with_chatModel None) ;;
            consoleLog "Failed to reinitialize model due to missing API key"
        end
  end.

(** ** Ping, with CORS first when the descriptor asks for it *)

Definition withCors (model : CustomModel) (c : bool) : CustomModel :=
  {| name := name model; provider := provider model; baseUrl := baseUrl model;
     apiKey := apiKey model; enabled := enabled model;
     isEmbeddingModel := isEmbeddingModel model; isBuiltIn := isBuiltIn model;
     enableCors := Some c; core := core model;
     azureOpenAIApiDeploymentName := azureOpenAIApiDeploymentName model;
     azureOpenAIApiInstanceName := azureOpenAIApiInstanceName model;
     azureOpenAIApiVersion := azureOpenAIApiVersion model |}.

Definition tryPing (model : CustomModel) (enableCors : bool) : M World unit :=
  let modelToTest := withCors model enableCors in
  let* modelConfig :=
    (if isProvider AZURE_OPENAI model
     then getAzureModelConfig modelToTest
     else getModelConfig modelToTest) in
  let pingConfig := delete "temperature" (delete "streaming" modelConfig) in
  let* constructor := getProviderConstructor model in
  let* testModel := liftR (newModel X constructor pingConfig) in
  tryCatch
    (let* _ := liftR (invoke X testModel "ping") in ret tt)
    (λ error, consoleError "Ping failed:" (Some error) ;; throw error).

Definition ping (model : CustomModel) : M World bool :=
  tryCatch
    (tryPing model (default true (enableCors model)) ;; ret true)
    (λ error,
       if default false (enableCors model) then
         tryCatch
           (tryPing model false ;;
            consoleWarn
              "Ping succeeded without CORS. Consider disabling CORS for this model." ;;
            ret true)
           (λ errorWithoutCors,
              consoleError "Ping failed without CORS:" (Some errorWithoutCors) ;;
              ret false)
       else
         consoleError "Ping failed:" (Some error) ;; ret false).

(** ** The settings subscription and the o1-preview callback *)

(** The callback the constructor registers with [subscribeToSettingsChange]. *)
Definition settingsChanged : M World unit :=
  buildModelMap ;; validateCurrentModel.

(** The loop of [handleLLMStart] over [Object.keys(serialized)]: a key off
    the supported list is deleted from the object, with a warning. *)
Definition removingUnsupported (key : string) : string :=
  "Removing unsupported parameter for o1-preview: " +:+ key.

Definition removeUnsupported (keys : list string) (serialized : Config)
  : Config * list Event :=
  foldl (λ acc key,
           if bool_decide (key ∈ o1PreviewSupportedParameters) then acc
           else (delete key acc.1,
                 (acc.2 ++ [EConsoleWarn (removingUnsupported key)])%list))
        (serialized, []) keys.

Definition stripUnsupported (serialized : Config) : Config * list Event :=
  removeUnsupported (map fst (map_to_list serialized)) serialized.

(** [handleLLMStart], by what [llm.toJSON] is: absent, or a function whose
    result has [kwargs] or not. The result is [kwargs] as the handler leaves
    it, and what it logged. *)
Definition handleLLMStart (llm : option (option Config))
  : Result (option Config * list Event) :=
  match llm with
  | None => Ok (None, [])
  | Some None => Throw (mkError "Cannot convert undefined or null to object")
  | Some (Some serialized) =>
      let out := stripUnsupported serialized in Ok (Some out.1, out.2)
  end.

End Manager.

End V1.

(** * The chain manager *)
Module ChainManager.
Import V1.

Definition nl : string := String (Ascii.ascii_of_nat 10) "".

(** [history] placeholder, then the human input: a prompt without a system
    message. *)
Definition systemFreePrompt : ChatPromptTemplate :=
  [MessagesPlaceholder "history"; HumanMessagePromptTemplate "{input}"].

Definition noOptions : SetChainOptions :=
  {| opt_prompt := None; opt_refreshIndex := false |}.

Record RunOptions : Type := {
  opt_debug : bool;
  opt_ignoreSystemMessage : bool;
}.

(** [String(error)]. *)
Definition stringOf (e : Thrown) : string :=
  match e with
  | JsError m _ => "Error: " +:+ m
  | JsObject _ => "[object Object]"
  | JsOther s => s
  end.

(** [modelName || model || ""] read off the chat model object. *)
Definition modelNameOf (m : BaseChatModel) : Value :=
  vOr (getProp (mi_props m) "modelName") (vOr (getProp (mi_props m) "model") (VStr "")).

Definition isO1PreviewInstance (m : BaseChatModel) : bool :=
  isStr (modelNameOf m) "o1-preview".

Section ChainManager.
Context (X : Externals).

(** The vector store manager: opening the database and re-indexing either
    complete or throw. *)
Context (getOrInitializeDb : nat → Result nat).
Context (indexVaultToVectorStore : Result unit).

(** The chain runners of [chainRunner]: given the chain type and the state
    they read, what a run returns or throws and what it reports through its
    callbacks. The runners are taken not to reassign the statics of the two
    managers. *)
Context (chainRunnerRun :
  ChainType → World → ChatMessage → RunOptions → Result string * list Event).

Definition getSystemPrompt (w : World) : string :=
  let userPrompt := userSystemPrompt (settings w) in
  if negb (String.eqb userPrompt "")
  then DEFAULT_SYSTEM_PROMPT X +:+ nl +:+ nl +:+ userPrompt
  else DEFAULT_SYSTEM_PROMPT X.

Definition validateChainType (chainType : option ChainType) : M World unit :=
  match chainType with
  | None => throw (mkError "No chain type set")
  | Some _ => ret tt
  end.

Definition chatModelNotInitialized : string :=
  "Chat model is not initialized properly, check your API key in Copilot setting and make sure you have API access.".

Definition validateChatModel : M World unit :=
  let* m := getChatModel in
  if negb (V1.validateChatModel (Some m)) then
    notice chatModelNotInitialized ;; throw (mkError chatModelNotInitialized)
  else ret tt.

Definition getEffectivePrompt (w : World) (customModel : CustomModel)
  : ChatPromptTemplate :=
  let isO1PreviewModel := String.eqb (name customModel) "o1-preview" in
  let effectivePrompt := systemFreePrompt in
  if negb isO1PreviewModel
  then RoleMessage (AI_SENDER X) (getSystemPrompt w) :: effectivePrompt
  else effectivePrompt.

Definition noEmbeddings : string :=
  "Error getting embeddings API. Please check your settings.".

(** [setChain] up to its first suspension: [None] when the call ran to its
    end, the suspended call when it stopped at the [await] on the vector
    store. A throw here is the rejection of the promise. *)
Definition setChain (chainType : option ChainType) (options : SetChainOptions)
  : M World (option PendingChain) :=
  let* m := getChatModel in
  if negb (V1.validateChatModel (Some m)) then
    consoleError "setChain failed: No chat model set." None ;; ret None
  else
    validateChainType chainType ;;
    let* chatModel := getChatModel in
    let* w := gets id in
    let memory := memoryId w in
    let chatPrompt := chatPrompt w in
    match chainType with
    | Some LLM_CHAIN =>
        modify (with_chain
                  (Some (LLMChain chatModel memory
                           (default chatPrompt (opt_prompt options))))) ;;
        setChainType LLM_CHAIN ;;
        ret None
    | Some ct =>
        match embeddingsAPI w with
        | None => throw (mkError noEmbeddings)
        | Some api =>
            ret (Some {| pc_chainType := ct; pc_options := options;
                         pc_chatModel := chatModel; pc_memory := memory;
                         pc_chatPrompt := chatPrompt; pc_embeddingsAPI := api |})
        end
    | None => validateChainType chainType ;; ret None
    end.

(** The rest of a suspended [setChain], from the [await] on. *)
Definition resumeSetChain (t : PendingChain) : M World unit :=
  let* _ := liftR (getOrInitializeDb (pc_embeddingsAPI t)) in
  (if opt_refreshIndex (pc_options t) then liftR indexVaultToVectorStore else ret tt) ;;
  match pc_chainType t with
  | VAULT_QA_CHAIN =>
      let* w := gets id in
      modify (with_retrievalChain
                (Some (ConversationalRetrievalChain (pc_chatModel t)
                         (pc_embeddingsAPI t) (maxSourceChunks (settings w))
                         (getSystemPrompt w)))) ;;
      setChainType VAULT_QA_CHAIN ;;
      let* w := gets id in
      if debug (settings w) then
        consoleLog "New Vault QA chain with hybrid retriever created for entire vault" ;;
        consoleLog "Set chain:"
      else ret tt
  | COPILOT_PLUS_CHAIN =>
      modify (with_chain
                (Some (LLMChain (pc_chatModel t) (pc_memory t)
                         (default (pc_chatPrompt t) (opt_prompt (pc_options t)))))) ;;
      setChainType COPILOT_PLUS_CHAIN
  | LLM_CHAIN => ret tt
  end.

(** A call of an async function whose promise is dropped: it runs to its
    first suspension; a rejection reaches no handler. *)
Definition unawaited (c : M World (option PendingChain)) : M World unit :=
  tryCatch
    (let* r := c in
     match r with
     | Some t => modify (λ w, with_pending (pending w ++ [t]) w)
     | None => ret tt
     end)
    (λ e, modify (emit (EUnhandledRejection e))).

(** One turn of the event loop: the oldest suspended [setChain] resumes. *)
Definition resumeNext : M World unit :=
  let* w := gets id in
  match pending w with
  | [] => ret tt
  | t :: rest =>
      modify (with_pending rest) ;;
      tryCatch (resumeSetChain t) (λ e, modify (emit (EUnhandledRejection e)))
  end.

Definition isSupportedChain (c : RunnableSequence) : bool := true.

Definition validateChainInitialization : M World unit :=
  let* w := gets id in
  if match chain w with Some c => negb (isSupportedChain c) | None => true end then
    consoleError "Chain is not initialized properly, re-initializing chain: " None ;;
    unawaited (setChain (getChainType w) noOptions)
  else ret tt.

(** Where a descriptor object lives: [createChainWithNewModel] writes to
    the object it found, which stays in the settings or in the built-in
    table. *)
Inductive Origin : Type := FromActiveModels | FromBuiltins.

(** Replace the first element that satisfies [p]. *)
Fixpoint replaceFirst {A} (p : A → bool) (new : A) (l : list A) : list A :=
  match l with
  | [] => []
  | x :: rest => if p x then new :: rest else x :: replaceFirst p new rest
  end.

(** Store the written descriptor back where the object lives. *)
Definition writeBack (origin : Origin) (modelKey : string) (m : CustomModel)
  : M World unit :=
  match origin with
  | FromActiveModels =>
      modify (with_settings (λ s,
        {| openAIApiKey := openAIApiKey s; openAIOrgId := openAIOrgId s;
           cohereApiKey := cohereApiKey s; anthropicApiKey := anthropicApiKey s;
           modelConfigs := modelConfigs s; azureOpenAIApiKey := azureOpenAIApiKey s;
           azureOpenAIApiInstanceName_s := azureOpenAIApiInstanceName_s s;
           azureOpenAIApiVersion_s := azureOpenAIApiVersion_s s;
           googleApiKey := googleApiKey s;
           openRouterAiApiKey := openRouterAiApiKey s; groqApiKey := groqApiKey s;
           defaultChainType := defaultChainType s;
           defaultModelKey := defaultModelKey s; temperature := temperature s;
           maxTokens := maxTokens s; userSystemPrompt := userSystemPrompt s;
           maxSourceChunks := maxSourceChunks s; debug := debug s;
           activeModels :=
             replaceFirst (λ x, String.eqb (keyOf x) modelKey) m <$> activeModels s;
           azureOpenAIApiDeployments := azureOpenAIApiDeployments s |}))
  | FromBuiltins =>
      modify (λ w, with_builtinModels
                     (match builtinModels w with
                      | [] => []
                      | _ :: rest => m :: rest
                      end) w)
  end.

(** The four assignments that copy a deployment onto the descriptor. *)
Definition applyDeployment (d : AzureDeployment) (m : CustomModel) : CustomModel :=
  {| name := name m; provider := provider m; baseUrl := baseUrl m;
     apiKey := Some (dep_apiKey d); enabled := enabled m;
     isEmbeddingModel := isEmbeddingModel m; isBuiltIn := isBuiltIn m;
     enableCors := enableCors m; core := core m;
     azureOpenAIApiDeploymentName := Some (dep_deploymentName d);
     azureOpenAIApiInstanceName := Some (dep_instanceName d);
     azureOpenAIApiVersion := Some (dep_apiVersion d) |}.

(** The first statements of the [try] block: the descriptor for the current
    key, or the first built-in model and its key. *)
Definition resolveModel (newModelKey : string)
  : M World (CustomModel * string * Origin) :=
  let* w := gets id in
  match activeModels (settings w) with
  | None => throw (mkError "Cannot read properties of undefined (reading 'find')")
  | Some models =>
      match findCustomModel newModelKey models with
      | Some customModel => ret (customModel, newModelKey, FromActiveModels)
      | None =>
          consoleError
            ("Resetting to default model. No model configuration found for: "
             +:+ newModelKey) None ;;
          match builtinModels w with
          | customModel :: _ => ret (customModel, keyOf customModel, FromBuiltins)
          | [] => throw (mkError "Cannot read properties of undefined (reading 'name')")
          end
      end
  end.

(** The rest of the [try] block. *)
Definition activateModel (customModel : CustomModel) (newModelKey : string)
    (origin : Origin) : M World unit :=
  let* customModel :=
    (if String.eqb (provider customModel) "azure openai" then
       let* w := gets id in
       match List.find (λ d, String.eqb (dep_modelKey d) newModelKey)
                       (azureOpenAIApiDeployments (settings w)) with
       | Some deployment =>
           let written := applyDeployment deployment customModel in
           writeBack origin newModelKey written ;; ret written
       | None => ret customModel
       end
     else ret customModel) in
  setChatModel X customModel ;;
  let* w := gets id in
  unawaited (setChain (getChainType w)
               {| opt_prompt := Some (getEffectivePrompt w customModel);
                  opt_refreshIndex := false |}) ;;
  consoleLog ("Model successfully set to " +:+ newModelKey).

(** The [catch] block, with the value [newModelKey] holds when it runs. *)
Definition rebuildFailed (newModelKey : string) (error : Thrown) : M World unit :=
  consoleError "createChainWithNewModel failed:" (Some error) ;;
  consoleLog ("modelKey: " +:+ newModelKey).

(** The [try] block. [newModelKey] is a [let] that the fallback rewrites,
    and the [catch] block reads it: the block is returned with the value
    the variable holds when the block ends or throws. *)
Definition rebuild (newModelKey : string) (w : World)
  : Result unit * string * World :=
  match resolveModel newModelKey w with
  | (Throw e, w1) => (Throw e, newModelKey, w1)
  | (Ok (customModel, newModelKey', origin), w1) =>
      let out := activateModel customModel newModelKey' origin w1 in
      (out.1, newModelKey', out.2)
  end.

Definition createChainWithNewModel : M World unit :=
  λ w,
    match rebuild (getModelKey w) w with
    | (Ok _, _, w') => (Ok tt, w')
    | (Throw error, newModelKey, w') => rebuildFailed newModelKey error w'
    end.

Definition getChainRunner : M World ChainType :=
  let* w := gets id in
  match getChainType w with
  | Some c => ret c
  | None => throw (mkError "Unsupported chain type: undefined")
  end.

Definition o1NoSystemMessages : string :=
  "Error: o1-preview models do not support system messages.".

(** [runChain] up to its [try]: the checks, the prompt substitution and
    the choice of the runner. *)
Definition prepareTurn (userMessage : ChatMessage) (options : RunOptions)
  : M World (BaseChatModel * ChainType) :=
  (if opt_debug options
   then consoleLog "==== Step 0: Initial user message ====" else ret tt) ;;
  validateChatModel ;;
  validateChainInitialization ;;
  let* chatModel := getChatModel in
  let isO1PreviewModel := isO1PreviewInstance chatModel in
  (if opt_ignoreSystemMessage options || isO1PreviewModel then
     let effectivePrompt := systemFreePrompt in
     let* w := gets id in
     unawaited (setChain (getChainType w)
                  {| opt_prompt := Some effectivePrompt; opt_refreshIndex := false |})
   else ret tt) ;;
  let* chainRunner := getChainRunner in
  ret (chatModel, chainRunner).

(** [chainRunner.run(...)]: its callbacks are recorded, its result or its
    failure is passed on. *)
Definition runRunner (chainRunner : ChainType) (userMessage : ChatMessage)
    (options : RunOptions) : M World string :=
  let* w := gets id in
  let out := chainRunnerRun chainRunner w userMessage options in
  modify (λ w, fold_left (λ w e, emit e w) out.2 w) ;;
  liftR out.1.

(** The text of the [catch] block for an o1-preview model. *)
Definition o1ErrorMessage (error : Thrown) : string :=
  match error with
  | JsError m _ =>
      if includes "system message" m then o1NoSystemMessages
      else "Error in o1-preview model: " +:+ m
  | _ => "Error in o1-preview model: " +:+ stringOf error
  end.

Definition runChain (userMessage : ChatMessage) (options : RunOptions)
  : M World string :=
  let* prepared := prepareTurn userMessage options in
  let chatModel := prepared.1 in
  let chainRunner := prepared.2 in
  let isO1PreviewModel := isO1PreviewInstance chatModel in
  tryCatch
    (runRunner chainRunner userMessage options)
    (λ error,
       if isO1PreviewModel then
         consoleError "Error in o1-preview model execution:" (Some error) ;;
         let errorMessage := o1ErrorMessage error in
         modify (emit (EAddMessage {| message := errorMessage;
                                      sender := AI_SENDER X;
                                      isVisible := true;
                                      timestamp := formatDateTimeNow X |})) ;;
         ret errorMessage
       else throw error).

(** ** Reloading a saved conversation *)

(** The calls [updateMemoryWithLoadedMessages] makes on the memory. *)
Inductive MemoryCall : Type :=
| ClearChatMemory
| SaveContext (input output : string).

Context (USER_SENDER : string).

(** The loop [for (i = 0; i < messages.length; i += 2)]: the messages are
    taken two by two; a pair is saved when its second message exists and
    its first one was sent by the user. *)
Fixpoint savePairs (messages : list ChatMessage) : list MemoryCall :=
  match messages with
  | [] => []
  | [userMsg] => []
  | userMsg :: aiMsg :: rest =>
      (if String.eqb (sender userMsg) USER_SENDER
       then [SaveContext (message userMsg) (message aiMsg)] else [])
      ++ savePairs rest
  end.

Definition updateMemoryWithLoadedMessages (messages : list ChatMessage)
  : list MemoryCall :=
  ClearChatMemory :: savePairs messages.

End ChainManager.

End ChainManager.

(** * One streamed or single-shot answer ([getAIResponse]) *)
Module LangchainStream.
Import V1.

(** A fragment of the response stream: a plain string, or a message chunk
    with a [content] property of any type. *)
Inductive Chunk : Type :=
| ChunkText (s : string)
| ChunkMessage (content : Value).

(** [typeof chunk === "string" ? chunk : chunk.content]. *)
Definition contentOf (c : Chunk) : Value :=
  match c with
  | ChunkText s => VStr s
  | ChunkMessage v => v
  end.



(** The messages handed to [addMessage], oldest first. *)
Definition addedMessages (evs : list Event) : list ChatMessage :=
  omap (λ e, match e with EAddMessage m => Some m | _ => None end) evs.

(** An opened stream: the fragments it yields, then a clean end or a
    failure. *)
Record ChatStream : Type := {
  chunks : list Chunk;
  failure : option Thrown;
}.

(** The [for await] loop over the stream. The controller that
    [getAIResponse] creates and hands to [updateShouldAbort] is set from
    outside, between two fragments: [aborted i] is what
    [abortController.signal.aborted] reads when the fragment of index [i]
    (from 0) has been received and not yet used. *)
Fixpoint consume (aborted : nat → bool) (i : nat) (rest : list Chunk)
    (failure : option Thrown) (fullAIResponse : string) : M World string :=
  match rest with
  | [] =>
      match failure with
      | Some e => throw e
      | None => ret fullAIResponse
      end
  | chunk :: rest' =>
      if aborted i then ret fullAIResponse
      else
        match contentOf chunk with
        | VStr content =>
            let fullAIResponse' := fullAIResponse +:+ content in
            modify (emit (EUpdateCurrentAiMessage fullAIResponse')) ;;
            consume aborted (S i) rest' failure fullAIResponse'
        | _ => consume aborted (S i) rest' failure fullAIResponse
        end
  end.

Section GetAIResponse.
Context (X : Externals).

(** The conversation memory and the chain, as called here. *)
Context (loadMemoryVariables : nat → option string → Result Value).
Context (chainStream : RunnableSequence → Value → string → Result ChatStream).

Definition aiMessage (text : string) : ChatMessage :=
  {| message := text; sender := AI_SENDER X; isVisible := true;
     timestamp := formatDateTimeNow X |}.

Definition addMessage (m : ChatMessage) : M World unit := modify (emit (EAddMessage m)).

(** The text of the [catch] block before the o1-preview rewrite. *)
Definition requestFailed (error : Thrown) : string :=
  "Model request failed: " +:+
  match error with
  | JsError m None => m
  | JsError m (Some c) => if String.eqb c "" then m else m +:+ " Cause: " +:+ c
  | JsObject json => json
  | JsOther s => s
  end.

Definition getAIResponse (userMessage : ChatMessage) (selectedText : option string)
    (debug : bool) (aborted : nat → bool) : M World unit :=
  let* chatModel := getChatModel in
  tryCatch
    (let* w := gets id in
     let* modelConfig := getChatModelConfiguration X (getModelKey w) in
     let* w := gets id in
     let* memoryVariables := liftR (loadMemoryVariables (memoryId w) selectedText) in
     let isO1PreviewModel := ChainManager.isO1PreviewInstance chatModel in
     (if debug then
        consoleLog "Model configuration:" ;;
        consoleLog "Is o1-preview model:" ;;
        consoleLog "Memory variables:"
      else ret tt) ;;
     if truthy (getProp modelConfig "streaming") && negb isO1PreviewModel then
       let* w := gets id in
       match chain w with
       | None =>
           throw (mkError "Cannot read properties of undefined (reading 'stream')")
       | Some chain =>
           let* chatStream :=
             liftR (chainStream chain memoryVariables (message userMessage)) in
           let* fullAIResponse :=
             consume aborted 0 (chunks chatStream) (failure chatStream) "" in
           addMessage (aiMessage fullAIResponse)
       end
     else
       let* response := liftR (invoke X chatModel (message userMessage)) in
       addMessage (aiMessage (match response with VStr s => s | _ => "" end)))
    (λ error,
       consoleError "Model request failed:" (Some error) ;;
       let errorMessage := requestFailed error in
       let isO1PreviewModel := ChainManager.isO1PreviewInstance chatModel in
       let errorMessage :=
         if isO1PreviewModel && includes "system message" errorMessage
         then "Error: o1-preview models do not support system messages."
         else errorMessage in
       addMessage (aiMessage ("Error: " +:+ errorMessage))).

End GetAIResponse.

End LangchainStream.

(** * The asynchronous chat-model manager (second revision)

    The methods of this revision are [async] and every call they make is
    awaited: a call is run to its end, in program order, with nothing else
    interleaved at its awaits. *)
Module V2.

Record CustomModel : Type := {
  name : string;
  modelName : string;
  provider : string;
  baseUrl : option string;
  apiKey : option string;
  enabled : bool;
  isEmbeddingModel : option bool;
  isBuiltIn : option bool;
  enableCors : option bool;
  core : option bool;
  stream : option bool;
  temperature : option Q;
  context : option Q;
  openAIOrgId : option string;
  azureOpenAIApiInstanceName : option string;
  azureOpenAIApiDeploymentName : option string;
  azureOpenAIApiVersion : option string;
  azureOpenAIApiEmbeddingDeploymentName : option string;
  isO1Preview : option bool;
}.

(** The settings this revision reads. *)
Record CopilotSettings : Type := {
  openAIApiKey : string;
  openAIOrgId_s : string;
  cohereApiKey : string;
  anthropicApiKey : string;
  azureOpenAIApiKey : string;
  azureOpenAIApiInstanceName_s : string;
  azureOpenAIApiDeploymentName_s : string;
  azureOpenAIApiVersion_s : string;
  googleApiKey : string;
  openRouterAiApiKey : string;
  groqApiKey : string;
  defaultModelKey : string;
  temperature_s : Q;
  maxTokens : Q;
  stream_s : option bool;
  activeModels : option (list CustomModel);
}.

Record RegistryEntry : Type := {
  hasApiKey : bool;
  AIConstructor : ChatConstructorType;
  vendor : string;
}.

(** The settings atom, the model-key atom, the two fields of the manager
    instance, the built-in table, and what was shown or logged. *)
Record World : Type := {
  settings : CopilotSettings;
  userModelKey : option string;
  chatModel : option BaseChatModel;
  modelMap : gmap string RegistryEntry;
  builtinModels : list CustomModel;
  events : list Event;
}.

Definition with_userModelKey (k : option string) (w : World) : World :=
  {| settings := settings w; userModelKey := k; chatModel := chatModel w;
     modelMap := modelMap w; builtinModels := builtinModels w;
     events := events w |}.

Definition with_chatModel (m : option BaseChatModel) (w : World) : World :=
  {| settings := settings w; userModelKey := userModelKey w; chatModel := m;
     modelMap := modelMap w; builtinModels := builtinModels w;
     events := events w |}.

Definition with_modelMap (m : gmap string RegistryEntry) (w : World) : World :=
  {| settings := settings w; userModelKey := userModelKey w;
     chatModel := chatModel w; modelMap := m;
     builtinModels := builtinModels w; events := events w |}.

Definition emit (e : Event) (w : World) : World :=
  {| settings := settings w; userModelKey := userModelKey w;
     chatModel := chatModel w; modelMap := modelMap w;
     builtinModels := builtinModels w; events := events w ++ [e] |}.

Definition getModelKey (w : World) : string :=
  default (defaultModelKey (settings w)) (userModelKey w).

Definition setModelKey (k : string) : M World unit :=
  modify (with_userModelKey (Some k)).

Definition notice (t : string) : M World unit := modify (emit (ENotice t)).

Definition consoleError (t : string) (arg : option Thrown) : M World unit :=
  modify (emit (EConsoleError t arg)).

Definition consoleWarn (t : string) : M World unit := modify (emit (EConsoleWarn t)).

Definition consoleLog (t : string) : M World unit := modify (emit (EConsoleLog t)).

Fixpoint forEach {A} (l : list A) (f : A → M World unit) : M World unit :=
  match l with
  | [] => ret tt
  | x :: rest => f x ;; forEach rest f
  end.

(** [isO1PreviewModel] of [aiParams]. *)
Definition isO1PreviewModel (modelName : string) : bool :=
  includes "azure-openai/models/o1-preview" modelName.

Definition withCors (model : CustomModel) (c : bool) : CustomModel :=
  {| name := name model; modelName := modelName model; provider := provider model;
     baseUrl := baseUrl model; apiKey := apiKey model; enabled := enabled model;
     isEmbeddingModel := isEmbeddingModel model; isBuiltIn := isBuiltIn model;
     enableCors := Some c; core := core model; stream := stream model;
     temperature := temperature model; context := context model;
     openAIOrgId := openAIOrgId model;
     azureOpenAIApiInstanceName := azureOpenAIApiInstanceName model;
     azureOpenAIApiDeploymentName := azureOpenAIApiDeploymentName model;
     azureOpenAIApiVersion := azureOpenAIApiVersion model;
     azureOpenAIApiEmbeddingDeploymentName :=
       azureOpenAIApiEmbeddingDeploymentName model;
     isO1Preview := isO1Preview model |}.

Definition withApiVersion (model : CustomModel) (v : string) : CustomModel :=
  {| name := name model; modelName := modelName model; provider := provider model;
     baseUrl := baseUrl model; apiKey := apiKey model; enabled := enabled model;
     isEmbeddingModel := isEmbeddingModel model; isBuiltIn := isBuiltIn model;
     enableCors := enableCors model; core := core model; stream := stream model;
     temperature := temperature model; context := context model;
     openAIOrgId := openAIOrgId model;
     azureOpenAIApiInstanceName := azureOpenAIApiInstanceName model;
     azureOpenAIApiDeploymentName := azureOpenAIApiDeploymentName model;
     azureOpenAIApiVersion := Some v;
     azureOpenAIApiEmbeddingDeploymentName :=
       azureOpenAIApiEmbeddingDeploymentName model;
     isO1Preview := isO1Preview model |}.

Definition safetySettings : Value := V1.safetySettings.

(** Two states that differ at most in what was shown or logged. *)
Definition sameButEvents (w w' : World) : Prop :=
  settings w' = settings w ∧ userModelKey w' = userModelKey w ∧
  chatModel w' = chatModel w ∧ modelMap w' = modelMap w ∧
  builtinModels w' = builtinModels w.

Section Manager.
Context (X : Externals).

(** [getModelKeyFromModel] of the settings module of this revision. *)
Context (getModelKeyFromModel : CustomModel → string).

Definition isProvider (p : ChatModelProviders) (m : CustomModel) : bool :=
  String.eqb (provider m) (providerTag X p).

Definition fetchOf (m : CustomModel) : Value :=
  if default false (enableCors m) then VFun "safeFetch" else VUndef.

Definition configurationOf (baseURL : Value) (m : CustomModel) : Value :=
  VObj [("baseURL", baseURL); ("fetch", fetchOf m)].

Definition azureFieldsRequired : string :=
  "Azure OpenAI API key, instance name, deployment name, and API version are required. Please check your settings.".

(** The pre-flight check of an o1-preview model on Azure. It returns the
    descriptor as it leaves it: the API version it resolved is written to
    the object it was given. *)
Definition validateO1PreviewModel (customModel : CustomModel) : M World CustomModel :=
  if negb (isProvider AZURE_OPENAI customModel) ||
     negb (isO1PreviewModel (modelName customModel))
  then ret customModel
  else
    let* w := gets id in
    let s := settings w in
    let apiKey := strOr (apiKey customModel) (azureOpenAIApiKey s) in
    let instanceName :=
      strOr (azureOpenAIApiInstanceName customModel) (azureOpenAIApiInstanceName_s s) in
    let deploymentName :=
      strOr (azureOpenAIApiDeploymentName customModel) (azureOpenAIApiDeploymentName_s s) in
    let apiVersion :=
      strOr (azureOpenAIApiVersion customModel) (azureOpenAIApiVersion_s s) in
    if String.eqb apiKey "" || String.eqb instanceName "" ||
       String.eqb deploymentName "" || String.eqb apiVersion ""
    then throw (mkError azureFieldsRequired)
    else ret (withApiVersion customModel apiVersion).

(** [customModel.stream ?? true]. *)
Definition streamOrTrue (m : CustomModel) : Value := VBool (default true (stream m)).

Definition providerConfig (w : World) (customModel : CustomModel)
    (p : ChatModelProviders) : Config :=
  let s := settings w in
  let key (fallback : string) :=
    VStr (getDecryptedKey X (strOr (apiKey customModel) fallback)) in
  match p with
  | OPENAI =>
      obj [("openAIApiKey", key (openAIApiKey s));
           ("openAIOrgId",
            VStr (getDecryptedKey X (strOr (openAIOrgId customModel) (openAIOrgId_s s))));
           ("configuration",
            configurationOf (ofOptStr (baseUrl customModel)) customModel)]
  | AZURE_OPENAI =>
      obj [("azureOpenAIApiKey", key (azureOpenAIApiKey s));
           ("azureOpenAIApiInstanceName",
            VStr (strOr (azureOpenAIApiInstanceName customModel)
                        (azureOpenAIApiInstanceName_s s)));
           ("azureOpenAIApiDeploymentName",
            VStr (strOr (azureOpenAIApiDeploymentName customModel)
                        (azureOpenAIApiDeploymentName_s s)));
           ("azureOpenAIApiVersion",
            VStr (strOr (azureOpenAIApiVersion customModel)
                        (azureOpenAIApiVersion_s s)));
           ("configuration",
            configurationOf (ofOptStr (baseUrl customModel)) customModel);
           ("streaming", VBool false)]
  | ANTHROPIC =>
      obj [("anthropicApiKey", key (anthropicApiKey s));
           ("modelName", VStr (modelName customModel));
           ("anthropicApiUrl", ofOptStr (baseUrl customModel));
           ("clientOptions",
            VObj [("defaultHeaders",
                   VObj [("anthropic-dangerous-direct-browser-access", VStr "true")]);
                  ("fetch", fetchOf customModel)]);
           ("streaming", streamOrTrue customModel)]
  | COHEREAI =>
      obj [("apiKey", key (cohereApiKey s));
           ("model", VStr (modelName customModel));
           ("streaming", streamOrTrue customModel)]
  | GOOGLE =>
      obj [("apiKey", key (googleApiKey s));
           ("modelName", VStr (modelName customModel));
           ("safetySettings", safetySettings);
           ("baseUrl", ofOptStr (baseUrl customModel));
           ("streaming", streamOrTrue customModel)]
  | OPENROUTERAI =>
      obj [("openAIApiKey", key (openRouterAiApiKey s));
           ("configuration",
            configurationOf (VStr (strOr (baseUrl customModel) "https://openrouter.ai/api/v1"))
                            customModel);
           ("streaming", streamOrTrue customModel)]
  | GROQ =>
      obj [("apiKey", key (groqApiKey s));
           ("modelName", VStr (modelName customModel));
           ("streaming", streamOrTrue customModel)]
  | OLLAMA =>
      obj [("model", VStr (modelName customModel));
           ("apiKey", VStr (strOr (apiKey customModel) "default-key"));
           ("baseUrl", VStr (strOr (baseUrl customModel) "http://localhost:11434"));
           ("streaming", streamOrTrue customModel)]
  | LM_STUDIO =>
      obj [("modelName", VStr (modelName customModel));
           ("openAIApiKey", VStr (strOr (apiKey customModel) "default-key"));
           ("configuration",
            configurationOf (VStr (strOr (baseUrl customModel) "http://localhost:1234/v1"))
                            customModel);
           ("streaming", streamOrTrue customModel)]
  | OPENAI_FORMAT =>
      obj [("openAIApiKey", key (openAIApiKey s));
           ("configuration",
            VObj [("baseURL", ofOptStr (baseUrl customModel));
                  ("fetch", fetchOf customModel);
                  ("dangerouslyAllowBrowser", VBool true)]);
           ("streaming", streamOrTrue customModel)]
  end.

Definition getModelConfig (customModel : CustomModel) : M World Config :=
  let* w := gets id in
  let s := settings w in
  let isO1Preview := isO1PreviewModel (modelName customModel) in
  let* customModel :=
    (if isO1Preview && isProvider AZURE_OPENAI customModel
     then validateO1PreviewModel customModel
     else ret customModel) in
  let baseConfig : Config :=
    spread
      (obj [("modelName", VStr (modelName customModel));
            ("temperature",
             VNum (if isO1Preview then 1
                   else default (temperature_s s) (temperature customModel)));
            ("stream",
             VBool (if isO1Preview then false
                    else default (default true (stream_s s)) (stream customModel)));
            ("maxRetries", VNum 3);
            ("maxConcurrency", VNum 3)])
      (if isO1Preview then obj [("maxCompletionTokens", VNum (maxTokens s))] else ∅) in
  let selectedProviderConfig : Config :=
    match providerOf X (provider customModel) with
    | Some p => providerConfig w customModel p
    | None => ∅
    end in
  ret (spread baseConfig selectedProviderConfig).

Definition providerApiKeyMap (s : CopilotSettings) (p : ChatModelProviders) : string :=
  match p with
  | OPENAI => openAIApiKey s
  | GOOGLE => googleApiKey s
  | AZURE_OPENAI => azureOpenAIApiKey s
  | ANTHROPIC => anthropicApiKey s
  | COHEREAI => cohereApiKey s
  | OPENROUTERAI => openRouterAiApiKey s
  | GROQ => groqApiKey s
  | OLLAMA => "default-key"
  | LM_STUDIO => "default-key"
  | OPENAI_FORMAT => "default-key"
  end.

Definition unknownProvider (model : CustomModel) : string :=
  "Unknown provider: " +:+ provider model +:+ " for model: " +:+ name model.

Definition getProviderConstructor (model : CustomModel) : M World ChatConstructorType :=
  match providerOf X (provider model) with
  | Some p => ret (CHAT_PROVIDER_CONSTRUCTORS p)
  | None =>
      consoleWarn (unknownProvider model) ;;
      throw (mkError (unknownProvider model))
  end.

Definition apiKeyOrDefault (w : World) (model : CustomModel) : Result string :=
  if optTruthy (apiKey model) then Ok (strOr (apiKey model) "")
  else match providerOf X (provider model) with
       | Some p => Ok (providerApiKeyMap (settings w) p)
       | None => Throw (mkError "getDefaultApiKey is not a function")
       end.

Definition registerModel (model : CustomModel) : M World unit :=
  if enabled model then
    if negb (isKnownProvider X (provider model)) then
      consoleWarn (unknownProvider model)
    else
      let* constructor := getProviderConstructor model in
      let* w := gets id in
      let* apiKey' := liftR (apiKeyOrDefault w model) in
      let modelKey := getModelKeyFromModel model in
      modify (λ w, with_modelMap
                     (<[modelKey :=
                          {| hasApiKey :=
                               optTruthy (apiKey model) || negb (String.eqb apiKey' "");
                             AIConstructor := constructor;
                             vendor := provider model |}]> (modelMap w)) w)
  else ret tt.

Definition buildModelMap : M World unit :=
  let* w := gets id in
  let activeModels := activeModels (settings w) in
  modify (with_modelMap ∅) ;;
  let allModels := default (builtinModels w) activeModels in
  forEach allModels registerModel.

(** The registry the descriptors call for, entry by entry: a disabled
    descriptor and one with an unrecognized provider add nothing; the others
    are entered under their key, with credentials present when the
    descriptor has a key or the provider has a default one. *)
Definition expectedEntry (s : CopilotSettings) (model : CustomModel)
  : option RegistryEntry :=
  if enabled model then
    match providerOf X (provider model) with
    | Some p =>
        Some {| hasApiKey :=
                  optTruthy (apiKey model) ||
                  negb (String.eqb (providerApiKeyMap s p) "");
                AIConstructor := CHAT_PROVIDER_CONSTRUCTORS p;
                vendor := provider model |}
    | None => None
    end
  else None.

Definition expectedRegistry (s : CopilotSettings) (models : list CustomModel)
  : gmap string RegistryEntry :=
  foldl (λ m model,
           match expectedEntry s model with
           | Some e => <[getModelKeyFromModel model := e]> m
           | None => m
           end) ∅ models.

Definition noChatModel : string :=
  "No valid chat model available. Please check your API key settings.".

Definition getChatModel : M World BaseChatModel :=
  let* w := gets id in
  match chatModel w with
  | Some m => ret m
  | None => throw (mkError noChatModel)
  end.

(** ** Ping: without CORS, then with CORS *)

Definition corsRequired : string :=
  "Connection successful, but requires CORS to be enabled. Please enable CORS for this model once you add it above.".

Definition tryPing (model : CustomModel) (enableCors : bool) : M World unit :=
  let modelToTest := withCors model enableCors in
  let isO1Preview := isO1PreviewModel (modelName modelToTest) in
  if isProvider AZURE_OPENAI modelToTest && isO1Preview then ret tt
  else
    let* modelConfig := getModelConfig modelToTest in
    let pingConfig :=
      if isO1Preview
      then delete "maxTokens" (<["maxCompletionTokens" := VNum 10]> modelConfig)
      else delete "maxCompletionTokens" (<["maxTokens" := VNum 10]> modelConfig) in
    let* constructor := getProviderConstructor modelToTest in
    let* testModel := liftR (newModel X constructor pingConfig) in
    let* _ := liftR (invoke X testModel "hello") in
    ret tt.

Definition bothFailed (firstError error : Thrown) : string :=
  ChainManager.nl +:+ "without CORS Error: " +:+ err2String X firstError +:+
  ChainManager.nl +:+ "with CORS Error: " +:+ err2String X error.

Definition ping (model : CustomModel) : M World bool :=
  tryCatch
    (tryPing model false ;; ret true)
    (λ firstError,
       consoleLog "First ping attempt failed, trying with CORS..." ;;
       tryCatch
         (tryPing model true ;;
          notice corsRequired ;;
          ret true)
         (λ error, throw (mkError (bothFailed firstError error)))).

(** ** Activation *)

Definition noApiKey (modelKey : string) : string :=
  "API key is not provided for the model: " +:+ modelKey +:+ ". Model switch failed.".

(** [`${error.message}`]. *)
Definition messageText (e : Thrown) : string := default "undefined" (messageOf e).

Definition failedToInitialize (modelKey : string) (error : Thrown) : string :=
  "Failed to initialize model: " +:+ modelKey +:+ ". " +:+ messageText error.

Definition setChatModel (model : CustomModel) : M World unit :=
  let modelKey := getModelKeyFromModel model in
  let* w := gets id in
  match modelMap w !! modelKey with
  | None => throw (mkError ("No model found for: " +:+ modelKey))
  | Some selectedModel =>
      if negb (hasApiKey selectedModel) then
        notice (noApiKey modelKey) ;; throw (mkError (noApiKey modelKey))
      else
        let* modelConfig := getModelConfig model in
        let isO1Preview := isO1PreviewModel (modelName model) in
        (if negb isO1Preview then
           tryCatch
             (let* _ := ping model in ret tt)
             (λ error,
                let errorMessage := failedToInitialize modelKey error in
                notice errorMessage ;;
                modify (with_chatModel None) ;;
                throw (mkError errorMessage))
         else ret tt) ;;
        setModelKey modelKey ;;
        tryCatch
          (let stream := getProp modelConfig "stream" in
           let configWithoutStream := delete "stream" modelConfig in
           let* newModelInstance :=
             liftR (newModel X (AIConstructor selectedModel)
                      (<["streaming" := stream]> configWithoutStream)) in
           modify (with_chatModel (Some newModelInstance)))
          (λ error,
             consoleError "" (Some error) ;;
             notice ("Error creating model: " +:+ modelKey) ;;
             modify (with_chatModel None) ;;
             throw error)
  end.

Definition validateChatModel (m : option BaseChatModel) : bool :=
  match m with Some _ => true | None => false end.

Definition validateCurrentModel : M World unit :=
  let* w := gets id in
  match chatModel w with
  | None => ret tt
  | Some _ =>
      let currentModelKey := getModelKey w in
      if String.eqb currentModelKey "" then ret tt
      else
        match modelMap w !! currentModelKey with
        | Some selectedModel =>
            if hasApiKey selectedModel then ret tt
            else
              modify (with_chatModel None) ;;
              consoleLog "Failed to reinitialize model due to missing API key"
        | None =>
            modify (with_chatModel None) ;;
            consoleLog "Failed to reinitialize model due to missing API key"
        end
  end.

End Manager.

End V2.

(** * The settings store: merging the active models ([settings/model.ts])

    [mergeActiveModels] spreads descriptors and per-model configurations
    into new objects, so the descriptors are objects here. *)
Module SettingsModel.

(** A [Map<string, CustomModel>], in insertion order. *)
Definition ModelMap : Type := list (string * Config).

(** [map.set(key, v)]: a key already there keeps its place. *)
Fixpoint mapSet (key : string) (v : Config) (m : ModelMap) : ModelMap :=
  match m with
  | [] => [(key, v)]
  | (k, x) :: rest =>
      if String.eqb k key then (k, v) :: rest else (k, x) :: mapSet key v rest
  end.

Definition mapHas (key : string) (m : ModelMap) : bool :=
  existsb (λ kv, String.eqb kv.1 key) m.

Section Merge.

(** The string a template literal makes of a value. *)
Context (templateString : Value → string).

(** [`${model.name}|${model.provider}`]. *)
Definition getModelKey (model : Config) : string :=
  templateString (getProp model "name") +:+ "|" +:+
  templateString (getProp model "provider").

(** The first loop: an existing model over the built-in one of the same
    key, under the configuration stored for the key. *)
Definition addExisting (builtInModels : list Config)
    (modelConfigs : gmap string Config) (m : ModelMap) (model : Config) : ModelMap :=
  let key := getModelKey model in
  mapSet key
    (spread
       (spread (default ∅ (List.find (λ b, String.eqb (getModelKey b) key)
                                      builtInModels))
               model)
       (default ∅ (modelConfigs !! key)))
    m.

(** The second loop: a built-in model whose key is still free. *)
Definition addCore (m : ModelMap) (model : Config) : ModelMap :=
  let modelKey := getModelKey model in
  if mapHas modelKey m then m
  else mapSet modelKey (<["core" := VBool true]> model) m.

Definition mergedMap (existingActiveModels builtInModels : list Config)
    (modelConfigs : gmap string Config) : ModelMap :=
  foldl addCore
    (foldl (addExisting builtInModels modelConfigs) [] existingActiveModels)
    builtInModels.

Definition mergeActiveModels (existingActiveModels builtInModels : list Config)
    (modelConfigs : gmap string Config) : list Config :=
  map snd (mergedMap existingActiveModels builtInModels modelConfigs).

End Merge.

End SettingsModel.

(** * Sample collaborators, descriptors and states

    Concrete inputs on which the definitions above are run. *)
Module Sample.

(** The string values of the provider enum, as upstream declares them. *)
Definition tag (p : ChatModelProviders) : string :=
  match p with
  | OPENAI => "openai"
  | AZURE_OPENAI => "azure openai"
  | ANTHROPIC => "anthropic"
  | COHEREAI => "cohereai"
  | GOOGLE => "google"
  | OPENROUTERAI => "openrouterai"
  | OLLAMA => "ollama"
  | LM_STUDIO => "lm-studio"
  | GROQ => "groq"
  | OPENAI_FORMAT => "3rd party (openai-format)"
  end.

(** [config.configuration.fetch]. *)
Definition fetchOfConfig (cfg : Config) : Value :=
  match getProp cfg "configuration" with
  | VObj fields =>
      default VUndef (snd <$> List.find (λ kv, String.eqb kv.1 "fetch") fields)
  | _ => VUndef
  end.

(** A constructor that fails for one model name and for one malformed key,
    and otherwise keeps the configuration as the properties of the object. *)
Definition newModelS (c : ChatConstructorType) (cfg : Config) : Result BaseChatModel :=
  if isStr (getProp cfg "modelName") "broken-model" ||
     isStr (getProp cfg "openAIApiKey") "sk-malformed"
  then Throw (mkError "constructor failed")
  else Ok {| mi_class := c; mi_props := cfg |}.

(** A provider that rejects one key, and that one model reaches only
    through the CORS-safe fetch. *)
Definition invokeS (m : BaseChatModel) (input : string) : Result Value :=
  if isStr (getProp (mi_props m) "openAIApiKey") "sk-invalid"
  then Throw (mkError "401 Incorrect API key provided")
  else if isStr (getProp (mi_props m) "modelName") "needs-cors" &&
          negb (truthy (fetchOfConfig (mi_props m)))
  then Throw (mkError "Failed to fetch")
  else Ok (VStr "pong").

Definition X : Externals :=
  {| providerTag := tag;
     AI_SENDER := "ai";
     DEFAULT_SYSTEM_PROMPT := "You are Obsidian Copilot.";
     getDecryptedKey := λ k, k;
     err2String := λ e, match e with
                        | JsError m _ => m
                        | JsObject j => j
                        | JsOther s => s
                        end;
     newModel := newModelS;
     invoke := invokeS;
     formatDateTimeNow := "2024/11/02 10:00:00" |}.

(** ** First revision *)

Definition model1 (name provider : string) (apiKey : option string) (enabled : bool)
  : V1.CustomModel :=
  {| V1.name := name; V1.provider := provider; V1.baseUrl := None;
     V1.apiKey := apiKey; V1.enabled := enabled; V1.isEmbeddingModel := None;
     V1.isBuiltIn := None; V1.enableCors := None; V1.core := None;
     V1.azureOpenAIApiDeploymentName := None;
     V1.azureOpenAIApiInstanceName := None;
     V1.azureOpenAIApiVersion := None |}.

Definition gpt4o : V1.CustomModel := model1 "gpt-4o" "openai" None true.
Definition o1OpenAI : V1.CustomModel := model1 "o1-preview" "openai" None true.
Definition gpt4oAzure : V1.CustomModel := model1 "gpt-4o" "azure openai" None true.
Definition o1Azure : V1.CustomModel := model1 "o1-preview" "azure openai" None true.
Definition claudeOff : V1.CustomModel :=
  model1 "claude-3-5-sonnet-latest" "anthropic" None false.
Definition o1Malformed : V1.CustomModel :=
  model1 "o1-preview" "openai" (Some "sk-malformed") true.
Definition gpt4turbo : V1.CustomModel := model1 "gpt-4-turbo" "openai" None true.

Definition deploymentEU : V1.AzureDeployment :=
  {| V1.dep_modelKey := "gpt-4o|azure openai";
     V1.dep_modelFamily := "gpt-4o";
     V1.dep_deploymentName := "gpt4o-eu";
     V1.dep_instanceName := "contoso-eu";
     V1.dep_apiVersion := "2024-08-01-preview";
     V1.dep_apiKey := "override-key";
     V1.dep_specialSettings := None |}.

Definition settings1 (models : list V1.CustomModel) (chainType : ChainType)
    (modelKey : string) : V1.CopilotSettings :=
  {| V1.openAIApiKey := "sk-openai";
     V1.openAIOrgId := "";
     V1.cohereApiKey := "";
     V1.anthropicApiKey := "";
     V1.modelConfigs := ∅;
     V1.azureOpenAIApiKey := "global-azure-key";
     V1.azureOpenAIApiInstanceName_s := "contoso-global";
     V1.azureOpenAIApiVersion_s := "2023-05-15";
     V1.googleApiKey := "";
     V1.openRouterAiApiKey := "";
     V1.groqApiKey := "";
     V1.defaultChainType := Some chainType;
     V1.defaultModelKey := modelKey;
     V1.temperature := 7 # 10;
     V1.maxTokens := 1000;
     V1.userSystemPrompt := "";
     V1.maxSourceChunks := 3;
     V1.debug := false;
     V1.activeModels := Some models;
     V1.azureOpenAIApiDeployments := [deploymentEU] |}.

(** A state with nothing activated yet. *)
Definition fresh1 (models : list V1.CustomModel) (chainType : ChainType)
    (modelKey : string) (embeddings : option nat) : V1.World :=
  {| V1.settings := settings1 models chainType modelKey;
     V1.userModelKey := None;
     V1.userChainType := None;
     V1.chatModel := None;
     V1.modelMap := ∅;
     V1.chain := None;
     V1.retrievalChain := None;
     V1.builtinModels := [gpt4o];
     V1.chatPrompt := [RoleMessage "system" "You are Obsidian Copilot.";
                       MessagesPlaceholder "history";
                       HumanMessagePromptTemplate "{input}"];
     V1.memoryId := 0;
     V1.embeddingsAPI := embeddings;
     V1.pending := [];
     V1.events := [] |}.

(** ** Second revision *)

Definition key2 (m : V2.CustomModel) : string := V2.name m +:+ "|" +:+ V2.provider m.

Definition model2 (name provider : string) (apiKey : option string) (enabled : bool)
  : V2.CustomModel :=
  {| V2.name := name; V2.modelName := name; V2.provider := provider;
     V2.baseUrl := None; V2.apiKey := apiKey; V2.enabled := enabled;
     V2.isEmbeddingModel := None; V2.isBuiltIn := None; V2.enableCors := None;
     V2.core := None; V2.stream := None; V2.temperature := None;
     V2.context := None; V2.openAIOrgId := None;
     V2.azureOpenAIApiInstanceName := None;
     V2.azureOpenAIApiDeploymentName := None;
     V2.azureOpenAIApiVersion := None;
     V2.azureOpenAIApiEmbeddingDeploymentName := None;
     V2.isO1Preview := None |}.

(** A model that answers, one whose key the provider rejects, one that
    answers only through the CORS-safe fetch, and a disabled one. *)
Definition modelA : V2.CustomModel := model2 "gpt-4o" "openai" None true.
Definition modelB : V2.CustomModel := model2 "gpt-4" "openai" (Some "sk-invalid") true.
Definition modelCors : V2.CustomModel := model2 "needs-cors" "openai" None true.
Definition modelOff : V2.CustomModel := model2 "command-r" "cohereai" None false.

Definition settings2 : V2.CopilotSettings :=
  {| V2.openAIApiKey := "sk-openai";
     V2.openAIOrgId_s := "";
     V2.cohereApiKey := "";
     V2.anthropicApiKey := "";
     V2.azureOpenAIApiKey := "";
     V2.azureOpenAIApiInstanceName_s := "";
     V2.azureOpenAIApiDeploymentName_s := "";
     V2.azureOpenAIApiVersion_s := "";
     V2.googleApiKey := "";
     V2.openRouterAiApiKey := "";
     V2.groqApiKey := "";
     V2.defaultModelKey := "gpt-4o|openai";
     V2.temperature_s := 7 # 10;
     V2.maxTokens := 1000;
     V2.stream_s := Some true;
     V2.activeModels := Some [modelA; modelB; modelCors; modelOff] |}.

Definition instanceA : BaseChatModel :=
  {| mi_class := ChatOpenAI; mi_props := obj [("modelName", VStr "gpt-4o")] |}.

Definition staleEntry : V2.RegistryEntry :=
  {| V2.hasApiKey := true; V2.AIConstructor := ChatGroq; V2.vendor := "groq" |}.

(** Model A is active; the registry still holds an entry of a model that
    is no longer in the settings. *)
Definition stale2 : V2.World :=
  {| V2.settings := settings2;
     V2.userModelKey := None;
     V2.chatModel := Some instanceA;
     V2.modelMap := {[ "llama3|groq" := staleEntry ]};
     V2.builtinModels := [modelA];
     V2.events := [] |}.

Definition staleEntry1 : V1.RegistryEntry :=
  {| V1.hasApiKey := true; V1.AIConstructor := ChatGroq; V1.vendor := "groq" |}.

Definition stale1 : V1.World :=
  V1.with_modelMap {[ "llama3|groq" := staleEntry1 ]}
    (fresh1 [gpt4o; claudeOff] LLM_CHAIN "gpt-4o|openai" None).

(** ** A warmed-up first revision: the registry built and [gpt-4o]
    activated on a plain chain *)

Definition config4o : Config :=
  default ∅ (okValue (V1.getModelConfig X gpt4o
                        (fresh1 [gpt4o] LLM_CHAIN "gpt-4o|openai" None))).

Definition instance4o : BaseChatModel :=
  {| mi_class := ChatOpenAI; mi_props := config4o |}.

Definition systemPrompt : ChatPromptTemplate :=
  [RoleMessage "ai" "You are Obsidian Copilot.";
   MessagesPlaceholder "history";
   HumanMessagePromptTemplate "{input}"].

Definition chain4o : V1.RunnableSequence := V1.LLMChain instance4o 0 systemPrompt.

Definition entry1 (vendor : string) : V1.RegistryEntry :=
  {| V1.hasApiKey := true; V1.AIConstructor := ChatOpenAI; V1.vendor := vendor |}.

(** The state with the given descriptors registered under the OpenAI
    class, and the given active model, chain and chain type. *)
Definition running1 (models : list V1.CustomModel) (chainType : ChainType)
    (modelKey : string) (embeddings : option nat) (active : BaseChatModel)
    (chain : option V1.RunnableSequence) : V1.World :=
  {| V1.settings := settings1 models chainType modelKey;
     V1.userModelKey := Some modelKey;
     V1.userChainType := Some chainType;
     V1.chatModel := Some active;
     V1.modelMap :=
       list_to_map (map (λ m, (V1.keyOf m, entry1 (V1.provider m))) models);
     V1.chain := chain;
     V1.retrievalChain := None;
     V1.builtinModels := [gpt4o];
     V1.chatPrompt := [RoleMessage "system" "You are Obsidian Copilot.";
                       MessagesPlaceholder "history";
                       HumanMessagePromptTemplate "{input}"];
     V1.memoryId := 0;
     V1.embeddingsAPI := embeddings;
     V1.pending := [];
     V1.events := [] |}.

Definition warm1 : V1.World :=
  running1 [gpt4o] LLM_CHAIN "gpt-4o|openai" None instance4o (Some chain4o).

(** An o1-preview model object, active on a plain chain. *)
Definition instanceO1 : BaseChatModel :=
  {| mi_class := ChatOpenAI; mi_props := obj [("modelName", VStr "o1-preview")] |}.

Definition chainO1 : V1.RunnableSequence :=
  V1.LLMChain instanceO1 0 ChainManager.systemFreePrompt.

Definition warmO1 : V1.World :=
  running1 [o1OpenAI] LLM_CHAIN "o1-preview|openai" None instanceO1 (Some chainO1).

(** The user has just selected a model whose constructor will fail. *)
Definition selectedMalformed : V1.World :=
  running1 [gpt4o; o1Malformed] LLM_CHAIN "o1-preview|openai" None instance4o
    (Some chain4o).

(** The user has just selected another model while the vault QA chain is
    the chain type and no embeddings API is available. *)
Definition selectedTurboQA : V1.World :=
  running1 [gpt4o; gpt4turbo] VAULT_QA_CHAIN "gpt-4-turbo|openai" None instance4o
    (Some chain4o).

(** The selected key matches no descriptor, and the first built-in model
    is not registered. *)
Definition selectedGhost : V1.World :=
  running1 [o1OpenAI] LLM_CHAIN "ghost|openai" None instanceO1 (Some chainO1).

Definition plainOptions : ChainManager.RunOptions :=
  {| ChainManager.opt_debug := false; ChainManager.opt_ignoreSystemMessage := false |}.

Definition ignoreSystem : ChainManager.RunOptions :=
  {| ChainManager.opt_debug := false; ChainManager.opt_ignoreSystemMessage := true |}.

(** A runner that answers, and one whose provider rejects the request. *)
Definition runnerOk (ct : ChainType) (w : V1.World) (m : ChatMessage)
    (o : ChainManager.RunOptions) : Result string * list Event :=
  (Ok "Hi!", [EUpdateCurrentAiMessage "Hi!"]).


Definition hello : ChatMessage :=
  {| message := "Say hello"; sender := "user"; isVisible := true;
     timestamp := "2024/11/02 09:59:58" |}.

(** A stream of four fragments, one of them without text. *)
Definition helloStream : LangchainStream.ChatStream :=
  {| LangchainStream.chunks :=
       [LangchainStream.ChunkText "Hel";
        LangchainStream.ChunkMessage (VStr "lo");
        LangchainStream.ChunkMessage (VArr []);
        LangchainStream.ChunkText ", world"];
     LangchainStream.failure := None |}.

Definition loadMemory (memory : nat) (selectedText : option string) : Result Value :=
  Ok (VArr []).

Definition streamHello (c : V1.RunnableSequence) (history : Value) (input : string)
  : Result LangchainStream.ChatStream :=
  Ok helloStream.

(** The signal is set once [k] fragments have been used. *)
Definition abortAfter (k : nat) (i : nat) : bool := Nat.leb k i.

(** Model A active and the three enabled models registered. *)
Definition entry2 : V2.RegistryEntry :=
  {| V2.hasApiKey := true; V2.AIConstructor := ChatOpenAI; V2.vendor := "openai" |}.

Definition ready2 : V2.World :=
  {| V2.settings := settings2;
     V2.userModelKey := Some "gpt-4o|openai";
     V2.chatModel := Some instanceA;
     V2.modelMap := {[ "gpt-4o|openai" := entry2; "gpt-4|openai" := entry2;
                       "needs-cors|openai" := entry2 ]};
     V2.builtinModels := [modelA];
     V2.events := [] |}.

(** ** Further descriptors and states *)

(** A descriptor whose provider is not in the enum. *)
Definition unlisted : V1.CustomModel := model1 "mistral-large" "mistral" None true.

(** The OpenAI model is selected; the Azure model, which has a deployment
    of its own, is registered beside it. *)
Definition mixedAzure : V1.World :=
  running1 [gpt4o; gpt4oAzure] LLM_CHAIN "gpt-4o|openai" None instance4o
    (Some chain4o).

(** A deployment that names no instance. *)
Definition deploymentBare : V1.AzureDeployment :=
  {| V1.dep_modelKey := "gpt-4o|azure openai";
     V1.dep_modelFamily := "gpt-4o";
     V1.dep_deploymentName := "gpt4o-eu";
     V1.dep_instanceName := "";
     V1.dep_apiVersion := "2024-08-01-preview";
     V1.dep_apiKey := "override-key";
     V1.dep_specialSettings := None |}.

Definition withDeployments (ds : list V1.AzureDeployment) (w : V1.World) : V1.World :=
  V1.with_settings (λ s,
    {| V1.openAIApiKey := V1.openAIApiKey s; V1.openAIOrgId := V1.openAIOrgId s;
       V1.cohereApiKey := V1.cohereApiKey s;
       V1.anthropicApiKey := V1.anthropicApiKey s;
       V1.modelConfigs := V1.modelConfigs s;
       V1.azureOpenAIApiKey := V1.azureOpenAIApiKey s;
       V1.azureOpenAIApiInstanceName_s := V1.azureOpenAIApiInstanceName_s s;
       V1.azureOpenAIApiVersion_s := V1.azureOpenAIApiVersion_s s;
       V1.googleApiKey := V1.googleApiKey s;
       V1.openRouterAiApiKey := V1.openRouterAiApiKey s;
       V1.groqApiKey := V1.groqApiKey s;
       V1.defaultChainType := V1.defaultChainType s;
       V1.defaultModelKey := V1.defaultModelKey s;
       V1.temperature := V1.temperature s; V1.maxTokens := V1.maxTokens s;
       V1.userSystemPrompt := V1.userSystemPrompt s;
       V1.maxSourceChunks := V1.maxSourceChunks s; V1.debug := V1.debug s;
       V1.activeModels := V1.activeModels s;
       V1.azureOpenAIApiDeployments := ds |}) w.

(** The Azure model is selected, and its deployment names no instance. *)
Definition selectedAzureBare : V1.World :=
  withDeployments [deploymentBare]
    (running1 [gpt4oAzure] LLM_CHAIN "gpt-4o|azure openai" None instance4o
       (Some chain4o)).

(** A model is active and no chain has been built. *)
Definition chainless : V1.World :=
  running1 [gpt4o] LLM_CHAIN "gpt-4o|openai" None instance4o None.

(** The Copilot Plus chain is selected, with an embeddings API at hand. *)
Definition plusReady : V1.World :=
  running1 [gpt4o] COPILOT_PLUS_CHAIN "gpt-4o|openai" (Some 7) instance4o None.

(** The [setChain] call that is suspended in [plusReady]. *)
Definition pendingPlus : V1.PendingChain :=
  {| V1.pc_chainType := COPILOT_PLUS_CHAIN;
     V1.pc_options := ChainManager.noOptions;
     V1.pc_chatModel := instance4o;
     V1.pc_memory := 0;
     V1.pc_chatPrompt := [RoleMessage "system" "You are Obsidian Copilot.";
                          MessagesPlaceholder "history";
                          HumanMessagePromptTemplate "{input}"];
     V1.pc_embeddingsAPI := 7 |}.

Definition openDb (embeddingsAPI : nat) : Result nat := Ok 0.

(** A saved conversation: a greeting, a question and its answer. *)
Definition greeting : ChatMessage :=
  {| message := "How can I help?"; sender := "ai"; isVisible := true;
     timestamp := "2024/11/02 09:59:50" |}.

Definition answer : ChatMessage :=
  {| message := "Hello!"; sender := "ai"; isVisible := true;
     timestamp := "2024/11/02 09:59:59" |}.

(** A stream that fails after its first fragment. *)
Definition brokenStream : LangchainStream.ChatStream :=
  {| LangchainStream.chunks := [LangchainStream.ChunkText "Hel"];
     LangchainStream.failure := Some (mkError "socket hang up") |}.

Definition streamBroken (c : V1.RunnableSequence) (history : Value) (input : string)
  : Result LangchainStream.ChatStream :=
  Ok brokenStream.

Definition neverAborted (i : nat) : bool := false.

(** An o1-preview model of the second revision, registered. *)
Definition o1Hosted : V2.CustomModel :=
  model2 "azure-openai/models/o1-preview" "openai" None true.

Definition readyO1 : V2.World :=
  {| V2.settings := settings2;
     V2.userModelKey := Some "gpt-4o|openai";
     V2.chatModel := Some instanceA;
     V2.modelMap := {[ "azure-openai/models/o1-preview|openai" := entry2 ]};
     V2.builtinModels := [modelA];
     V2.events := [] |}.

(** Descriptors as plain objects, for the merge of the settings store. *)
Definition templateS (v : Value) : string :=
  match v with VStr s => s | _ => "undefined" end.

Definition storedGpt4o : Config :=
  obj [("name", VStr "gpt-4o"); ("provider", VStr "openai");
       ("enabled", VBool false)].

Definition coreGpt4o : Config :=
  obj [("name", VStr "gpt-4o"); ("provider", VStr "openai");
       ("enabled", VBool true); ("isBuiltIn", VBool true)].

Definition coreClaude : Config :=
  obj [("name", VStr "claude-3-5-sonnet-latest"); ("provider", VStr "anthropic");
       ("enabled", VBool true); ("isBuiltIn", VBool true)].

Definition storedConfigs : gmap string Config :=
  {[ "gpt-4o|openai" := obj [("temperature", VNum 1)] ]}.

End Sample.

(** * Properties *)

(** Closed equations are decided by evaluating both sides. *)
Ltac vm_refl :=
  lazymatch goal with
  | |- ?a = ?b => exact (@eq_refl _ b <: a = b)
  end.

(** ** Substrings *)




(** ** The provider table *)

Lemma find_some_existsb {A} (p : A → bool) (l : list A) :
  existsb p l = true → ∃ x, List.find p l = Some x ∧ p x = true.
Proof.
  induction l as [|a l IH]; simpl; [done|].
  destruct (p a) eqn:E; [eauto | exact IH].
Qed.

Lemma known_provider_found (X : Externals) (s : string) :
  isKnownProvider X s = true →
  ∃ p, providerOf X s = Some p ∧ providerTag X p = s.
Proof.
  intros H. apply find_some_existsb in H as (p & Hf & Hp).
  exists p. split; [exact Hf|]. by apply String.eqb_eq in Hp.
Qed.

(** ** The Azure configuration of the first revision *)
Section AzureConfig.
Context (X : Externals).
Import V1.

Lemma no_deployment (w : World) :
  (∀ d, In d (azureOpenAIApiDeployments (settings w)) →
        dep_modelKey d ≠ getModelKey w) →
  deploymentFor w = None.
Proof.
  intros H. unfold deploymentFor.
  destruct (List.find _ _) as [d|] eqn:E; [|done].
  apply find_some in E as [Hin Heq]. apply String.eqb_eq in Heq.
  by destruct (H d Hin).
Qed.

(** C7. For a descriptor of the Azure OpenAI provider, when no deployment
    of the settings carries the current model key, building the
    configuration throws the error "No Azure deployment found for model:
    <key>" and produces no configuration, both in [getAzureModelConfig]
    and through the public [getChatModelConfiguration]; the state is left
    as it was. *)
Theorem azure_config_without_deployment_fails
    (w : World) (customModel : CustomModel) :
  isProvider X AZURE_OPENAI customModel = true →
  (∀ d, In d (azureOpenAIApiDeployments (settings w)) →
        dep_modelKey d ≠ getModelKey w) →
  getAzureModelConfig X customModel w =
    (Throw (mkError ("No Azure deployment found for model: " +:+ getModelKey w)), w)
  ∧ (∀ key models,
       activeModels (settings w) = Some models →
       findCustomModel key models = Some customModel →
       getChatModelConfiguration X key w =
         (Throw (mkError ("No Azure deployment found for model: " +:+ getModelKey w)), w)).
Proof.
  intros Haz Hno. apply no_deployment in Hno.
  assert (Hcfg : getAzureModelConfig X customModel w =
    (Throw (mkError ("No Azure deployment found for model: " +:+ getModelKey w)), w)).
  { unfold getAzureModelConfig, bind, gets, throw. simpl. by rewrite Hno. }
  split; [exact Hcfg|].
  intros key models Hm Hf.
  unfold getChatModelConfiguration, bind, gets. simpl.
  by rewrite Hm, Hf, Haz.
Qed.


End AzureConfig.


(** With no deployment for the key, the sample Azure descriptor gets no
    configuration. *)
Lemma azure_config_without_deployment_fails_witness :
  let w := Sample.fresh1 [Sample.o1Azure] LLM_CHAIN "o1-preview|azure openai" None in
  V1.getAzureModelConfig Sample.X Sample.o1Azure w =
    (Throw (mkError "No Azure deployment found for model: o1-preview|azure openai"), w).
Proof.
  intros w.
  apply (azure_config_without_deployment_fails Sample.X w Sample.o1Azure).
  - reflexivity.
  - simpl. intros d [<-|[]]. vm_compute. discriminate.
Defined.

(** ** The configuration of an o1-preview descriptor *)
Section O1Config.
Context (X : Externals).

(** The Azure path of the first revision switches streaming off and fixes
    the temperature at 1 for an o1-preview descriptor. *)
Lemma azure_o1_config_fixed (w : V1.World) (customModel : V1.CustomModel) (cfg : Config) :
  V1.name customModel = "o1-preview" →
  V1.getAzureModelConfig X customModel w = (Ok cfg, w) →
  cfg !! "streaming" = Some (VBool false) ∧ cfg !! "temperature" = Some (VNum 1).
Proof.
  intros Hn. unfold V1.getAzureModelConfig, bind, gets, ret, throw.
  cbn beta iota delta [id]. rewrite Hn.
  destruct (V1.deploymentFor w); [|discriminate].
  change ("o1-preview" =? "o1-preview")%string with true. cbv iota.
  intros [= <-]. split; reflexivity.
Qed.

(** The second revision does the same in the base configuration, whatever
    the provider, the descriptor and the settings say; the streaming flag
    of this revision is the property [stream]. *)
Lemma v2_o1_config_fixed (w w' : V2.World)
    (customModel : V2.CustomModel) (cfg : Config) :
  V2.isO1PreviewModel (V2.modelName customModel) = true →
  V2.getModelConfig X customModel w = (Ok cfg, w') →
  cfg !! "stream" = Some (VBool false) ∧ cfg !! "temperature" = Some (VNum 1).
Proof.
  intros Ho. unfold V2.getModelConfig, bind, gets, ret.
  cbn beta iota delta [id]. rewrite Ho. cbn beta iota delta [andb].
  destruct (V2.isProvider X AZURE_OPENAI customModel).
  - unfold V2.validateO1PreviewModel, bind, gets, ret, throw.
    destruct (negb _ || negb _).
    + intros [= <- <-]. destruct (providerOf X _) as [[]|]; split; reflexivity.
    + cbn beta iota delta [id]. destruct (_ || _); [discriminate|].
      intros [= <- <-].
      destruct (providerOf X _) as [[]|]; split; reflexivity.
  - intros [= <- <-]. destruct (providerOf X _) as [[]|]; split; reflexivity.
Qed.

End O1Config.

(** C2 (the code departs from the claim). In the first revision an
    o1-preview descriptor of the OpenAI provider goes through
    [getModelConfig]: the configuration it gets, also through the public
    [getChatModelConfiguration], has the temperature fixed at 1 and
    [streaming: true]. *)
Theorem o1_openai_config_keeps_streaming :
  let w := Sample.fresh1 [Sample.o1OpenAI] LLM_CHAIN "o1-preview|openai" None in
  let built := okValue (V1.getChatModelConfiguration Sample.X "o1-preview|openai" w) in
  okValue (V1.getModelConfig Sample.X Sample.o1OpenAI w) = built ∧
  (built ≫= lookup "modelName") = Some (VStr "o1-preview") ∧
  (built ≫= lookup "temperature") = Some (VNum 1) ∧
  (built ≫= lookup "streaming") = Some (VBool true).
Proof. repeat split; vm_compute; reflexivity. Qed.

(** ** The registry rebuild *)

Lemma foldl_registry_lookup {A E} (f : A → option E) (key : A → string)
    (l : list A) (m0 : gmap string E) (k : string) (e : E) :
  foldl (λ m x, match f x with Some e => <[key x := e]> m | None => m end) m0 l !! k
    = Some e →
  m0 !! k = Some e ∨ ∃ x, In x l ∧ key x = k ∧ f x = Some e.
Proof.
  revert m0. induction l as [|x l IH]; intros m0 H; simpl in *; [by left|].
  apply IH in H as [H|(y & Hy & Hk & Hf)].
  - destruct (f x) as [e'|] eqn:Ef; [|by left].
    destruct (decide (key x = k)) as [Hk|Hk].
    + rewrite <- Hk, lookup_insert_eq in H. injection H as <-.
      right. exists x. auto.
    + rewrite lookup_insert_ne in H by done. by left.
  - right. exists y. auto.
Qed.

Lemma NoDup_map_inj {A B} (f : A → B) (l : list A) (x y : A) :
  List.NoDup (map f l) → In x l → In y l → f x = f y → x = y.
Proof.
  induction l as [|a l IH]; simpl; [done|].
  intros Hnd [->|Hx] [->|Hy] Heq; inversion Hnd as [|? ? Hnotin Hnd']; subst.
  - done.
  - exfalso. apply Hnotin. rewrite Heq. by apply in_map.
  - exfalso. apply Hnotin. rewrite <- Heq. by apply in_map.
  - by apply IH.
Qed.

Section RegistryV1.
Context (X : Externals).
Import V1.

Lemma registerModel_run (model : CustomModel) (w : World) :
  ∃ w',
    registerModel X model w = (Ok tt, w') ∧
    settings w' = settings w ∧ chatModel w' = chatModel w ∧
    modelMap w' =
      match expectedEntry X (settings w) model with
      | Some e => <[keyOf model := e]> (modelMap w)
      | None => modelMap w
      end.
Proof.
  unfold registerModel, expectedEntry.
  destruct (enabled model); [|by exists w].
  destruct (isKnownProvider X (provider model)) eqn:Hk; simpl.
  - apply known_provider_found in Hk as (p & Hp & _).
    unfold bind, gets, getProviderConstructor, ret, liftR, apiKeyOrDefault, modify.
    rewrite Hp. simpl.
    destruct (optTruthy (apiKey model)) eqn:Ho; simpl;
      eexists; (split; [reflexivity|]); simpl; auto.
  - assert (providerOf X (provider model) = None) as ->.
    { unfold providerOf. destruct (List.find _ _) eqn:E; [|done].
      apply find_some in E as [Hin Heq].
      unfold isKnownProvider in Hk.
      assert (existsb (λ p, (providerTag X p =? provider model)%string)
                providerMembers = true) as Hex
        by (apply existsb_exists; eauto).
      congruence. }
    eexists. split; [reflexivity|]. simpl. auto.
Qed.

Lemma forEach_registerModel (models : list CustomModel) (w : World) :
  ∃ w',
    forEach models (registerModel X) w = (Ok tt, w') ∧
    settings w' = settings w ∧ chatModel w' = chatModel w ∧
    modelMap w' =
      foldl (λ m model,
               match expectedEntry X (settings w) model with
               | Some e => <[keyOf model := e]> m
               | None => m
               end) (modelMap w) models.
Proof.
  revert w. induction models as [|model models IH]; intros w; simpl.
  - by exists w.
  - destruct (registerModel_run model w) as (w1 & Hr & Hs & Hc & Hm).
    destruct (IH w1) as (w2 & Hf & Hs2 & Hc2 & Hm2).
    exists w2. unfold bind. rewrite Hr, Hf.
    repeat split; [congruence | congruence |].
    rewrite Hm2, Hs, Hm. done.
Qed.

(** The rebuild always completes, and the registry it leaves is the one
    the descriptors call for, whatever the registry held before. *)
Lemma buildModelMap_run (w : World) :
  ∃ w',
    buildModelMap X w = (Ok tt, w') ∧
    settings w' = settings w ∧ chatModel w' = chatModel w ∧
    modelMap w' =
      expectedRegistry X (settings w)
        (default (builtinModels w) (activeModels (settings w))).
Proof.
  unfold buildModelMap, bind, gets, modify. simpl.
  destruct (forEach_registerModel
              (default (builtinModels w) (activeModels (settings w)))
              (with_modelMap ∅ w)) as (w' & Hf & Hs & Hc & Hm).
  exists w'. rewrite Hf. repeat split; auto.
Qed.

End RegistryV1.

Section RegistryV2.
Context (X : Externals).
Context (getModelKeyFromModel : V2.CustomModel → string).
Import V2.

Lemma registerModel_run2 (model : CustomModel) (w : World) :
  ∃ w',
    registerModel X getModelKeyFromModel model w = (Ok tt, w') ∧
    settings w' = settings w ∧ chatModel w' = chatModel w ∧
    modelMap w' =
      match expectedEntry X (settings w) model with
      | Some e => <[getModelKeyFromModel model := e]> (modelMap w)
      | None => modelMap w
      end.
Proof.
  unfold registerModel, expectedEntry.
  destruct (enabled model); [|by exists w].
  destruct (isKnownProvider X (provider model)) eqn:Hk; simpl.
  - apply known_provider_found in Hk as (p & Hp & _).
    unfold bind, gets, getProviderConstructor, ret, liftR, apiKeyOrDefault, modify.
    rewrite Hp. simpl.
    destruct (optTruthy (apiKey model)) eqn:Ho; simpl;
      eexists; (split; [reflexivity|]); simpl; auto.
  - assert (providerOf X (provider model) = None) as ->.
    { unfold providerOf. destruct (List.find _ _) eqn:E; [|done].
      apply find_some in E as [Hin Heq].
      unfold isKnownProvider in Hk.
      assert (existsb (λ p, (providerTag X p =? provider model)%string)
                providerMembers = true) as Hex
        by (apply existsb_exists; eauto).
      congruence. }
    eexists. split; [reflexivity|]. simpl. auto.
Qed.

Lemma forEach_registerModel2 (models : list CustomModel) (w : World) :
  ∃ w',
    forEach models (registerModel X getModelKeyFromModel) w = (Ok tt, w') ∧
    settings w' = settings w ∧ chatModel w' = chatModel w ∧
    modelMap w' =
      foldl (λ m model,
               match expectedEntry X (settings w) model with
               | Some e => <[getModelKeyFromModel model := e]> m
               | None => m
               end) (modelMap w) models.
Proof.
  revert w. induction models as [|model models IH]; intros w; simpl.
  - by exists w.
  - destruct (registerModel_run2 model w) as (w1 & Hr & Hs & Hc & Hm).
    destruct (IH w1) as (w2 & Hf & Hs2 & Hc2 & Hm2).
    exists w2. unfold bind. rewrite Hr, Hf.
    repeat split; [congruence | congruence |].
    rewrite Hm2, Hs, Hm. done.
Qed.

(** The same for the second revision. *)
Lemma buildModelMap_run2 (w : World) :
  ∃ w',
    buildModelMap X getModelKeyFromModel w = (Ok tt, w') ∧
    settings w' = settings w ∧ chatModel w' = chatModel w ∧
    modelMap w' =
      expectedRegistry X getModelKeyFromModel (settings w)
        (default (builtinModels w) (activeModels (settings w))).
Proof.
  unfold buildModelMap, bind, gets, modify. simpl.
  destruct (forEach_registerModel2
              (default (builtinModels w) (activeModels (settings w)))
              (with_modelMap ∅ w)) as (w' & Hf & Hs & Hc & Hm).
  exists w'. rewrite Hf. repeat split; auto.
Qed.

End RegistryV2.

Lemma expectedRegistry_sound {A E} (f : A → option E) (key : A → string)
    (l : list A) (k : string) (e : E) :
  foldl (λ (m : gmap string E) x,
           match f x with Some e => <[key x := e]> m | None => m end) ∅ l !! k
    = Some e →
  ∃ x, In x l ∧ key x = k ∧ f x = Some e.
Proof.
  intros H. apply foldl_registry_lookup in H as [H|H]; [|exact H].
  by rewrite lookup_empty in H.
Qed.

(** C5. Rebuilding the registry always completes and replaces the mapping:
    what it holds afterwards is computed from the given descriptors alone,
    so nothing of the previous registry is carried over; every entry comes
    from an enabled descriptor of the given set; and, model keys being
    unique in the set, no disabled descriptor has an entry. This holds for
    [buildModelMap] in both revisions of the manager. *)
Theorem registry_rebuild_replaces (X : Externals)
    (getModelKeyFromModel : V2.CustomModel → string)
    (w1 : V1.World) (w2 : V2.World) :
  let models1 := default (V1.builtinModels w1) (V1.activeModels (V1.settings w1)) in
  let models2 := default (V2.builtinModels w2) (V2.activeModels (V2.settings w2)) in
  (∃ w1',
     V1.buildModelMap X w1 = (Ok tt, w1') ∧
     (List.NoDup (map V1.keyOf models1) →
      ∀ model, In model models1 → V1.enabled model = false →
               V1.modelMap w1' !! V1.keyOf model = None) ∧
     (∀ k e, V1.modelMap w1' !! k = Some e →
             ∃ model, In model models1 ∧ V1.enabled model = true ∧
                      V1.keyOf model = k) ∧
     (∀ old, V1.modelMap (V1.buildModelMap X (V1.with_modelMap old w1)).2
             = V1.modelMap w1'))
  ∧
  (∃ w2',
     V2.buildModelMap X getModelKeyFromModel w2 = (Ok tt, w2') ∧
     (List.NoDup (map getModelKeyFromModel models2) →
      ∀ model, In model models2 → V2.enabled model = false →
               V2.modelMap w2' !! getModelKeyFromModel model = None) ∧
     (∀ k e, V2.modelMap w2' !! k = Some e →
             ∃ model, In model models2 ∧ V2.enabled model = true ∧
                      getModelKeyFromModel model = k) ∧
     (∀ old, V2.modelMap
               (V2.buildModelMap X getModelKeyFromModel (V2.with_modelMap old w2)).2
             = V2.modelMap w2')).
Proof.
  intros models1 models2. split.
  - destruct (buildModelMap_run X w1) as (w1' & Hrun & _ & _ & Hmap).
    exists w1'. split; [exact Hrun|].
    assert (Hsound : ∀ k e, V1.modelMap w1' !! k = Some e →
              ∃ model, In model models1 ∧ V1.enabled model = true ∧ V1.keyOf model = k).
    { intros k e He. rewrite Hmap in He. unfold V1.expectedRegistry in He.
      apply expectedRegistry_sound in He as (x & Hin & Hk & Hf).
      exists x. repeat split; [exact Hin | | exact Hk].
      unfold V1.expectedEntry in Hf. by destruct (V1.enabled x). }
    split; [|split; [exact Hsound|]].
    + intros Hnd model Hin Hoff.
      destruct (V1.modelMap w1' !! V1.keyOf model) as [e|] eqn:He; [|done].
      apply Hsound in He as (x & Hx & Hon & Hk).
      assert (x = model) as -> by (eapply NoDup_map_inj; eauto).
      congruence.
    + intros old.
      destruct (buildModelMap_run X (V1.with_modelMap old w1)) as (w' & Hrun' & _ & _ & Hmap').
      rewrite Hrun'. cbn [snd]. rewrite Hmap', Hmap. reflexivity.
  - destruct (buildModelMap_run2 X getModelKeyFromModel w2) as (w2' & Hrun & _ & _ & Hmap).
    exists w2'. split; [exact Hrun|].
    assert (Hsound : ∀ k e, V2.modelMap w2' !! k = Some e →
              ∃ model, In model models2 ∧ V2.enabled model = true ∧
                       getModelKeyFromModel model = k).
    { intros k e He. rewrite Hmap in He. unfold V2.expectedRegistry in He.
      apply expectedRegistry_sound in He as (x & Hin & Hk & Hf).
      exists x. repeat split; [exact Hin | | exact Hk].
      unfold V2.expectedEntry in Hf. by destruct (V2.enabled x). }
    split; [|split; [exact Hsound|]].
    + intros Hnd model Hin Hoff.
      destruct (V2.modelMap w2' !! getModelKeyFromModel model) as [e|] eqn:He; [|done].
      apply Hsound in He as (x & Hx & Hon & Hk).
      assert (x = model) as -> by (eapply NoDup_map_inj; eauto).
      congruence.
    + intros old.
      destruct (buildModelMap_run2 X getModelKeyFromModel (V2.with_modelMap old w2))
        as (w' & Hrun' & _ & _ & Hmap').
      rewrite Hrun'. cbn [snd]. rewrite Hmap', Hmap. reflexivity.
Qed.

(** On the sample states the rebuild drops the stale entry and enters
    nothing for the disabled descriptors. *)
Lemma registry_rebuild_replaces_witness :
  V1.modelMap Sample.stale1 !! "llama3|groq" = Some Sample.staleEntry1 ∧
  ∃ w1' w2',
    V1.buildModelMap Sample.X Sample.stale1 = (Ok tt, w1') ∧
    V2.buildModelMap Sample.X Sample.key2 Sample.stale2 = (Ok tt, w2') ∧
    V1.modelMap w1' !! V1.keyOf Sample.claudeOff = None ∧
    V2.modelMap w2' !! Sample.key2 Sample.modelOff = None ∧
    V1.modelMap w1' !! "llama3|groq" = None.
Proof.
  split; [reflexivity|].
  destruct (registry_rebuild_replaces Sample.X Sample.key2 Sample.stale1 Sample.stale2)
    as [(w1' & Hrun1 & Hoff1 & Hsound1 & _) (w2' & Hrun2 & Hoff2 & _)].
  exists w1', w2'. split; [exact Hrun1|]. split; [exact Hrun2|].
  split; [|split].
  - apply Hoff1; [|right; left; reflexivity | reflexivity].
    vm_compute.
    repeat (constructor; [simpl; intuition discriminate|]).
    constructor.
  - apply Hoff2; [|do 3 right; left; reflexivity | reflexivity].
    vm_compute.
    repeat (constructor; [simpl; intuition discriminate|]).
    constructor.
  - destruct (V1.modelMap w1' !! "llama3|groq") as [e|] eqn:He; [|reflexivity].
    apply Hsound1 in He as (model & [<-|[<-|[]]] & _ & Hk); discriminate.
Defined.

(** ** Running the monad *)

Lemma bind_ok {S A B} (c : M S A) (k : A → M S B) (s s' : S) (a : A) :
  c s = (Ok a, s') → bind c k s = k a s'.
Proof. intros H. unfold bind. by rewrite H. Qed.

Lemma bind_throw {S A B} (c : M S A) (k : A → M S B) (s s' : S) (e : Thrown) :
  c s = (Throw e, s') → bind c k s = (Throw e, s').
Proof. intros H. unfold bind. by rewrite H. Qed.

Lemma tryCatch_ok {S A} (c : M S A) (h : Thrown → M S A) (s s' : S) (a : A) :
  c s = (Ok a, s') → tryCatch c h s = (Ok a, s').
Proof. intros H. unfold tryCatch. by rewrite H. Qed.

Lemma tryCatch_throw {S A} (c : M S A) (h : Thrown → M S A) (s s' : S) (e : Thrown) :
  c s = (Throw e, s') → tryCatch c h s = h e s'.
Proof. intros H. unfold tryCatch. by rewrite H. Qed.



(** ** Cancellation of a streamed answer *)
Section Cancellation.
Import V1 LangchainStream.

Lemma addedMessages_app (a b : list Event) :
  addedMessages (a ++ b) = (addedMessages a ++ addedMessages b)%list.
Proof. unfold addedMessages. apply omap_app. Qed.


Context (X : Externals).
Context (loadMemoryVariables : nat → option string → Result Value).
Context (chainStream : RunnableSequence → Value → string → Result ChatStream).


End Cancellation.


(** ** Inverting a run *)

Lemma bind_inv {S A B} (c : M S A) (k : A → M S B) (s s' : S) (r : Result B) :
  bind c k s = (r, s') →
  (∃ a s1, c s = (Ok a, s1) ∧ k a s1 = (r, s')) ∨
  (∃ e, c s = (Throw e, s') ∧ r = Throw e).
Proof.
  unfold bind. destruct (c s) as [[a|e] s1]; intros H.
  - left. eauto.
  - right. injection H as <- <-. eauto.
Qed.

Lemma tryCatch_inv {S A} (c : M S A) (h : Thrown → M S A) (s s' : S) (r : Result A) :
  tryCatch c h s = (r, s') →
  (∃ a, c s = (Ok a, s') ∧ r = Ok a) ∨
  (∃ e s1, c s = (Throw e, s1) ∧ h e s1 = (r, s')).
Proof.
  unfold tryCatch. destruct (c s) as [[a|e] s1]; intros H.
  - left. injection H as <- <-. eauto.
  - right. eauto.
Qed.

(** ** Ping and activation in the second revision *)
Section PingV2.
Context (X : Externals).
Import V2.

Lemma sameButEvents_refl (w : World) : sameButEvents w w.
Proof. by repeat split. Qed.

Lemma sameButEvents_trans (w1 w2 w3 : World) :
  sameButEvents w1 w2 → sameButEvents w2 w3 → sameButEvents w1 w3.
Proof.
  intros (?&?&?&?&?) (?&?&?&?&?). repeat split; congruence.
Qed.

Lemma sameButEvents_emit (e : Event) (w : World) : sameButEvents w (emit e w).
Proof. by repeat split. Qed.

(** Building a configuration reads the state and leaves it as it is. *)
Lemma getModelConfig_frame (customModel : CustomModel) (w w' : World) (r : Result Config) :
  getModelConfig X customModel w = (r, w') → w' = w.
Proof.
  unfold getModelConfig, bind, gets, ret. cbn beta iota delta [id].
  destruct (isO1PreviewModel (modelName customModel) &&
            isProvider X AZURE_OPENAI customModel).
  - unfold validateO1PreviewModel, bind, gets, ret, throw.
    destruct (negb _ || negb _).
    + by intros [= _ <-].
    + cbn beta iota delta [id]. destruct (_ || _); by intros [= _ <-].
  - by intros [= _ <-].
Qed.

(** Off o1-preview, building a configuration cannot fail. *)
Lemma getModelConfig_total (customModel : CustomModel) (w : World) :
  isO1PreviewModel (modelName customModel) = false →
  ∃ cfg, getModelConfig X customModel w = (Ok cfg, w).
Proof.
  intros Ho. unfold getModelConfig, bind, gets, ret.
  cbn beta iota delta [id]. rewrite Ho. cbn beta iota delta [andb].
  eexists. reflexivity.
Qed.

Lemma getProviderConstructor_frame (model : CustomModel) (w w' : World)
    (r : Result ChatConstructorType) :
  getProviderConstructor X model w = (r, w') → sameButEvents w w'.
Proof.
  unfold getProviderConstructor. destruct (providerOf X (provider model)).
  - intros [= _ <-]. apply sameButEvents_refl.
  - unfold bind, consoleWarn, modify, throw. intros [= _ <-].
    apply sameButEvents_emit.
Qed.

Lemma tryPing_frame (model : CustomModel) (c : bool) (w w' : World) (r : Result unit) :
  tryPing X model c w = (r, w') → sameButEvents w w'.
Proof.
  unfold tryPing.
  destruct (isProvider X AZURE_OPENAI (withCors model c) &&
            isO1PreviewModel (modelName (withCors model c))).
  { intros [= _ <-]. apply sameButEvents_refl. }
  intros H. apply bind_inv in H as [(cfg & w1 & Hcfg & H)|(e & Hcfg & _)].
  2: { apply getModelConfig_frame in Hcfg as ->. apply sameButEvents_refl. }
  apply getModelConfig_frame in Hcfg as ->.
  apply bind_inv in H as [(ctor & w2 & Hctor & H)|(e & Hctor & _)].
  2: { by apply getProviderConstructor_frame in Hctor. }
  apply getProviderConstructor_frame in Hctor.
  eapply sameButEvents_trans; [exact Hctor|].
  unfold bind, liftR, ret in H.
  destruct (newModel X ctor _); [|injection H as _ <-; apply sameButEvents_refl].
  destruct (invoke X a "hello"); injection H as _ <-; apply sameButEvents_refl.
Qed.

Lemma ping_frame (model : CustomModel) (w w' : World) (r : Result bool) :
  ping X model w = (r, w') → sameButEvents w w'.
Proof.
  unfold ping. intros H.
  apply tryCatch_inv in H as [(a & H & _)|(e1 & w1 & H1 & H)].
  - apply bind_inv in H as [(? & w1 & H1 & H)|(e & H1 & _)].
    + injection H as _ <-. by apply tryPing_frame in H1.
    + by apply tryPing_frame in H1.
  - assert (sameButEvents w w1) as Hf1.
    { apply bind_inv in H1 as [(? & ? & _ & H1)|(e & H1 & _)]; [discriminate|].
      by apply tryPing_frame in H1. }
    eapply sameButEvents_trans; [exact Hf1|].
    apply bind_inv in H as [(? & w2 & Hlog & H)|(e & Hlog & _)]; [|discriminate].
    injection Hlog as _ <-.
    eapply sameButEvents_trans; [apply sameButEvents_emit|].
    apply tryCatch_inv in H as [(a & H & _)|(e2 & w3 & H2 & H)].
    + apply bind_inv in H as [(? & w3 & H2 & H)|(e & H2 & _)].
      * apply tryPing_frame in H2.
        eapply sameButEvents_trans; [exact H2|].
        injection H as _ <-. apply sameButEvents_emit.
      * by apply tryPing_frame in H2.
    + injection H as _ <-.
      apply bind_inv in H2 as [(? & w4 & H2 & H)|(e & H2 & _)].
      * unfold bind, notice, modify, ret in H. discriminate.
      * by apply tryPing_frame in H2.
Qed.


Context (getModelKeyFromModel : CustomModel → string).

(** C1, as the code has it. When the descriptor is registered with
    credentials, is not an o1-preview model, and its ping fails,
    [setChatModel] fails with "Failed to initialize model: <key>. <ping
    error>" and leaves no active model: [getChatModel] then throws,
    whatever model was active before. The registry and the selected model
    key are as before. *)
Theorem failed_ping_resets_active_model
    (model : CustomModel) (w w1 : World) (entry : RegistryEntry) (e : Thrown) :
  modelMap w !! getModelKeyFromModel model = Some entry →
  hasApiKey entry = true →
  isO1PreviewModel (modelName model) = false →
  ping X model w = (Throw e, w1) →
  ∃ w',
    setChatModel X getModelKeyFromModel model w
      = (Throw (mkError (failedToInitialize (getModelKeyFromModel model) e)), w') ∧
    chatModel w' = None ∧
    getChatModel w' = (Throw (mkError noChatModel), w') ∧
    modelMap w' = modelMap w ∧
    userModelKey w' = userModelKey w.
Proof.
  intros Hreg Hkey Ho Hping.
  destruct (getModelConfig_total model w Ho) as (cfg & Hcfg).
  destruct (ping_frame _ _ _ _ Hping) as (_ & Hmk & _ & Hmm & _).
  eexists. split; [|split; [|split; [|split]]].
  - unfold setChatModel.
    erewrite bind_ok by reflexivity. cbn beta iota delta [id].
    rewrite Hreg, Hkey. cbn [negb].
    erewrite bind_ok by exact Hcfg.
    rewrite Ho. cbn [negb].
    erewrite bind_throw; [reflexivity|].
    erewrite tryCatch_throw by (erewrite bind_throw by exact Hping; reflexivity).
    reflexivity.
  - reflexivity.
  - reflexivity.
  - exact Hmm.
  - exact Hmk.
Qed.

End PingV2.


(** The ping of the first revision is another protocol: it starts with the
    CORS flag of the descriptor (CORS enabled when the descriptor has none),
    retries without CORS only for a descriptor that asks for CORS, and
    reports a double failure as [false], with the errors on the console. *)
Lemma first_revision_ping_reports_false :
  let rejected := Sample.model1 "gpt-4" "openai" (Some "sk-invalid") true in
  let out := V1.ping Sample.X (V1.withCors rejected true) Sample.warm1 in
  out.1 = Ok false ∧
  V1.events out.2 =
    [EConsoleError "Ping failed:" (Some (mkError "401 Incorrect API key provided"));
     EConsoleError "Ping failed:" (Some (mkError "401 Incorrect API key provided"));
     EConsoleError "Ping failed without CORS:"
       (Some (mkError "401 Incorrect API key provided"))].
Proof. split; vm_refl. Qed.

(** C1, the claim as written, fails: with model A active, activating the
    registered model B, whose ping fails, leaves no active model. *)
Lemma failed_activation_drops_model_A :
  V2.chatModel Sample.ready2 = Some Sample.instanceA ∧
  (∃ e, (V2.ping Sample.X Sample.modelB Sample.ready2).1 = Throw e) ∧
  V2.chatModel (V2.setChatModel Sample.X Sample.key2 Sample.modelB Sample.ready2).2
    ≠ Some Sample.instanceA.
Proof.
  split; [reflexivity|]. split.
  - eexists. vm_compute. reflexivity.
  - vm_compute. discriminate.
Qed.

(** The amended statement on the same input. *)
Lemma failed_ping_resets_active_model_witness :
  ∃ w' msg,
    V2.setChatModel Sample.X Sample.key2 Sample.modelB Sample.ready2
      = (Throw (mkError msg), w') ∧
    V2.chatModel w' = None.
Proof.
  destruct (failed_ping_resets_active_model Sample.X Sample.key2 Sample.modelB
              Sample.ready2
              (V2.emit (EConsoleLog "First ping attempt failed, trying with CORS...")
                 Sample.ready2)
              Sample.entry2
              (mkError (V2.bothFailed Sample.X
                          (mkError "401 Incorrect API key provided")
                          (mkError "401 Incorrect API key provided"))))
    as (w' & Hset & Hnone & _); [vm_refl | reflexivity | vm_refl | vm_refl |].
  eexists _, _. split; [exact Hset | exact Hnone].
Defined.

(** ** Frames of the first revision and of the chain manager *)
Section FramesV1.
Context (X : Externals).
Import V1 ChainManager.

Lemma eventsOnly_refl (w : World) : eventsOnly w w.
Proof. by repeat split. Qed.

Lemma eventsOnly_trans (w1 w2 w3 : World) :
  eventsOnly w1 w2 → eventsOnly w2 w3 → eventsOnly w1 w3.
Proof.
  intros (?&?&?&?&?&?&?&?&?&?&?&?) (?&?&?&?&?&?&?&?&?&?&?&?).
  repeat split; congruence.
Qed.

Lemma eventsOnly_emit (e : Event) (w : World) : eventsOnly w (emit e w).
Proof. by repeat split. Qed.

Lemma chainOnly_refl (w : World) : chainOnly w w.
Proof. by repeat split. Qed.

Lemma chainOnly_trans (w1 w2 w3 : World) :
  chainOnly w1 w2 → chainOnly w2 w3 → chainOnly w1 w3.
Proof.
  intros (?&?&?&?&?&?&?&?) (?&?&?&?&?&?&?&?). repeat split; congruence.
Qed.

Lemma eventsOnly_chainOnly (w w' : World) : eventsOnly w w' → chainOnly w w'.
Proof. intros (?&?&?&?&?&?&?&?&?&?&?&?). by repeat split. Qed.

Lemma emits_eventsOnly (evs : list Event) (w : World) :
  eventsOnly w (fold_left (λ w e, emit e w) evs w).
Proof.
  revert w. induction evs as [|e evs IH]; intros w; [apply eventsOnly_refl|].
  eapply eventsOnly_trans; [apply (eventsOnly_emit e)|apply IH].
Qed.

Lemma getChatModel_inv (w w' : World) (r : Result BaseChatModel) :
  getChatModel w = (r, w') →
  w' = w ∧ (∀ m, r = Ok m → chatModel w = Some m).
Proof.
  unfold getChatModel, bind, gets, ret, throw. cbn beta iota delta [id].
  destruct (chatModel w); intros [= <- <-]; split; congruence.
Qed.

Lemma getChatModel_some (w : World) (m : BaseChatModel) :
  chatModel w = Some m → getChatModel w = (Ok m, w).
Proof.
  intros H. unfold getChatModel, bind, gets, ret. cbn beta iota delta [id].
  by rewrite H.
Qed.

Lemma getModelConfig_frame1 (customModel : CustomModel) (w w' : World) (r : Result Config) :
  getModelConfig X customModel w = (r, w') → eventsOnly w w'.
Proof.
  unfold getModelConfig, bind, gets, ret, throw, notice, modify.
  cbn beta iota delta [id].
  destruct (_ || _); [intros [= _ <-]; apply eventsOnly_emit|].
  destruct (_ || _); [intros [= _ <-]; apply eventsOnly_emit|].
  intros [= _ <-]. apply eventsOnly_refl.
Qed.

Lemma getAzureModelConfig_frame (customModel : CustomModel) (w w' : World)
    (r : Result Config) :
  getAzureModelConfig X customModel w = (r, w') → w' = w.
Proof.
  unfold getAzureModelConfig, bind, gets, ret, throw. cbn beta iota delta [id].
  destruct (deploymentFor w); by intros [= _ <-].
Qed.

Lemma requiredFields_frame (cfg : Config) (modelKey : string) (l : list string)
    (w w' : World) (r : Result unit) :
  forEach l (λ field,
    if negb (truthy (getProp cfg field)) then
      notice (missingField field modelKey) ;;
      throw (mkError (missingField field modelKey))
    else ret tt) w = (r, w') →
  eventsOnly w w'.
Proof.
  revert w. induction l as [|f l IH]; intros w; simpl.
  - intros [= _ <-]. apply eventsOnly_refl.
  - intros H. apply bind_inv in H as [(? & w1 & H1 & H)|(e & H1 & _)].
    + destruct (negb _).
      * unfold bind, notice, modify, throw in H1. discriminate.
      * injection H1 as _ <-. by apply IH.
    + destruct (negb _).
      * unfold bind, notice, modify, throw in H1. injection H1 as _ <-.
        apply eventsOnly_emit.
      * discriminate.
Qed.

(** A failed [setChatModel] has only shown or logged something. *)
Lemma setChatModel_throw_frame (model : CustomModel) (w w' : World) (e : Thrown) :
  setChatModel X model w = (Throw e, w') → eventsOnly w w'.
Proof.
  unfold setChatModel. intros H.
  apply bind_inv in H as [(w0 & w1 & H0 & H)|(? & H0 & _)]; [|discriminate].
  injection H0 as <- <-.
  destruct (modelMap w !! keyOf model) as [sel|].
  2: { injection H as _ <-. apply eventsOnly_refl. }
  destruct (negb (hasApiKey sel)).
  { unfold bind, notice, modify, throw in H. injection H as _ <-.
    apply eventsOnly_emit. }
  apply bind_inv in H as [(cfg & w1 & Hcfg & H)|(? & Hcfg & _)].
  2: { destruct (isProvider X AZURE_OPENAI model).
       - apply getAzureModelConfig_frame in Hcfg as ->. apply eventsOnly_refl.
       - by apply getModelConfig_frame1 in Hcfg. }
  assert (eventsOnly w w1) as Hf1.
  { destruct (isProvider X AZURE_OPENAI model).
    - apply getAzureModelConfig_frame in Hcfg as ->. apply eventsOnly_refl.
    - by apply getModelConfig_frame1 in Hcfg. }
  apply bind_inv in H as [(? & w2 & Hreq & H)|(? & Hreq & _)].
  2: { eapply eventsOnly_trans; [exact Hf1|].
       destruct (isProvider X AZURE_OPENAI model).
       - by apply requiredFields_frame in Hreq.
       - discriminate. }
  exfalso.
  apply bind_inv in H as [(? & w3 & Hk & H)|(? & Hk & _)]; [|discriminate].
  apply tryCatch_inv in H as [(? & _ & ?)|(e' & w4 & _ & H)]; [discriminate|].
  unfold bind, consoleError, notice, modify in H. discriminate.
Qed.

(** [setChain] touches the chains, the chain type and the log only. *)
Lemma setChain_frame (chainType : option ChainType) (options : SetChainOptions)
    (w w' : World) (r : Result (option PendingChain)) :
  setChain chainType options w = (r, w') → chainOnly w w'.
Proof.
  unfold setChain. intros H.
  apply bind_inv in H as [(m & w1 & Hm & H)|(? & Hm & _)].
  2: { apply getChatModel_inv in Hm as [-> _]. apply chainOnly_refl. }
  apply getChatModel_inv in Hm as [-> _].
  cbn [V1.validateChatModel negb] in H.
  apply bind_inv in H as [(? & w1 & Hv & H)|(? & Hv & _)].
  2: { unfold validateChainType in Hv. destruct chainType; [discriminate|].
       injection Hv as _ <-. apply chainOnly_refl. }
  assert (w1 = w) as ->.
  { unfold validateChainType in Hv. by destruct chainType; injection Hv as _ <-. }
  apply bind_inv in H as [(m' & w1 & Hm & H)|(? & Hm & _)].
  2: { apply getChatModel_inv in Hm as [-> _]. apply chainOnly_refl. }
  apply getChatModel_inv in Hm as [-> _].
  unfold bind, gets in H. cbn beta iota delta [id] in H.
  destruct chainType as [[]|].
  - unfold modify, setChainType, ret in H. injection H as _ <-. by repeat split.
  - destruct (embeddingsAPI w); injection H as _ <-; apply chainOnly_refl.
  - destruct (embeddingsAPI w); injection H as _ <-; apply chainOnly_refl.
  - injection H as _ <-. apply chainOnly_refl.
Qed.

(** A dropped promise never throws into its caller. *)
Lemma unawaited_run (c : M World (option PendingChain)) (w : World) :
  (∀ r w', c w = (r, w') → chainOnly w w') →
  ∃ w', unawaited c w = (Ok tt, w') ∧ chainOnly w w'.
Proof.
  intros Hc. unfold unawaited, tryCatch, bind.
  destruct (c w) as [[[t|]|e] w1] eqn:E; specialize (Hc _ _ eq_refl).
  - eexists. split; [reflexivity|].
    eapply chainOnly_trans; [exact Hc|]. by repeat split.
  - eexists. split; [reflexivity|]. exact Hc.
  - eexists. split; [reflexivity|].
    eapply chainOnly_trans; [exact Hc|]. by repeat split.
Qed.

End FramesV1.

(** ** A turn of the chain manager *)
Section Turn.
Context (X : Externals).
Context (chainRunnerRun :
  ChainType → V1.World → ChatMessage → ChainManager.RunOptions →
  Result string * list Event).
Import V1 ChainManager.

Lemma validateChatModel_inv (w w' : World) (r : Result unit) :
  ChainManager.validateChatModel w = (r, w') → w' = w.
Proof.
  unfold ChainManager.validateChatModel. intros H.
  apply bind_inv in H as [(m & w1 & Hm & H)|(? & Hm & _)].
  - apply getChatModel_inv in Hm as [-> _]. cbn in H. by injection H as _ <-.
  - by apply getChatModel_inv in Hm as [-> _].
Qed.

Lemma validateChainInitialization_run (w : World) :
  ∃ w', validateChainInitialization w = (Ok tt, w') ∧ chainOnly w w' ∧
        (∀ c, chain w = Some c → w' = w).
Proof.
  unfold validateChainInitialization.
  rewrite (bind_ok _ _ w w w) by reflexivity. cbn beta iota delta [id].
  destruct (chain w) as [c|]; cbn [isSupportedChain negb].
  - exists w. split; [reflexivity|]. split; [apply chainOnly_refl|done].
  - erewrite bind_ok by reflexivity.
    destruct (unawaited_run (setChain (getChainType w) noOptions)
                (emit (EConsoleError
                   "Chain is not initialized properly, re-initializing chain: " None) w))
      as (w' & Hrun & Hf).
    { intros r w'. apply setChain_frame. }
    exists w'. split; [exact Hrun|]. split; [|done].
    eapply chainOnly_trans; [|exact Hf]. by repeat split.
Qed.

(** The checks and the prompt substitution leave the active model, the
    settings and the globally selected prompt alone; the model they return
    is the active one. *)
Lemma prepareTurn_inv (userMessage : ChatMessage) (options : RunOptions)
    (w w' : World) (r : Result (BaseChatModel * ChainType)) :
  prepareTurn userMessage options w = (r, w') →
  chainOnly w w' ∧ (∀ m ct, r = Ok (m, ct) → chatModel w = Some m).
Proof.
  unfold prepareTurn. intros H.
  apply bind_inv in H as [(? & w1 & Hd & H)|(? & Hd & _)].
  2: { destruct (opt_debug options); discriminate. }
  assert (chainOnly w w1) as F1.
  { destruct (opt_debug options); injection Hd as _ <-;
      [by repeat split | apply chainOnly_refl]. }
  apply bind_inv in H as [(? & w2 & Hv & H)|(? & Hv & ->)].
  2: { apply validateChatModel_inv in Hv as ->. split; [exact F1|discriminate]. }
  apply validateChatModel_inv in Hv as ->.
  destruct (validateChainInitialization_run w1) as (w2 & Hi & F2 & _).
  rewrite (bind_ok _ _ _ _ _ Hi) in H.
  apply bind_inv in H as [(m & w3 & Hm & H)|(? & Hm & ->)].
  2: { apply getChatModel_inv in Hm as [-> _].
       split; [eapply chainOnly_trans; eauto | discriminate]. }
  apply getChatModel_inv in Hm as [-> Hm]. specialize (Hm m eq_refl).
  assert (chatModel w = Some m) as Hact.
  { destruct F1 as (_&_&E1&_), F2 as (_&_&E2&_). congruence. }
  assert (∃ w3, (if opt_ignoreSystemMessage options || isO1PreviewInstance m
                 then let* w0 := gets id in
                      unawaited (setChain (getChainType w0)
                        {| opt_prompt := Some systemFreePrompt;
                           opt_refreshIndex := false |})
                 else ret tt) w2 = (Ok tt, w3) ∧ chainOnly w2 w3) as (w3 & Hs & F3).
  { destruct (_ || _).
    - erewrite bind_ok by reflexivity. cbn beta iota delta [id].
      apply unawaited_run. intros r' w''. apply setChain_frame.
    - exists w2. split; [reflexivity | apply chainOnly_refl]. }
  rewrite (bind_ok _ _ _ _ _ Hs) in H.
  assert (chainOnly w w3) as F by (repeat (eapply chainOnly_trans; eauto)).
  unfold getChainRunner, bind, gets, ret, throw in H. cbn beta iota delta [id] in H.
  destruct (getChainType w3); injection H as <- <-; split; auto; try discriminate.
  by intros ? ? [= <- _].
Qed.


(** A failure of the preparation is thrown as it is, whatever the model. *)
Lemma preparation_failure_propagates
    (w w0 : World) (userMessage : ChatMessage) (options : RunOptions) (e0 : Thrown) :
  prepareTurn userMessage options w = (Throw e0, w0) →
  runChain X chainRunnerRun userMessage options w = (Throw e0, w0).
Proof. intros H. unfold runChain. by erewrite bind_throw by exact H. Qed.

End Turn.

(** ** The prompt substitution of a turn *)
Section PromptSubstitution.
Context (X : Externals).
Context (chainRunnerRun :
  ChainType → V1.World → ChatMessage → ChainManager.RunOptions →
  Result string * list Event).
Import V1 ChainManager.

Lemma runChain_frame (userMessage : ChatMessage) (options : RunOptions)
    (w w' : World) (r : Result string) :
  runChain X chainRunnerRun userMessage options w = (r, w') → chainOnly w w'.
Proof.
  unfold runChain. intros H.
  apply bind_inv in H as [([m ct] & w1 & Hp & H)|(? & Hp & _)].
  2: { by apply prepareTurn_inv in Hp as [? _]. }
  apply prepareTurn_inv in Hp as [F1 _].
  eapply chainOnly_trans; [exact F1|].
  assert (∀ r2 w2, runRunner chainRunnerRun ct userMessage options w1 = (r2, w2) →
                   eventsOnly w1 w2) as Hrr.
  { intros r2 w2. unfold runRunner, bind, gets, modify, liftR.
    cbn beta iota delta [id]. intros [= _ <-]. apply emits_eventsOnly. }
  apply tryCatch_inv in H as [(a & H & _)|(e & w2 & H2 & H)].
  - apply eventsOnly_chainOnly. by eapply Hrr.
  - apply Hrr in H2. apply eventsOnly_chainOnly in H2.
    eapply chainOnly_trans; [exact H2|]. cbn [fst] in H.
    destruct (isO1PreviewInstance m).
    + unfold bind, consoleError, modify, ret in H. injection H as _ <-.
      by repeat split.
    + injection H as _ <-. apply chainOnly_refl.
Qed.

(** C8, as the code has it. A turn run for an o1-preview model, or with
    system messages suppressed, never changes the globally selected prompt.
    With the plain chain type selected, the turn first replaces the global
    chain by one built from the system-message-free prompt, runs on it, and
    leaves that chain in place when it ends: the chain is not set back to
    the one built from the global prompt. *)
Theorem prompt_substitution_persists
    (w : World) (userMessage : ChatMessage) (options : RunOptions)
    (m : BaseChatModel) (c0 : RunnableSequence) :
  chatModel w = Some m →
  opt_ignoreSystemMessage options || isO1PreviewInstance m = true →
  chain w = Some c0 →
  getChainType w = Some LLM_CHAIN →
  let substituted := LLMChain m (memoryId w) systemFreePrompt in
  chatPrompt (runChain X chainRunnerRun userMessage options w).2 = chatPrompt w
  ∧ (∃ w1, prepareTurn userMessage options w = (Ok (m, LLM_CHAIN), w1) ∧
           chain w1 = Some substituted)
  ∧ chain (runChain X chainRunnerRun userMessage options w).2 = Some substituted.
Proof.
  intros Hm Hsub Hc Hct substituted.
  split.
  { destruct (runChain X chainRunnerRun userMessage options w) as [r w'] eqn:E.
    apply runChain_frame in E as (_&_&_&_&_&E&_). exact E. }
  set (wd := if opt_debug options
             then emit (EConsoleLog "==== Step 0: Initial user message ====") w
             else w).
  assert (Hwd : chatModel wd = Some m ∧ chain wd = Some c0 ∧
                getChainType wd = Some LLM_CHAIN ∧ memoryId wd = memoryId w).
  { unfold wd. by destruct (opt_debug options). }
  destruct Hwd as (Hm' & Hc' & Hct' & Hmem').
  set (w1 := with_userChainType (Some LLM_CHAIN)
               (with_chain (Some (LLMChain m (memoryId wd) systemFreePrompt)) wd)).
  assert (Hset : setChain (Some LLM_CHAIN)
                   {| opt_prompt := Some systemFreePrompt; opt_refreshIndex := false |}
                   wd = (Ok None, w1)).
  { unfold setChain.
    erewrite bind_ok by (by apply getChatModel_some).
    cbn [V1.validateChatModel negb].
    erewrite bind_ok by reflexivity.
    erewrite bind_ok by (by apply getChatModel_some).
    erewrite bind_ok by reflexivity. cbn beta iota delta [id].
    reflexivity. }
  assert (Hprep : prepareTurn userMessage options w = (Ok (m, LLM_CHAIN), w1)).
  { unfold prepareTurn.
    erewrite (bind_ok _ _ w wd) by (unfold wd; by destruct (opt_debug options)).
    erewrite bind_ok
      by (unfold ChainManager.validateChatModel;
          erewrite bind_ok by (by apply getChatModel_some); reflexivity).
    erewrite bind_ok
      by (unfold validateChainInitialization;
          erewrite bind_ok by reflexivity; cbn beta iota delta [id];
          rewrite Hc'; reflexivity).
    erewrite bind_ok by (by apply getChatModel_some).
    rewrite Hsub.
    erewrite (bind_ok _ _ wd w1).
    - unfold getChainRunner. erewrite bind_ok by reflexivity.
      cbn beta iota delta [id]. reflexivity.
    - erewrite bind_ok by reflexivity. cbn beta iota delta [id]. rewrite Hct'.
      unfold unawaited. apply tryCatch_ok.
      erewrite bind_ok by exact Hset. reflexivity. }
  assert (Hc1 : chain w1 = Some substituted).
  { unfold w1, substituted. cbn. by rewrite Hmem'. }
  split; [eauto|].
  unfold runChain. erewrite bind_ok by exact Hprep. cbn [fst snd].
  assert (∀ r2 w2, runRunner chainRunnerRun LLM_CHAIN userMessage options w1 = (r2, w2) →
                   chain w2 = chain w1) as Hrr.
  { intros r2 w2. unfold runRunner, bind, gets, modify, liftR.
    cbn beta iota delta [id]. intros [= _ <-].
    by destruct (emits_eventsOnly
                   (chainRunnerRun LLM_CHAIN w1 userMessage options).2 w1)
      as (_&_&_&_&_&E&_). }
  unfold tryCatch.
  destruct (runRunner chainRunnerRun LLM_CHAIN userMessage options w1)
    as [[a|e] w2]; specialize (Hrr _ _ eq_refl); cbn [snd].
  - congruence.
  - destruct (isO1PreviewInstance m); cbn; congruence.
Qed.

End PromptSubstitution.

(** C8, the claim as written, fails: a turn with system messages
    suppressed leaves the global chain built from the system-message-free
    prompt, not the chain that was there before the turn. *)
Lemma suppressed_turn_changes_the_chain :
  let after :=
    (ChainManager.runChain Sample.X Sample.runnerOk Sample.hello
       Sample.ignoreSystem Sample.warm1).2 in
  V1.chain Sample.warm1 = Some (V1.LLMChain Sample.instance4o 0 Sample.systemPrompt) ∧
  V1.chain after
    = Some (V1.LLMChain Sample.instance4o 0 ChainManager.systemFreePrompt) ∧
  V1.chain after ≠ V1.chain Sample.warm1.
Proof.
  intros after.
  assert (H1 : V1.chain Sample.warm1
               = Some (V1.LLMChain Sample.instance4o 0 Sample.systemPrompt))
    by reflexivity.
  assert (H2 : V1.chain after
               = Some (V1.LLMChain Sample.instance4o 0 ChainManager.systemFreePrompt))
    by (unfold after; vm_refl).
  split; [exact H1|]. split; [exact H2|].
  rewrite H1, H2. intros H. discriminate H.
Qed.

(** The amended statement on the same turn. *)
Lemma prompt_substitution_persists_witness :
  let after :=
    (ChainManager.runChain Sample.X Sample.runnerOk Sample.hello
       Sample.ignoreSystem Sample.warm1).2 in
  V1.chatPrompt after = V1.chatPrompt Sample.warm1 ∧
  V1.chain after
    = Some (V1.LLMChain Sample.instance4o 0 ChainManager.systemFreePrompt).
Proof.
  intros after.
  destruct (prompt_substitution_persists Sample.X Sample.runnerOk Sample.warm1
              Sample.hello Sample.ignoreSystem Sample.instance4o Sample.chain4o)
    as (Hp & _ & Hc); [reflexivity | reflexivity | reflexivity | reflexivity |].
  split; [exact Hp | exact Hc].
Defined.
(** ** Rebuilding the model and the chain *)
Section Rebuild.
Context (X : Externals).
Import V1 ChainManager.

Lemma resolveModel_throw_frame (key : string) (w w' : World) (e : Thrown) :
  resolveModel key w = (Throw e, w') → eventsOnly w w'.
Proof.
  unfold resolveModel, bind, gets, ret, throw, consoleError, modify.
  cbn beta iota delta [id].
  destruct (activeModels (settings w)) as [models|].
  2: { intros [= _ <-]. apply eventsOnly_refl. }
  destruct (findCustomModel key models); [discriminate|].
  destruct (builtinModels _); intros [= _ <-]. apply eventsOnly_emit.
Qed.

(** Copying a deployment onto the descriptor touches the settings or the
    built-in table, nothing else. *)
Lemma writeBack_run (origin : Origin) (key : string) (m : CustomModel) (w : World) :
  ∃ w', writeBack origin key m w = (Ok tt, w') ∧
        chatModel w' = chatModel w ∧ chain w' = chain w ∧
        retrievalChain w' = retrievalChain w.
Proof. destruct origin; eexists; (split; [reflexivity|]); by repeat split. Qed.

(** When the rest of the [try] block throws, the throw comes from
    [setChatModel]; the active model and the chains are as before. *)
Lemma activateModel_throw_frame (customModel : CustomModel) (key : string)
    (origin : Origin) (w w' : World) (e : Thrown) :
  activateModel X customModel key origin w = (Throw e, w') →
  chatModel w' = chatModel w ∧ chain w' = chain w ∧
  retrievalChain w' = retrievalChain w.
Proof.
  unfold activateModel. intros H.
  apply bind_inv in H as [(cm & w1 & Hcm & H)|(? & Hcm & _)].
  - assert (chatModel w1 = chatModel w ∧ chain w1 = chain w ∧
            retrievalChain w1 = retrievalChain w) as (E1 & E2 & E3).
    { destruct (provider customModel =? "azure openai")%string.
      - apply bind_inv in Hcm as [(w0 & w2 & H0 & Hcm)|(? & H0 & _)]; [|discriminate].
        injection H0 as <- <-.
        destruct (List.find _ _) as [d|].
        + destruct (writeBack_run origin key (applyDeployment d customModel) w)
            as (w3 & Hw & F).
          unfold bind in Hcm. rewrite Hw in Hcm. by injection Hcm as _ <-.
        + by injection Hcm as _ <-.
      - by injection Hcm as _ <-. }
    apply bind_inv in H as [(? & w2 & Hset & H)|(? & Hset & _)].
    + exfalso.
      apply bind_inv in H as [(w0 & w3 & H0 & H)|(? & H0 & _)]; [|discriminate].
      injection H0 as <- <-.
      destruct (unawaited_run
                  (setChain (getChainType w2)
                     {| opt_prompt := Some (getEffectivePrompt X w2 cm);
                        opt_refreshIndex := false |}) w2) as (w3 & Hu & _).
      { intros r w''. apply setChain_frame. }
      unfold bind in H. rewrite Hu in H. discriminate.
    + apply setChatModel_throw_frame in Hset as (_&_&_&F1&_&F2&F3&_).
      repeat split; congruence.
  - exfalso.
    destruct (provider customModel =? "azure openai")%string; [|discriminate].
    apply bind_inv in Hcm as [(w0 & w2 & H0 & Hcm)|(? & H0 & _)]; [|discriminate].
    injection H0 as <- <-.
    destruct (List.find _ _) as [d|]; [|discriminate].
    destruct (writeBack_run origin key (applyDeployment d customModel) w)
      as (w3 & Hw & F).
    unfold bind in Hcm. rewrite Hw in Hcm. discriminate.
Qed.

(** C10, as the code has it. [createChainWithNewModel] never raises to its
    caller. When no active descriptor has the current key, the rebuild goes
    on with the first built-in chat model and with that model's
    name|provider as the key. When the [try] block throws (the lookup, or
    the registry, credential and configuration checks of [setChatModel]),
    the error is caught and logged with the key, and the active model and
    the chains are the ones from before the call. *)
Theorem rebuild_failures_are_contained (w : World) :
  (∃ w', createChainWithNewModel X w = (Ok tt, w'))
  ∧ (∀ models b rest,
       activeModels (settings w) = Some models →
       findCustomModel (getModelKey w) models = None →
       builtinModels w = b :: rest →
       rebuild X (getModelKey w) w =
         let w0 := emit (EConsoleError
                           ("Resetting to default model. No model configuration found for: "
                            +:+ getModelKey w) None) w in
         let out := activateModel X b (keyOf b) FromBuiltins w0 in
         (out.1, keyOf b, out.2))
  ∧ (∀ e key w1,
       rebuild X (getModelKey w) w = (Throw e, key, w1) →
       createChainWithNewModel X w =
         (Ok tt,
          emit (EConsoleLog ("modelKey: " +:+ key))
            (emit (EConsoleError "createChainWithNewModel failed:" (Some e)) w1))
       ∧ chatModel w1 = chatModel w ∧ chain w1 = chain w
       ∧ retrievalChain w1 = retrievalChain w).
Proof.
  split; [|split].
  - unfold createChainWithNewModel.
    destruct (rebuild X (getModelKey w) w) as [[[[]|e] key] w1]; eauto.
  - intros models b rest Hm Hf Hb. unfold rebuild, resolveModel.
    unfold bind at 1. unfold gets at 1. cbn beta iota delta [id].
    rewrite Hm, Hf.
    unfold bind at 1. unfold consoleError at 1. unfold modify at 1.
    cbn [builtinModels emit]. rewrite Hb. reflexivity.
  - intros e key w1 Hr. split.
    + unfold createChainWithNewModel. rewrite Hr. reflexivity.
    + unfold rebuild in Hr.
      destruct (resolveModel (getModelKey w) w) as [[[[cm key'] origin]|e'] w0] eqn:Hres.
      * destruct (activateModel X cm key' origin w0) as [r w2] eqn:Hact.
        cbn [fst snd] in Hr. injection Hr as -> <- <-.
        apply activateModel_throw_frame in Hact as (E1 & E2 & E3).
        assert (chatModel w0 = chatModel w ∧ chain w0 = chain w ∧
                retrievalChain w0 = retrievalChain w) as (F1 & F2 & F3).
        { revert Hres.
          unfold resolveModel, bind, gets, ret, throw, consoleError, modify.
          cbn beta iota delta [id].
          destruct (activeModels (settings w)) as [models|]; [|discriminate].
          destruct (findCustomModel _ models).
          - by intros [= _ _ _ <-].
          - destruct (builtinModels _); [discriminate|]. by intros [= _ _ _ <-]. }
        repeat split; congruence.
      * injection Hr as <- <- <-.
        apply resolveModel_throw_frame in Hres as (_&_&_&F1&_&F2&F3&_).
        by repeat split.
Qed.

End Rebuild.

(** C10, the claim as written, fails. When the constructor of the selected
    model throws, the error is handled inside [setChatModel] with a notice,
    and the chain is rebuilt around the previous model with the prompt of
    the new descriptor. When the chain rebuild throws (no embeddings API for
    the vault QA chain), nothing catches it: the new model stays active and
    the rebuild is logged as a success. *)
Lemma rebuild_failure_not_contained :
  let afterA := (ChainManager.createChainWithNewModel Sample.X Sample.selectedMalformed).2 in
  let afterB := (ChainManager.createChainWithNewModel Sample.X Sample.selectedTurboQA).2 in
  (V1.chatModel afterA = V1.chatModel Sample.selectedMalformed ∧
   V1.chain afterA ≠ V1.chain Sample.selectedMalformed ∧
   In (ENotice "Error creating model: o1-preview|openai") (V1.events afterA))
  ∧ (V1.chatModel afterB ≠ V1.chatModel Sample.selectedTurboQA ∧
     V1.events afterB =
       [EUnhandledRejection (mkError ChainManager.noEmbeddings);
        EConsoleLog "Model successfully set to gpt-4-turbo|openai"]).
Proof.
  intros afterA afterB. split; [split; [|split]|split].
  - unfold afterA. vm_refl.
  - assert (H : V1.chain afterA
              = Some (V1.LLMChain Sample.instance4o 0 ChainManager.systemFreePrompt))
      by (unfold afterA; vm_refl).
    rewrite H. intros H'. discriminate H'.
  - assert (H : V1.events afterA
              = [EConsoleError "" (Some (mkError "constructor failed"));
                 ENotice "Error creating model: o1-preview|openai";
                 EConsoleLog "Model successfully set to o1-preview|openai"])
      by (unfold afterA; vm_refl).
    rewrite H. right. left. reflexivity.
  - assert (H : (V1.chatModel afterB ≫= λ m, mi_props m !! "modelName")
              = Some (VStr "gpt-4-turbo")) by (unfold afterB; vm_refl).
    intros H'. rewrite H' in H. vm_compute in H. discriminate H.
  - unfold afterB. vm_refl.
Qed.

(** The amended statement on a state whose selected key matches no
    descriptor: the rebuild falls back to the built-in model, fails because
    that model is not registered, and leaves the model and the chain. *)
Lemma rebuild_failures_are_contained_witness :
  let after := (ChainManager.createChainWithNewModel Sample.X Sample.selectedGhost).2 in
  V1.chatModel after = V1.chatModel Sample.selectedGhost ∧
  V1.chain after = V1.chain Sample.selectedGhost ∧
  V1.events after =
    [EConsoleError
       "Resetting to default model. No model configuration found for: ghost|openai"
       None;
     EConsoleError "createChainWithNewModel failed:"
       (Some (mkError "No model found for: gpt-4o|openai"));
     EConsoleLog "modelKey: gpt-4o|openai"].
Proof.
  intros after.
  destruct (rebuild_failures_are_contained Sample.X Sample.selectedGhost)
    as (_ & _ & Hcaught).
  destruct (Hcaught (mkError "No model found for: gpt-4o|openai") "gpt-4o|openai"
              (V1.emit (EConsoleError
                 "Resetting to default model. No model configuration found for: ghost|openai"
                 None) Sample.selectedGhost))
    as (Hrun & Hm & Hc & _); [vm_refl|].
  unfold after. rewrite Hrun. cbn [snd].
  split; [exact Hm|]. split; [exact Hc|]. reflexivity.
Defined.

(** ** Object literals *)

Lemma find_app_first {A} (p : A → bool) (a b : list A) :
  List.find p (a ++ b) =
    match List.find p a with Some x => Some x | None => List.find p b end.
Proof.
  induction a as [|x a IH]; [reflexivity|]. cbn [app List.find].
  by destruct (p x).
Qed.

Lemma foldl_insert_lookup (l : list (string * Value)) (m : Config) (k : string) :
  foldl (λ m kv, <[kv.1 := kv.2]> m) m l !! k =
    match List.find (λ kv, String.eqb kv.1 k) (rev l) with
    | Some kv => Some kv.2
    | None => m !! k
    end.
Proof.
  revert m. induction l as [|[k' v] l IH]; intros m; [reflexivity|].
  cbn [foldl rev]. rewrite IH. cbn [fst snd].
  rewrite find_app_first.
  destruct (List.find _ (rev l)); [reflexivity|]. cbn [List.find fst snd].
  destruct (String.eqb_spec k' k) as [->|Hne].
  - by rewrite lookup_insert_eq.
  - by rewrite lookup_insert_ne.
Qed.

(** A key that a literal does not write is not in the object. *)
Lemma obj_lookup_None (l : list (string * Value)) (k : string) :
  forallb (λ kv, negb (String.eqb kv.1 k)) l = true → obj l !! k = None.
Proof.
  intros H. unfold obj. rewrite foldl_insert_lookup.
  destruct (List.find _ (rev l)) as [kv|] eqn:E; [|apply lookup_empty].
  apply find_some in E as [Hin Heq]. apply in_rev in Hin.
  rewrite forallb_forall in H. apply H in Hin. by rewrite Heq in Hin.
Qed.

(** ** More on the configuration builders of the first revision *)
Section ConfigV1.
Context (X : Externals).
Import V1.

Lemma Qltb_true (a b : Q) : Qltb a b = true ↔ (a < b)%Q.
Proof.
  unfold Qltb. rewrite negb_true_iff. split.
  - intros H. apply Qnot_le_lt. intros Hle. apply Qle_bool_iff in Hle. congruence.
  - intros H. destruct (Qle_bool b a) eqn:E; [|reflexivity].
    apply Qle_bool_iff in E. exfalso. by apply (Qlt_not_le a b).
Qed.

Lemma Qltb_false (a b : Q) : Qltb a b = false ↔ (b <= a)%Q.
Proof.
  unfold Qltb. rewrite negb_false_iff. apply Qle_bool_iff.
Qed.

(** The two numbers of the settings pass the checks of [getModelConfig]. *)
Lemma numbers_accepted (s : CopilotSettings) :
  (0 < maxTokens s)%Q → isInteger (maxTokens s) = true →
  (0 <= temperature s)%Q → (temperature s <= 2)%Q →
  Qle_bool (maxTokens s) 0 || negb (isInteger (maxTokens s)) = false ∧
  Qltb (temperature s) 0 || Qltb 2 (temperature s) = false.
Proof.
  intros Hm Hi Ht0 Ht2. split.
  - rewrite Hi. cbn [negb]. rewrite orb_false_r.
    destruct (Qle_bool (maxTokens s) 0) eqn:E; [|reflexivity].
    apply Qle_bool_iff in E. exfalso. by apply (Qlt_not_le 0 (maxTokens s)).
  - apply orb_false_iff. split; by apply Qltb_false.
Qed.

(** X1. [getModelConfig] refuses a token budget that is not a positive integer,
    then a temperature outside [0, 2], each with a notice and the same text
    as the error; with both in range it always builds a configuration, for
    any descriptor, known provider or not, and leaves the state alone. *)
Theorem getModelConfig_checks_settings (customModel : CustomModel) (w : World) :
  ((maxTokens (settings w) <= 0)%Q ∨ isInteger (maxTokens (settings w)) = false →
   getModelConfig X customModel w
     = (Throw (mkError invalidMaxTokens), emit (ENotice invalidMaxTokens) w))
  ∧ ((0 < maxTokens (settings w))%Q → isInteger (maxTokens (settings w)) = true →
     (temperature (settings w) < 0)%Q ∨ (2 < temperature (settings w))%Q →
     getModelConfig X customModel w
       = (Throw (mkError invalidTemperature), emit (ENotice invalidTemperature) w))
  ∧ ((0 < maxTokens (settings w))%Q → isInteger (maxTokens (settings w)) = true →
     (0 <= temperature (settings w))%Q → (temperature (settings w) <= 2)%Q →
     ∃ cfg, getModelConfig X customModel w = (Ok cfg, w) ∧
            cfg !! "modelName" = Some (VStr (name customModel))).
Proof.
  split; [|split].
  - intros Hbad. unfold getModelConfig, bind, gets, notice, modify, throw.
    cbn beta iota delta [id].
    assert (Qle_bool (maxTokens (settings w)) 0 ||
            negb (isInteger (maxTokens (settings w))) = true) as ->; [|reflexivity].
    destruct Hbad as [Hle| ->]; [|apply orb_true_r].
    apply Qle_bool_iff in Hle. by rewrite Hle.
  - intros Hm Hi Hbad. unfold getModelConfig, bind, gets, notice, modify, throw.
    cbn beta iota delta [id].
    assert (Qle_bool (maxTokens (settings w)) 0 ||
            negb (isInteger (maxTokens (settings w))) = false) as ->.
    { rewrite Hi. cbn [negb]. rewrite orb_false_r.
      destruct (Qle_bool (maxTokens (settings w)) 0) eqn:E; [|reflexivity].
      apply Qle_bool_iff in E. exfalso.
      by apply (Qlt_not_le 0 (maxTokens (settings w))). }
    assert (Qltb (temperature (settings w)) 0 ||
            Qltb 2 (temperature (settings w)) = true) as ->; [|reflexivity].
    apply orb_true_iff. destruct Hbad as [H|H]; [left|right]; by apply Qltb_true.
  - intros Hm Hi Ht0 Ht2.
    destruct (numbers_accepted _ Hm Hi Ht0 Ht2) as [E1 E2].
    unfold getModelConfig, bind, gets, ret. cbn beta iota delta [id].
    rewrite E1, E2. eexists. split; [reflexivity|].
    unfold providerConfig, handleAzureOpenAIExtraArgs.
    destruct (providerOf X (provider customModel)) as [[]|];
      destruct (isProvider X OPENAI customModel && _);
      try destruct (name customModel =? "o1-preview")%string;
      reflexivity.
Qed.

Lemma providerOf_tag (s : string) (p : ChatModelProviders) :
  providerOf X s = Some p → providerTag X p = s.
Proof.
  unfold providerOf. intros H. apply find_some in H as [_ H].
  by apply String.eqb_eq in H.
Qed.

Lemma unknown_not_provider (customModel : CustomModel) (p : ChatModelProviders) :
  providerOf X (provider customModel) = None → isProvider X p customModel = false.
Proof.
  intros Hnone. unfold isProvider.
  destruct (String.eqb_spec (provider customModel) (providerTag X p)) as [E|]; [|done].
  exfalso. unfold providerOf in Hnone.
  assert (In p providerMembers) as Hin by (destruct p; cbn; tauto).
  pose proof (find_none _ _ Hnone p Hin) as Hf. cbn in Hf.
  rewrite E, String.eqb_refl in Hf. discriminate.
Qed.

(** What [getModelConfig] returns when it returns. *)
Lemma getModelConfig_ok (customModel : CustomModel) (w w' : World) (cfg : Config) :
  getModelConfig X customModel w = (Ok cfg, w') →
  w' = w ∧
  cfg =
    spread
      (obj [("modelName", VStr (name customModel));
            ("temperature", VNum (temperature (settings w)));
            ("streaming", VBool true);
            ("maxRetries", VNum 3);
            ("maxConcurrency", VNum 3);
            ("enableCors", ofOptBool (enableCors customModel));
            ("azureOpenAIApiDeploymentName",
             vOr (modelConfigField w (getModelKey w) "azureOpenAIApiDeploymentName")
                 (VStr ""));
            ("azureOpenAIApiInstanceName",
             vOr (modelConfigField w (getModelKey w) "azureOpenAIApiInstanceName")
                 (VStr ""));
            ("azureOpenAIApiVersion",
             vOr (modelConfigField w (getModelKey w) "azureOpenAIApiVersion")
                 (VStr ""))])
      (let selected :=
         match providerOf X (provider customModel) with
         | Some p => providerConfig X w customModel p
         | None => ∅
         end in
       if isProvider X OPENAI customModel &&
          negb (String.eqb (openAIOrgId (settings w)) "")
       then <["openAIOrgId" := VStr (getDecryptedKey X (openAIOrgId (settings w)))]>
              selected
       else selected).
Proof.
  unfold getModelConfig, bind, gets, ret, throw, notice, modify.
  cbn beta iota delta [id].
  destruct (_ || _); [discriminate|]. destruct (_ || _); [discriminate|].
  intros [= <- <-]. split; reflexivity.
Qed.

(** X2. A descriptor whose provider is not one of the enum gets the base
    configuration and nothing else: no key, no endpoint, no token budget. *)
Theorem unknown_provider_gets_base_configuration
    (customModel : CustomModel) (w w' : World) (cfg : Config) (k : string) :
  providerOf X (provider customModel) = None →
  getModelConfig X customModel w = (Ok cfg, w') →
  k ∉ ["modelName"; "temperature"; "streaming"; "maxRetries"; "maxConcurrency";
       "enableCors"; "azureOpenAIApiDeploymentName"; "azureOpenAIApiInstanceName";
       "azureOpenAIApiVersion"] →
  cfg !! k = None.
Proof.
  intros Hnone Hcfg Hk. apply getModelConfig_ok in Hcfg as [_ ->].
  rewrite Hnone, (unknown_not_provider _ OPENAI Hnone). cbn [andb].
  unfold spread. rewrite (left_id_L ∅ (∪)).
  apply obj_lookup_None. cbn [forallb fst].
  repeat (match goal with
          | |- context [String.eqb ?a k] =>
              destruct (String.eqb_spec a k) as [<-|_];
              [exfalso; apply Hk; set_solver|]
          end).
  reflexivity.
Qed.

(** X3. The token budget of the settings reaches the OpenAI and
    OpenAI-format providers only: under [maxTokens], with the temperature
    of the settings, or, for the model named o1-preview, under
    [maxCompletionTokens], with the temperature fixed at 1 and no
    [maxTokens]. For Anthropic, Cohere, Google, OpenRouter, Groq, Ollama and
    LM Studio the configuration has neither field and keeps the temperature
    of the settings, whatever the model is called. *)
Theorem token_budget_by_provider
    (customModel : CustomModel) (w w' : World) (cfg : Config)
    (p : ChatModelProviders) :
  providerOf X (provider customModel) = Some p →
  p ≠ AZURE_OPENAI →
  getModelConfig X customModel w = (Ok cfg, w') →
  if match p with OPENAI | OPENAI_FORMAT => true | _ => false end then
    if String.eqb (name customModel) "o1-preview" then
      cfg !! "maxCompletionTokens" = Some (VNum (maxTokens (settings w))) ∧
      cfg !! "maxTokens" = None ∧
      cfg !! "temperature" = Some (VNum 1)
    else
      cfg !! "maxTokens" = Some (VNum (maxTokens (settings w))) ∧
      cfg !! "maxCompletionTokens" = None ∧
      cfg !! "temperature" = Some (VNum (temperature (settings w)))
  else
    cfg !! "maxTokens" = None ∧ cfg !! "maxCompletionTokens" = None ∧
    cfg !! "temperature" = Some (VNum (temperature (settings w))).
Proof.
  intros Hp Hne Hcfg. apply getModelConfig_ok in Hcfg as [_ ->].
  rewrite Hp. unfold providerConfig, handleAzureOpenAIExtraArgs.
  destruct p; try done;
    destruct (isProvider X OPENAI customModel && _);
    try destruct (name customModel =? "o1-preview")%string;
    repeat split; reflexivity.
Qed.

(** X4. The configuration that [getChatModelConfiguration] returns never holds
    the [callbacks] entry with the o1-preview handler: that entry is in the
    Azure block of [getModelConfig], and an Azure descriptor is sent to
    [getAzureModelConfig] instead. *)
Theorem dispatched_configuration_has_no_callbacks
    (modelKey : string) (w w' : World) (cfg : Config) :
  getChatModelConfiguration X modelKey w = (Ok cfg, w') →
  cfg !! "callbacks" = None.
Proof.
  unfold getChatModelConfiguration. intros H.
  apply bind_inv in H as [(w0 & w1 & H0 & H)|(? & H0 & _)]; [|discriminate].
  injection H0 as <- <-.
  destruct (activeModels (settings w)) as [models|]; [|discriminate].
  destruct (findCustomModel modelKey models) as [model|]; [|discriminate].
  destruct (isProvider X AZURE_OPENAI model) eqn:Haz.
  - revert H. unfold getAzureModelConfig, bind, gets, ret, throw.
    cbn beta iota delta [id].
    destruct (deploymentFor w); [|discriminate]. intros [= <- _].
    destruct (name model =? "o1-preview")%string; reflexivity.
  - apply getModelConfig_ok in H as [_ ->].
    destruct (providerOf X (provider model)) as [p|] eqn:Hp.
    + assert (p ≠ AZURE_OPENAI) as Hne.
      { intros ->. apply providerOf_tag in Hp. unfold isProvider in Haz.
        rewrite Hp, String.eqb_refl in Haz. discriminate. }
      unfold providerConfig, handleAzureOpenAIExtraArgs.
      destruct p; try done;
        destruct (isProvider X OPENAI model && _);
        try destruct (name model =? "o1-preview")%string; reflexivity.
    + destruct (isProvider X OPENAI model && _); reflexivity.
Qed.

End ConfigV1.

(** ** The o1-preview start handler *)
Section Handler.
Import V1.

Lemma removeUnsupported_lookup (keys : list string) (serialized : Config) (k : string) :
  (removeUnsupported keys serialized).1 !! k =
    if bool_decide (k ∈ o1PreviewSupportedParameters) || negb (bool_decide (k ∈ keys))
    then serialized !! k else None.
Proof.
  unfold removeUnsupported.
  assert (∀ acc : Config * list Event,
    (foldl (λ acc key,
              if bool_decide (key ∈ o1PreviewSupportedParameters) then acc
              else (delete key acc.1,
                    (acc.2 ++ [EConsoleWarn (removingUnsupported key)])%list))
           acc keys).1 !! k =
    if bool_decide (k ∈ o1PreviewSupportedParameters) || negb (bool_decide (k ∈ keys))
    then acc.1 !! k else None) as H; [|apply H].
  induction keys as [|key keys IH]; intros acc; cbn [foldl].
  - rewrite (bool_decide_eq_false_2 (k ∈ [])) by apply not_elem_of_nil.
    cbn. by rewrite orb_true_r.
  - rewrite IH. clear IH.
    destruct (bool_decide (k ∈ o1PreviewSupportedParameters)) eqn:Hk; cbn [orb].
    + destruct (bool_decide (key ∈ o1PreviewSupportedParameters)) eqn:Hkey; [done|].
      cbn [fst]. apply lookup_delete_ne. intros ->. congruence.
    + destruct (decide (k ∈ keys)) as [Hin|Hin].
      * rewrite (bool_decide_eq_true_2 _ Hin).
        rewrite (bool_decide_eq_true_2 (k ∈ key :: keys))
          by (apply elem_of_cons; by right).
        done.
      * rewrite (bool_decide_eq_false_2 _ Hin). cbn [negb].
        destruct (decide (k = key)) as [->|Hne].
        -- rewrite (bool_decide_eq_true_2 (key ∈ key :: keys))
             by (apply elem_of_cons; by left).
           cbn [negb].
           rewrite Hk. cbn [fst]. apply lookup_delete_eq.
        -- rewrite (bool_decide_eq_false_2 (k ∈ key :: keys))
             by (intros [?|?]%elem_of_cons; done).
           cbn [negb].
           destruct (bool_decide (key ∈ o1PreviewSupportedParameters)); [done|].
           cbn [fst]. by apply lookup_delete_ne.
Qed.

Lemma removeUnsupported_quiet (keys : list string) (serialized : Config) :
  Forall (λ k, k ∈ o1PreviewSupportedParameters) keys →
  removeUnsupported keys serialized = (serialized, []).
Proof.
  unfold removeUnsupported. intros HF. generalize (@nil Event).
  induction HF as [|key keys Hkey _ IH]; intros log; cbn [foldl]; [done|].
  by rewrite (bool_decide_eq_true_2 _ Hkey).
Qed.

(** X5. What the handler leaves of the serialized arguments is what the
    supported list names, with the values it had; everything else is gone.
    A second run finds nothing to remove and logs nothing. *)
Theorem handler_keeps_supported_parameters (serialized : Config) :
  (∀ k, (stripUnsupported serialized).1 !! k =
          if bool_decide (k ∈ o1PreviewSupportedParameters)
          then serialized !! k else None)
  ∧ stripUnsupported (stripUnsupported serialized).1
      = ((stripUnsupported serialized).1, []).
Proof.
  assert (∀ k, (stripUnsupported serialized).1 !! k =
          if bool_decide (k ∈ o1PreviewSupportedParameters)
          then serialized !! k else None) as Hlookup.
  { intros k. unfold stripUnsupported. rewrite removeUnsupported_lookup.
    destruct (bool_decide (k ∈ o1PreviewSupportedParameters)); [done|].
    cbn [orb].
    destruct (decide (k ∈ map fst (map_to_list serialized))) as [Hin|Hin].
    - by rewrite (bool_decide_eq_true_2 _ Hin).
    - rewrite (bool_decide_eq_false_2 _ Hin). cbn [negb].
      destruct (serialized !! k) as [v|] eqn:Hv; [|done].
      exfalso. apply Hin. apply list_elem_of_fmap. exists (k, v). split; [done|].
      by apply elem_of_map_to_list. }
  split; [exact Hlookup|].
  unfold stripUnsupported at 1. apply removeUnsupported_quiet.
  apply Forall_forall. intros k Hin.
  apply list_elem_of_fmap in Hin as [[k' v] [-> Hin]].
  apply elem_of_map_to_list in Hin. cbn [fst].
  rewrite Hlookup in Hin.
  destruct (decide (k' ∈ o1PreviewSupportedParameters)) as [|Hno]; [done|].
  rewrite (bool_decide_eq_false_2 _ Hno) in Hin. discriminate.
Qed.

End Handler.
(** ** Activation, settings changes and ping in the first revision *)
Section ActivationV1.
Context (X : Externals).
Import V1.

(** The loop over the required Azure fields stops at the first one that is
    missing. *)
Lemma requiredFields_run (cfg : Config) (modelKey : string) (l : list string)
    (w : World) :
  forEach l (λ field,
    if negb (truthy (getProp cfg field)) then
      notice (missingField field modelKey) ;;
      throw (mkError (missingField field modelKey))
    else ret tt) w =
  match List.find (λ field, negb (truthy (getProp cfg field))) l with
  | Some field =>
      (Throw (mkError (missingField field modelKey)),
       emit (ENotice (missingField field modelKey)) w)
  | None => (Ok tt, w)
  end.
Proof.
  induction l as [|f l IH]; cbn [forEach List.find]; [reflexivity|].
  destruct (negb (truthy (getProp cfg f))).
  - reflexivity.
  - unfold bind at 1. unfold ret at 1. exact IH.
Qed.

(** What a configuration builder returns, it returns in the state it was
    called in. *)
Lemma config_ok_frame (model : CustomModel) (w w1 : World) (cfg : Config) :
  (if isProvider X AZURE_OPENAI model
   then getAzureModelConfig X model
   else getModelConfig X model) w = (Ok cfg, w1) →
  w1 = w.
Proof.
  destruct (isProvider X AZURE_OPENAI model); intros H.
  - by apply getAzureModelConfig_frame in H.
  - by apply getModelConfig_ok in H as [-> _].
Qed.

(** The two ways in which [setChatModel] returns. *)
Lemma setChatModel_ok_inv (model : CustomModel) (w w' : World) :
  setChatModel X model w = (Ok tt, w') →
  (∃ error,
     w' = emit (ENotice ("Error creating model: " +:+ keyOf model))
            (emit (EConsoleError "" (Some error))
               (with_userModelKey (Some (keyOf model)) w)))
  ∨ (∃ entry cfg instance,
       modelMap w !! keyOf model = Some entry ∧
       newModel X (AIConstructor entry) cfg = Ok instance ∧
       w' = with_chatModel (Some instance)
              (with_userModelKey (Some (keyOf model)) w)).
Proof.
  intros H. unfold setChatModel in H.
  apply bind_inv in H as [(w0 & w1 & H0 & H)|(? & H0 & _)]; [|discriminate].
  injection H0 as <- <-.
  destruct (modelMap w !! keyOf model) as [sel|] eqn:Hsel; [|discriminate].
  destruct (negb (hasApiKey sel)).
  { unfold bind, notice, modify, throw in H. discriminate. }
  apply bind_inv in H as [(cfg & w1 & Hcfg & H)|(? & _ & ?)]; [|discriminate].
  apply config_ok_frame in Hcfg as ->.
  apply bind_inv in H as [(? & w2 & Hreq & H)|(? & _ & ?)]; [|discriminate].
  assert (w2 = w) as ->.
  { destruct (isProvider X AZURE_OPENAI model).
    - rewrite requiredFields_run in Hreq.
      destruct (List.find _ requiredFields); [discriminate|].
      by injection Hreq.
    - by injection Hreq. }
  apply bind_inv in H as [(? & w3 & Hk & H)|(? & Hk & _)]; [|discriminate].
  unfold setModelKey, modify in Hk. injection Hk as _ <-.
  apply tryCatch_inv in H as [(? & H & _)|(e' & w4 & Hnew & H)].
  - apply bind_inv in H as [(inst & w4 & Hnew & H)|(? & _ & ?)]; [|discriminate].
    unfold liftR in Hnew. injection Hnew as Hnew <-.
    unfold modify in H. injection H as _ <-.
    right. by exists sel, cfg, inst.
  - apply bind_inv in Hnew as [(inst & w5 & _ & Hnew)|(? & Hnew & _)];
      [discriminate|].
    unfold liftR in Hnew. injection Hnew as _ <-.
    unfold bind, consoleError, notice, modify in H. injection H as <-.
    left. by exists e'.
Qed.



(** X8. [getAzureModelConfig] looks the deployment up under the key that is
    selected when it is called, and [setChatModel] selects the new key only
    afterwards. So activating an Azure model while the selected key has no
    deployment fails, naming the selected key, whatever deployments the
    model being activated has. *)
Theorem azure_activation_reads_selected_key
    (model : CustomModel) (w : World) (entry : RegistryEntry) :
  isProvider X AZURE_OPENAI model = true →
  modelMap w !! keyOf model = Some entry →
  hasApiKey entry = true →
  deploymentFor w = None →
  setChatModel X model w =
    (Throw (mkError ("No Azure deployment found for model: " +:+ getModelKey w)), w).
Proof.
  intros Haz Hsel Hkey Hdep.
  unfold setChatModel. unfold bind at 1. unfold gets at 1.
  cbn beta iota delta [id]. rewrite Hsel, Hkey, Haz. cbn [negb].
  erewrite bind_throw; [reflexivity|].
  unfold getAzureModelConfig, bind, gets, throw. cbn beta iota delta [id].
  by rewrite Hdep.
Qed.

(** X9. With a deployment under the selected key, an Azure activation fails at
    the first of key, instance, deployment name and API version that the
    deployment leaves empty, with a notice, and nothing else changes. *)
Theorem azure_activation_needs_all_fields
    (model : CustomModel) (w : World) (entry : RegistryEntry)
    (d : AzureDeployment) (field : string) :
  isProvider X AZURE_OPENAI model = true →
  modelMap w !! keyOf model = Some entry →
  hasApiKey entry = true →
  deploymentFor w = Some d →
  fst <$> List.find (λ fv, String.eqb fv.2 "")
            [("azureOpenAIApiKey", getDecryptedKey X (dep_apiKey d));
             ("azureOpenAIApiInstanceName", dep_instanceName d);
             ("azureOpenAIApiDeploymentName", dep_deploymentName d);
             ("azureOpenAIApiVersion", dep_apiVersion d)] = Some field →
  setChatModel X model w =
    (Throw (mkError (missingField field (keyOf model))),
     emit (ENotice (missingField field (keyOf model))) w).
Proof.
  intros Haz Hsel Hkey Hdep Hfield.
  unfold setChatModel. unfold bind at 1. unfold gets at 1.
  cbn beta iota delta [id]. rewrite Hsel, Hkey, Haz. cbn [negb].
  assert (∃ cfg,
    getAzureModelConfig X model w = (Ok cfg, w) ∧
    getProp cfg "azureOpenAIApiKey" = VStr (getDecryptedKey X (dep_apiKey d)) ∧
    getProp cfg "azureOpenAIApiInstanceName" = VStr (dep_instanceName d) ∧
    getProp cfg "azureOpenAIApiDeploymentName" = VStr (dep_deploymentName d) ∧
    getProp cfg "azureOpenAIApiVersion" = VStr (dep_apiVersion d))
    as (cfg & Hcfg & Hk & Hi & Hn & Hv).
  { unfold getAzureModelConfig, bind, gets, ret. cbn beta iota delta [id].
    rewrite Hdep. eexists. split; [reflexivity|].
    unfold getProp.
    destruct (name model =? "o1-preview")%string; repeat split; reflexivity. }
  erewrite bind_ok by exact Hcfg.
  erewrite bind_throw; [reflexivity|].
  rewrite requiredFields_run. unfold requiredFields. cbn [List.find].
  rewrite Hk, Hi, Hn, Hv. cbn [truthy]. rewrite !negb_involutive.
  revert Hfield. cbn [List.find snd fst].
  destruct (getDecryptedKey X (dep_apiKey d) =? "")%string;
    [by intros [= <-]|].
  destruct (dep_instanceName d =? "")%string; [by intros [= <-]|].
  destruct (dep_deploymentName d =? "")%string; [by intros [= <-]|].
  destruct (dep_apiVersion d =? "")%string; [by intros [= <-]|].
  discriminate.
Qed.

(** *** The settings subscription *)

Lemma registryOnly_refl (w : World) : registryOnly w w.
Proof. by repeat split. Qed.

Lemma registryOnly_trans (w1 w2 w3 : World) :
  registryOnly w1 w2 → registryOnly w2 w3 → registryOnly w1 w3.
Proof.
  intros (?&?&?&?&?&?&?&?&?&?&?) (?&?&?&?&?&?&?&?&?&?&?).
  repeat split; congruence.
Qed.

Lemma registerModel_frame (model : CustomModel) (w w' : World) (r : Result unit) :
  registerModel X model w = (r, w') → registryOnly w w'.
Proof.
  unfold registerModel.
  destruct (enabled model); [|intros [= _ <-]; apply registryOnly_refl].
  destruct (negb (isKnownProvider X (provider model))).
  { intros [= _ <-]. by repeat split. }
  unfold getProviderConstructor, apiKeyOrDefault.
  destruct (providerOf X (provider model)) as [p|].
  - unfold bind, ret, gets, liftR, modify.
    cbn beta iota delta [id].
    destruct (optTruthy (apiKey model)); intros [= _ <-]; by repeat split.
  - unfold bind, consoleWarn, modify, throw. intros [= _ <-]. by repeat split.
Qed.

Lemma forEach_registerModel_frame (models : list CustomModel) (w w' : World)
    (r : Result unit) :
  forEach models (registerModel X) w = (r, w') → registryOnly w w'.
Proof.
  revert w. induction models as [|model models IH]; intros w; cbn [forEach].
  - intros [= _ <-]. apply registryOnly_refl.
  - intros H. apply bind_inv in H as [(? & w1 & H1 & H)|(? & H1 & _)].
    + eapply registryOnly_trans; [by eapply registerModel_frame|by apply IH].
    + by eapply registerModel_frame.
Qed.

Lemma buildModelMap_frame (w w' : World) (r : Result unit) :
  buildModelMap X w = (r, w') → registryOnly w w'.
Proof.
  unfold buildModelMap. unfold bind at 1. unfold gets at 1.
  cbn beta iota delta [id]. unfold bind at 1. unfold modify at 1.
  intros H. apply forEach_registerModel_frame in H.
  eapply registryOnly_trans; [|exact H]. by repeat split.
Qed.

(** X10. After a settings change the registry is the one the descriptors call
    for. The active model is dropped exactly when the selected key is not
    empty and is not registered with credentials; it is never replaced, the
    selected key is never moved, and the chains, which hold the model they
    were built around, are not touched. *)
Theorem settings_change_drops_unregistered_model (w : World) :
  let registry :=
    expectedRegistry X (settings w)
      (default (builtinModels w) (activeModels (settings w))) in
  ∃ w',
    settingsChanged X w = (Ok tt, w') ∧
    modelMap w' = registry ∧
    chatModel w' =
      (if String.eqb (getModelKey w) "" ||
          from_option hasApiKey false (registry !! getModelKey w)
       then chatModel w else None) ∧
    userModelKey w' = userModelKey w ∧
    chain w' = chain w ∧ retrievalChain w' = retrievalChain w.
Proof.
  intros registry.
  destruct (buildModelMap_run X w) as (w1 & Hrun & Hs & Hm & Hmap).
  pose proof (buildModelMap_frame _ _ _ Hrun)
    as (_ & Hk & _ & _ & Hc & Hrc & _).
  assert (getModelKey w1 = getModelKey w) as Hkey.
  { unfold getModelKey. by rewrite Hs, Hk. }
  unfold settingsChanged. erewrite bind_ok by exact Hrun.
  unfold validateCurrentModel, bind, gets, ret, modify, consoleLog.
  cbn beta iota delta [id]. rewrite Hkey, Hmap. fold registry. rewrite Hm.
  destruct (chatModel w) as [m|].
  2: { eexists. split; [reflexivity|]. repeat split; try done.
       by destruct (_ || _). }
  destruct (getModelKey w =? "")%string.
  { eexists. split; [reflexivity|]. by repeat split. }
  cbn [orb]. destruct (registry !! getModelKey w) as [e|]; cbn [from_option].
  - destruct (hasApiKey e); eexists; (split; [reflexivity|]); by repeat split.
  - eexists; (split; [reflexivity|]); by repeat split.
Qed.

(** *** Ping *)

Lemma getProviderConstructor_frame1 (model : CustomModel) (w w' : World)
    (r : Result ChatConstructorType) :
  getProviderConstructor X model w = (r, w') → eventsOnly w w'.
Proof.
  unfold getProviderConstructor.
  destruct (providerOf X (provider model)).
  - intros [= _ <-]. apply eventsOnly_refl.
  - unfold bind, consoleWarn, modify, throw. intros [= _ <-].
    apply eventsOnly_emit.
Qed.

Lemma tryPing_frame1 (model : CustomModel) (c : bool) (w w' : World)
    (r : Result unit) :
  tryPing X model c w = (r, w') → eventsOnly w w'.
Proof.
  unfold tryPing. intros H.
  apply bind_inv in H as [(cfg & w1 & Hcfg & H)|(? & Hcfg & _)].
  2: { destruct (isProvider X AZURE_OPENAI model).
       - apply getAzureModelConfig_frame in Hcfg as ->. apply eventsOnly_refl.
       - by apply getModelConfig_frame1 in Hcfg. }
  assert (eventsOnly w w1) as Hf1.
  { destruct (isProvider X AZURE_OPENAI model).
    - apply getAzureModelConfig_frame in Hcfg as ->. apply eventsOnly_refl.
    - by apply getModelConfig_frame1 in Hcfg. }
  eapply eventsOnly_trans; [exact Hf1|].
  apply bind_inv in H as [(ctor & w2 & Hc & H)|(? & Hc & _)];
    [|by apply getProviderConstructor_frame1 in Hc].
  apply getProviderConstructor_frame1 in Hc.
  eapply eventsOnly_trans; [exact Hc|].
  apply bind_inv in H as [(tm & w3 & Hn & H)|(? & Hn & _)].
  2: { unfold liftR in Hn. injection Hn as _ <-. apply eventsOnly_refl. }
  unfold liftR in Hn. injection Hn as _ <-.
  apply tryCatch_inv in H as [(? & H & _)|(e & w4 & H1 & H)].
  - unfold bind, liftR, ret in H. destruct (invoke X tm "ping"); [|discriminate].
    injection H as _ <-. apply eventsOnly_refl.
  - unfold bind, liftR, ret in H1. destruct (invoke X tm "ping"); [discriminate|].
    injection H1 as _ <-.
    unfold bind, consoleError, modify, throw in H. injection H as _ <-.
    apply eventsOnly_emit.
Qed.

(** X11. The first revision's [ping] never throws: whatever fails inside, from
    the settings check to the provider call, comes back as [false], and
    only the log has changed. *)
Theorem first_revision_ping_never_throws (model : CustomModel) (w : World) :
  ∃ b w', ping X model w = (Ok b, w') ∧ eventsOnly w w'.
Proof.
  unfold ping, tryCatch at 1.
  destruct (bind (tryPing X model (default true (enableCors model)))
              (λ _, ret true) w) as [[b|e] w1] eqn:E1.
  - exists b, w1. split; [reflexivity|].
    apply bind_inv in E1 as [(? & w2 & H & E1)|(? & _ & ?)]; [|discriminate].
    injection E1 as _ <-. by apply tryPing_frame1 in H.
  - assert (eventsOnly w w1) as Hf1.
    { apply bind_inv in E1 as [(? & w2 & H & E1)|(? & H & _)]; [discriminate|].
      by apply tryPing_frame1 in H. }
    destruct (default false (enableCors model)).
    + unfold tryCatch.
      destruct (bind (tryPing X model false) _ w1) as [[b|e2] w2] eqn:E2.
      * exists b, w2. split; [reflexivity|].
        eapply eventsOnly_trans; [exact Hf1|].
        apply bind_inv in E2 as [(? & w3 & H & E2)|(? & _ & ?)]; [|discriminate].
        apply tryPing_frame1 in H.
        unfold bind, consoleWarn, modify, ret in E2. injection E2 as _ <-.
        eapply eventsOnly_trans; [exact H|apply eventsOnly_emit].
      * eexists _, _. split; [reflexivity|].
        eapply eventsOnly_trans; [exact Hf1|].
        apply bind_inv in E2 as [(? & w3 & H & E2)|(? & H & _)].
        { unfold bind, consoleWarn, modify, ret in E2. discriminate. }
        apply tryPing_frame1 in H.
        eapply eventsOnly_trans; [exact H|apply eventsOnly_emit].
    + eexists _, _. split; [reflexivity|].
      eapply eventsOnly_trans; [exact Hf1|apply eventsOnly_emit].
Qed.

End ActivationV1.

(** ** More on the chain manager *)
Section ChainsV1.
Context (X : Externals).
Context (getOrInitializeDb : nat → Result nat).
Context (indexVaultToVectorStore : Result unit).
Context (chainRunnerRun :
  ChainType → V1.World → ChatMessage → ChainManager.RunOptions →
  Result string * list Event).
Context (USER_SENDER : string).
Import V1 ChainManager.

(** *** Reloading a saved conversation *)

(** X12. A saved conversation that alternates, user first, is put back into the
    memory exchange by exchange, after the memory was cleared. *)
Theorem reload_saves_aligned_exchanges
    (exchanges : list (ChatMessage * ChatMessage)) :
  Forall (λ e, sender e.1 = USER_SENDER) exchanges →
  updateMemoryWithLoadedMessages USER_SENDER
      (flat_map (λ e, [e.1; e.2]) exchanges)
    = ClearChatMemory ::
      map (λ e, SaveContext (message e.1) (message e.2)) exchanges.
Proof.
  intros H. unfold updateMemoryWithLoadedMessages. f_equal.
  induction H as [|[q a] rest Hq _ IH]; [reflexivity|].
  cbn [flat_map app savePairs map fst snd] in *.
  rewrite Hq, String.eqb_refl, IH. reflexivity.
Qed.

(** X13. The loop pairs the messages by position. So one message that is not
    the user's in front of an alternating conversation, a greeting for one,
    shifts every pair, and nothing at all is put back. *)
Theorem reload_after_leading_reply_saves_nothing
    (first : ChatMessage) (exchanges : list (ChatMessage * ChatMessage)) :
  sender first ≠ USER_SENDER →
  Forall (λ e, sender e.2 ≠ USER_SENDER) exchanges →
  updateMemoryWithLoadedMessages USER_SENDER
      (first :: flat_map (λ e, [e.1; e.2]) exchanges)
    = [ClearChatMemory].
Proof.
  intros Hfirst H. unfold updateMemoryWithLoadedMessages. f_equal.
  revert first Hfirst.
  induction H as [|[q a] rest Ha _ IH]; intros first Hfirst; [reflexivity|].
  cbn [flat_map app fst snd] in *. cbn [savePairs].
  apply String.eqb_neq in Hfirst. rewrite Hfirst. cbn [app].
  by apply IH.
Qed.

(** *** No active model *)

(** X14. Without an active model the chain manager never gets to its own
    message: [getChatModel] throws first, so [validateChatModel], [setChain]
    and a turn all fail with the model manager's error, and neither the
    notice of [validateChatModel] nor the console line of [setChain] is
    produced. *)
Theorem missing_model_fails_with_manager_error
    (w : World) (chainType : option ChainType) (setOptions : SetChainOptions)
    (userMessage : ChatMessage) (options : RunOptions) :
  chatModel w = None →
  opt_debug options = false →
  ChainManager.validateChatModel w = (Throw (mkError noChatModel), w)
  ∧ setChain chainType setOptions w = (Throw (mkError noChatModel), w)
  ∧ runChain X chainRunnerRun userMessage options w
      = (Throw (mkError noChatModel), w).
Proof.
  intros Hm Hd.
  assert (getChatModel w = (Throw (mkError noChatModel), w)) as Hget.
  { unfold getChatModel, bind, gets, throw. cbn beta iota delta [id].
    by rewrite Hm. }
  assert (ChainManager.validateChatModel w = (Throw (mkError noChatModel), w))
    as Hval.
  { unfold ChainManager.validateChatModel. by erewrite bind_throw by exact Hget. }
  split; [exact Hval|]. split.
  - unfold setChain. by erewrite bind_throw by exact Hget.
  - apply preparation_failure_propagates.
    unfold prepareTurn. rewrite Hd.
    erewrite bind_ok by reflexivity.
    by erewrite bind_throw by exact Hval.
Qed.

(** *** [setChain] *)

(** X15. A [setChain] that rejects before its first suspension has changed
    nothing, and it rejects for one of three reasons: no active model, no
    chain type, or a retrieval chain without an embeddings API. *)
Theorem setChain_rejects_without_effect
    (chainType : option ChainType) (options : SetChainOptions)
    (w w' : World) (e : Thrown) :
  setChain chainType options w = (Throw e, w') →
  w' = w ∧
  (e = mkError noChatModel ∧ chatModel w = None
   ∨ e = mkError "No chain type set" ∧ chainType = None
   ∨ e = mkError noEmbeddings ∧ embeddingsAPI w = None ∧
     (chainType = Some VAULT_QA_CHAIN ∨ chainType = Some COPILOT_PLUS_CHAIN)).
Proof.
  unfold setChain. intros H.
  apply bind_inv in H as [(m & w1 & Hm & H)|(? & Hm & [= <-])].
  2: { unfold getChatModel, bind, gets, ret, throw in Hm.
       cbn beta iota delta [id] in Hm.
       destruct (chatModel w); [discriminate|]. injection Hm as <- <-.
       split; [done|]. by left. }
  apply getChatModel_inv in Hm as [-> Hact]. specialize (Hact m eq_refl).
  cbn [V1.validateChatModel negb] in H.
  apply bind_inv in H as [(? & w1 & Hv & H)|(? & Hv & [= <-])].
  2: { unfold validateChainType in Hv. destruct chainType; [discriminate|].
       injection Hv as <- <-. split; [done|]. right. by left. }
  assert (w1 = w) as ->.
  { unfold validateChainType in Hv. by destruct chainType; injection Hv as _ <-. }
  apply bind_inv in H as [(m' & w1 & Hm & H)|(? & Hm & _)].
  2: { rewrite (getChatModel_some _ _ Hact) in Hm. discriminate. }
  apply getChatModel_inv in Hm as [-> _].
  unfold bind, gets in H. cbn beta iota delta [id] in H.
  destruct chainType as [[]|].
  - unfold modify, setChainType, ret in H. discriminate.
  - destruct (embeddingsAPI w); [discriminate|]. injection H as <- <-.
    split; [done|]. right. right. repeat split. by left.
  - destruct (embeddingsAPI w); [discriminate|]. injection H as <- <-.
    split; [done|]. right. right. repeat split. by right.
  - discriminate.
Qed.

(** X16. A suspended [setChain] resumes with the model it captured when it was
    called. Whatever model is active by then, the Copilot Plus chain it
    installs is built around the captured one, and the active model is left
    as it is. *)
Theorem resumed_chain_keeps_captured_model
    (options : SetChainOptions) (w0 w0' w : World) (t : PendingChain)
    (m : BaseChatModel) (db : nat) :
  chatModel w0 = Some m →
  setChain (Some COPILOT_PLUS_CHAIN) options w0 = (Ok (Some t), w0') →
  getOrInitializeDb (pc_embeddingsAPI t) = Ok db →
  opt_refreshIndex options = false →
  ∃ w',
    resumeSetChain X getOrInitializeDb indexVaultToVectorStore t w = (Ok tt, w') ∧
    chain w' =
      Some (LLMChain m (memoryId w0) (default (chatPrompt w0) (opt_prompt options))) ∧
    userChainType w' = Some COPILOT_PLUS_CHAIN ∧
    chatModel w' = chatModel w.
Proof.
  intros Hm Hset Hdb Hrefresh.
  assert (t = {| pc_chainType := COPILOT_PLUS_CHAIN; pc_options := options;
                 pc_chatModel := m; pc_memory := memoryId w0;
                 pc_chatPrompt := chatPrompt w0;
                 pc_embeddingsAPI := pc_embeddingsAPI t |}) as Ht.
  { revert Hset. unfold setChain.
    rewrite (bind_ok _ _ _ _ _ (getChatModel_some _ _ Hm)).
    cbn [V1.validateChatModel negb validateChainType].
    erewrite bind_ok by reflexivity.
    rewrite (bind_ok _ _ _ _ _ (getChatModel_some _ _ Hm)).
    unfold bind, gets, ret, throw. cbn beta iota delta [id].
    destruct (embeddingsAPI w0); [|discriminate]. by intros [= <- _]. }
  revert Hdb. rewrite Ht. cbn [pc_embeddingsAPI]. intros Hdb.
  unfold resumeSetChain. cbn [pc_embeddingsAPI pc_options pc_chainType pc_chatModel
                               pc_memory pc_chatPrompt].
  rewrite Hdb, Hrefresh.
  unfold bind, liftR, ret, modify, setChainType. cbn beta iota.
  eexists. split; [reflexivity|]. by repeat split.
Qed.

(** *** A turn *)

(** X17. A turn with a chain in place, a model that is not o1-preview and the
    system message kept rebuilds nothing: whatever the runner does, only
    the log and the messages have changed afterwards. *)
Theorem plain_turn_changes_only_the_log
    (w w' : World) (userMessage : ChatMessage) (options : RunOptions)
    (m : BaseChatModel) (c : RunnableSequence) (r : Result string) :
  chatModel w = Some m →
  isO1PreviewInstance m = false →
  opt_ignoreSystemMessage options = false →
  chain w = Some c →
  runChain X chainRunnerRun userMessage options w = (r, w') →
  eventsOnly w w'.
Proof.
  intros Hm Ho1 Hig Hc. unfold runChain. intros H.
  assert (∃ w1, eventsOnly w w1 ∧
            ∀ B (k : BaseChatModel * ChainType → M World B),
              bind (prepareTurn userMessage options) k w =
                match getChainType w1 with
                | Some ct => k (m, ct) w1
                | None => (Throw (mkError "Unsupported chain type: undefined"), w1)
                end) as (w1 & F1 & Hprep).
  { exists (if opt_debug options
            then emit (EConsoleLog "==== Step 0: Initial user message ====") w
            else w).
    split; [destruct (opt_debug options);
            [apply eventsOnly_emit|apply eventsOnly_refl]|].
    intros B k. unfold prepareTurn.
    set (w1 := if opt_debug options then _ else w).
    assert (chatModel w1 = Some m ∧ chain w1 = Some c) as [Hm1 Hc1].
    { unfold w1. by destruct (opt_debug options). }
    assert ((if opt_debug options
             then consoleLog "==== Step 0: Initial user message ===="
             else ret tt) w = (Ok tt, w1)) as Hd.
    { unfold w1. by destruct (opt_debug options). }
    unfold bind at 1. unfold bind at 1. rewrite Hd.
    unfold bind at 1.
    assert (ChainManager.validateChatModel w1 = (Ok tt, w1)) as ->.
    { unfold ChainManager.validateChatModel.
      by rewrite (bind_ok _ _ _ _ _ (getChatModel_some _ _ Hm1)). }
    unfold bind at 1.
    assert (validateChainInitialization w1 = (Ok tt, w1)) as ->.
    { unfold validateChainInitialization, bind, gets, ret.
      cbn beta iota delta [id]. by rewrite Hc1. }
    unfold bind at 1. rewrite (getChatModel_some _ _ Hm1).
    rewrite Hig, Ho1. cbn [orb].
    unfold bind at 1. unfold ret at 1.
    unfold getChainRunner, bind, gets, ret, throw. cbn beta iota delta [id].
    by destruct (getChainType w1). }
  rewrite Hprep in H. clear Hprep.
  eapply eventsOnly_trans; [exact F1|].
  destruct (getChainType w1) as [ct|];
    [|injection H as _ <-; apply eventsOnly_refl].
  cbn [fst snd] in H. rewrite Ho1 in H.
  unfold tryCatch, runRunner, bind, gets, modify, liftR, throw in H.
  cbn beta iota delta [id] in H.
  destruct (chainRunnerRun ct w1 userMessage options) as [[text|e] evs];
    cbn [fst snd] in H; injection H as _ <-; apply emits_eventsOnly.
Qed.

(** X18. A turn that finds no chain builds one before it runs, around the active
    model and with the prompt the prompt manager holds. *)
Theorem turn_rebuilds_missing_chain
    (w : World) (userMessage : ChatMessage) (options : RunOptions)
    (m : BaseChatModel) :
  chatModel w = Some m →
  isO1PreviewInstance m = false →
  opt_ignoreSystemMessage options = false →
  chain w = None →
  getChainType w = Some LLM_CHAIN →
  ∃ w1,
    prepareTurn userMessage options w = (Ok (m, LLM_CHAIN), w1) ∧
    chain w1 = Some (LLMChain m (memoryId w) (chatPrompt w)) ∧
    chain (runChain X chainRunnerRun userMessage options w).2
      = Some (LLMChain m (memoryId w) (chatPrompt w)).
Proof.
  intros Hm Ho1 Hig Hc Hct.
  set (w0 := if opt_debug options
             then emit (EConsoleLog "==== Step 0: Initial user message ====") w
             else w).
  set (w1 := with_userChainType (Some LLM_CHAIN)
               (with_chain (Some (LLMChain m (memoryId w) (chatPrompt w)))
                  (emit (EConsoleError
                     "Chain is not initialized properly, re-initializing chain: "
                     None) w0))).
  assert (prepareTurn userMessage options w = (Ok (m, LLM_CHAIN), w1)) as Hprep.
  { unfold prepareTurn.
    assert ((if opt_debug options
             then consoleLog "==== Step 0: Initial user message ===="
             else ret tt) w = (Ok tt, w0)) as Hd.
    { unfold w0. by destruct (opt_debug options). }
    assert (chatModel w0 = Some m ∧ chain w0 = None ∧
            getChainType w0 = Some LLM_CHAIN ∧ memoryId w0 = memoryId w ∧
            chatPrompt w0 = chatPrompt w) as (Hm0 & Hc0 & Hct0 & Hmem & Hp).
    { unfold w0. by destruct (opt_debug options). }
    erewrite bind_ok by exact Hd.
    assert (ChainManager.validateChatModel w0 = (Ok tt, w0)) as Hv.
    { unfold ChainManager.validateChatModel.
      by rewrite (bind_ok _ _ _ _ _ (getChatModel_some _ _ Hm0)). }
    erewrite bind_ok by exact Hv.
    assert (validateChainInitialization w0 = (Ok tt, w1)) as Hi.
    { unfold validateChainInitialization. unfold bind at 1. unfold gets at 1.
      cbn beta iota delta [id]. rewrite Hc0.
      unfold bind at 1. unfold consoleError at 1. unfold modify at 1.
      rewrite Hct0.
      unfold unawaited, tryCatch. unfold bind at 1.
      set (w0' := emit _ w0).
      assert (chatModel w0' = Some m) as Hm0' by exact Hm0.
      assert (setChain (Some LLM_CHAIN) noOptions w0' = (Ok None, w1)) as ->.
      { unfold setChain.
        rewrite (bind_ok _ _ _ _ _ (getChatModel_some _ _ Hm0')).
        cbn [V1.validateChatModel negb validateChainType].
        erewrite bind_ok by reflexivity.
        rewrite (bind_ok _ _ _ _ _ (getChatModel_some _ _ Hm0')).
        unfold bind, gets, ret, modify, setChainType, noOptions.
        cbn beta iota delta [id opt_prompt default].
        unfold w1, w0'. cbn [memoryId chatPrompt emit]. by rewrite Hmem, Hp. }
      reflexivity. }
    erewrite bind_ok by exact Hi.
    assert (chatModel w1 = Some m) as Hm1 by exact Hm0.
    rewrite (bind_ok _ _ _ _ _ (getChatModel_some _ _ Hm1)).
    rewrite Hig, Ho1. cbn [orb].
    erewrite bind_ok by reflexivity.
    unfold getChainRunner, bind, gets, ret. cbn beta iota delta [id].
    reflexivity. }
  exists w1. split; [exact Hprep|]. split; [reflexivity|].
  unfold runChain. erewrite bind_ok by exact Hprep.
  cbn [fst snd]. rewrite Ho1.
  unfold tryCatch, runRunner, bind, gets, modify, liftR, throw.
  cbn beta iota delta [id].
  destruct (chainRunnerRun LLM_CHAIN w1 userMessage options) as [[text|e] evs];
    cbn [fst snd];
    by destruct (emits_eventsOnly evs w1) as (_&_&_&_&_&->&_).
Qed.

End ChainsV1.

Section RebuildV1.
Context (X : Externals).
Import V1 ChainManager.

Lemma resolveModel_frame (key : string) (w w' : World)
    (r : Result (CustomModel * string * Origin)) :
  resolveModel key w = (r, w') → eventsOnly w w'.
Proof.
  destruct r as [a|e]; [|apply resolveModel_throw_frame].
  unfold resolveModel, bind, gets, ret, throw, consoleError, modify.
  cbn beta iota delta [id].
  destruct (activeModels (settings w)) as [models|]; [|discriminate].
  destruct (findCustomModel key models).
  - intros [= _ <-]. apply eventsOnly_refl.
  - destruct (builtinModels _); intros [= _ <-]. apply eventsOnly_emit.
Qed.

(** Copying a deployment onto the descriptor leaves the chain type, the
    active model, the chains and the memory alone. *)
Lemma writeBack_keeps (origin : Origin) (key : string) (m : CustomModel)
    (w w' : World) (r : Result unit) :
  writeBack origin key m w = (r, w') →
  getChainType w' = getChainType w ∧ chatModel w' = chatModel w ∧
  chain w' = chain w.
Proof. destruct origin; intros [= _ <-]; by repeat split. Qed.

Lemma setChain_plain_run (options : SetChainOptions) (w : World) (m : BaseChatModel) :
  chatModel w = Some m →
  setChain (Some LLM_CHAIN) options w =
    (Ok None,
     with_userChainType (Some LLM_CHAIN)
       (with_chain
          (Some (LLMChain m (memoryId w) (default (chatPrompt w) (opt_prompt options))))
          w)).
Proof.
  intros Hm. unfold setChain.
  rewrite (bind_ok _ _ _ _ _ (getChatModel_some _ _ Hm)).
  cbn [V1.validateChatModel negb validateChainType].
  erewrite bind_ok by reflexivity.
  rewrite (bind_ok _ _ _ _ _ (getChatModel_some _ _ Hm)).
  reflexivity.
Qed.

Lemma setChain_no_model (chainType : option ChainType) (options : SetChainOptions)
    (w : World) :
  chatModel w = None →
  setChain chainType options w = (Throw (mkError noChatModel), w).
Proof.
  intros Hm. unfold setChain. erewrite bind_throw; [reflexivity|].
  unfold getChatModel, bind, gets, throw. cbn beta iota delta [id]. by rewrite Hm.
Qed.

(** X19. With the plain chain selected, [createChainWithNewModel] keeps the
    chain and the active model together: if the chain in place was built
    around the active model before the call, so is the chain in place after
    it, whether the activation went through, was refused, or ended in a
    constructor failure. *)
Theorem plain_chain_follows_active_model (w w' : World) (r : Result unit) :
  getChainType w = Some LLM_CHAIN →
  (∀ c, chain w = Some c → chatModel w = Some (llmOf c)) →
  createChainWithNewModel X w = (r, w') →
  ∀ c, chain w' = Some c → chatModel w' = Some (llmOf c).
Proof.
  intros Hct Hinv. unfold createChainWithNewModel, rebuild.
  destruct (resolveModel (getModelKey w) w) as [[[[cm key] origin]|e] w1] eqn:Hres.
  2: { apply resolveModel_frame in Hres as (_&_&_&Em&_&Ec&_).
       unfold rebuildFailed, bind, consoleError, consoleLog, modify.
       intros [= _ <-] c. cbn [chain chatModel emit]. rewrite Em, Ec. apply Hinv. }
  apply resolveModel_frame in Hres as (Es&_&Eu&Em&_&Ec&_).
  assert (getChainType w1 = Some LLM_CHAIN) as Hct1.
  { unfold getChainType in *. by rewrite Es, Eu. }
  assert (∀ c, chain w1 = Some c → chatModel w1 = Some (llmOf c)) as Hinv1.
  { intros c. rewrite Em, Ec. apply Hinv. }
  clear Hct Hinv Es Eu Em Ec.
  destruct (activateModel X cm key origin w1) as [[[]|e] w2] eqn:Hact;
    cbn [fst snd].
  2: { apply activateModel_throw_frame in Hact as (Em & Ec & _).
       unfold rebuildFailed, bind, consoleError, consoleLog, modify.
       intros [= _ <-] c. cbn [chain chatModel emit]. rewrite Em, Ec. apply Hinv1. }
  intros [= _ <-]. unfold activateModel in Hact.
  apply bind_inv in Hact as [(cm' & w3 & Hcm & Hact)|(? & _ & ?)]; [|discriminate].
  assert (getChainType w3 = Some LLM_CHAIN ∧
          ∀ c, chain w3 = Some c → chatModel w3 = Some (llmOf c)) as [Hct3 Hinv3].
  { destruct (provider cm =? "azure openai")%string.
    - apply bind_inv in Hcm as [(w0 & w4 & H0 & Hcm)|(? & H0 & _)]; [|discriminate].
      injection H0 as <- <-.
      destruct (List.find _ _) as [d|].
      + apply bind_inv in Hcm as [(? & w4 & Hw & Hcm)|(? & _ & ?)]; [|discriminate].
        injection Hcm as _ <-.
        apply writeBack_keeps in Hw as (E1 & E2 & E3).
        rewrite E1, E2, E3. by split.
      + injection Hcm as _ <-. by split.
    - injection Hcm as _ <-. by split. }
  clear Hcm Hct1 Hinv1.
  apply bind_inv in Hact as [([] & w4 & Hset & Hact)|(? & _ & ?)]; [|discriminate].
  apply bind_inv in Hact as [(w0 & w5 & H0 & Hact)|(? & H0 & _)]; [|discriminate].
  injection H0 as <- <-.
  apply bind_inv in Hact as [(? & w5 & Hun & Hact)|(? & _ & ?)]; [|discriminate].
  unfold consoleLog, modify in Hact. injection Hact as <-.
  assert (getChainType w4 = Some LLM_CHAIN) as Hct4.
  { pose proof Hset as Hset'.
    apply setChatModel_ok_inv in Hset' as [(error & ->)|(? & ? & ? & _ & _ & ->)];
      exact Hct3. }
  rewrite Hct4 in Hun. unfold unawaited, tryCatch in Hun. unfold bind at 1 in Hun.
  destruct (chatModel w4) as [m|] eqn:Hm4.
  - rewrite (setChain_plain_run _ _ _ Hm4) in Hun.
    unfold ret in Hun. injection Hun as _ <-.
    intros c. cbn [chain chatModel emit with_userChainType with_chain].
    intros [= <-]. exact Hm4.
  - rewrite (setChain_no_model _ _ _ Hm4) in Hun.
    unfold modify in Hun. injection Hun as _ <-.
    intros c. cbn [chain chatModel emit]. rewrite Hm4. intros Hc. exfalso.
    apply setChatModel_ok_inv in Hset as [(error & ->)|(? & ? & ? & _ & _ & ->)].
    + cbn [chain chatModel emit with_userModelKey] in Hm4, Hc.
      apply Hinv3 in Hc. congruence.
    + discriminate.
Qed.

End RebuildV1.

(** ** More on [getAIResponse] *)
Section Answer.
Context (X : Externals).
Context (loadMemoryVariables : nat → option string → Result Value).
Context (chainStream : V1.RunnableSequence → Value → string →
                       Result LangchainStream.ChatStream).
Import V1 LangchainStream.

Lemma addedMessages_emit (e : Event) (w : World) :
  (∀ m, e ≠ EAddMessage m) →
  addedMessages (events (emit e w)) = addedMessages (events w).
Proof.
  intros He. cbn [events emit]. rewrite addedMessages_app.
  destruct e; try (cbn; by rewrite app_nil_r). by destruct (He m).
Qed.

(** The stream loop reports partial texts and adds no message, however it
    ends. *)
Lemma consume_quiet (aborted : nat → bool) (rest : list Chunk)
    (failure : option Thrown) :
  ∀ (i : nat) (full : string) (w w' : World) (r : Result string),
    consume aborted i rest failure full w = (r, w') →
    eventsOnly w w' ∧ addedMessages (events w') = addedMessages (events w).
Proof.
  induction rest as [|chunk rest IH]; intros i full w w' r; cbn [consume].
  - destruct failure; intros [= _ <-]; (split; [apply eventsOnly_refl|done]).
  - destruct (aborted i).
    { intros [= _ <-]. split; [apply eventsOnly_refl|done]. }
    destruct (contentOf chunk); try apply IH.
    unfold bind at 1. unfold modify at 1. intros H.
    apply IH in H as [F E]. split.
    + eapply eventsOnly_trans; [apply eventsOnly_emit|exact F].
    + rewrite E. by apply addedMessages_emit.
Qed.

Lemma getChatModelConfiguration_quiet (key : string) (w w' : World)
    (r : Result Config) :
  getChatModelConfiguration X key w = (r, w') →
  eventsOnly w w' ∧ addedMessages (events w') = addedMessages (events w).
Proof.
  unfold getChatModelConfiguration. unfold bind at 1. unfold gets at 1.
  cbn beta iota delta [id].
  destruct (activeModels (settings w)) as [models|].
  2: { intros [= _ <-]. split; [apply eventsOnly_refl|done]. }
  destruct (findCustomModel key models) as [model|].
  2: { intros [= _ <-]. split; [apply eventsOnly_refl|done]. }
  destruct (isProvider X AZURE_OPENAI model).
  - intros H. apply getAzureModelConfig_frame in H as ->.
    split; [apply eventsOnly_refl|done].
  - unfold getModelConfig, bind, gets, ret, throw, notice, modify.
    cbn beta iota delta [id].
    destruct (_ || _).
    { intros [= _ <-]. split; [apply eventsOnly_emit|by apply addedMessages_emit]. }
    destruct (_ || _).
    { intros [= _ <-]. split; [apply eventsOnly_emit|by apply addedMessages_emit]. }
    intros [= _ <-]. split; [apply eventsOnly_refl|done].
Qed.

(** X20. With a model active, [getAIResponse] does not throw, and it hands
    exactly one message to [addMessage], visible and from the AI sender:
    the answer, or the text of what went wrong while configuring, loading
    the memory, streaming or invoking. The managers' state is as before. *)
Theorem answer_adds_exactly_one_message
    (w w' : World) (userMessage : ChatMessage) (selectedText : option string)
    (debug : bool) (aborted : nat → bool) (m : BaseChatModel) (r : Result unit) :
  chatModel w = Some m →
  getAIResponse X loadMemoryVariables chainStream
    userMessage selectedText debug aborted w = (r, w') →
  r = Ok tt ∧ eventsOnly w w' ∧
  ∃ text, addedMessages (events w') =
            (addedMessages (events w) ++ [aiMessage X text])%list.
Proof.
  intros Hm. unfold getAIResponse.
  rewrite (bind_ok _ _ _ _ _ (getChatModel_some _ _ Hm)).
  set (body := bind (gets id) _).
  assert (∀ rb wb, body w = (rb, wb) →
            eventsOnly w wb ∧
            match rb with
            | Ok _ => ∃ text, addedMessages (events wb) =
                         (addedMessages (events w) ++ [aiMessage X text])%list
            | Throw _ => addedMessages (events wb) = addedMessages (events w)
            end) as Hbody.
  { intros rb wb. unfold body. intros H.
    apply bind_inv in H as [(w0 & w1 & H0 & H)|(? & H0 & _)]; [|discriminate].
    injection H0 as <- <-.
    apply bind_inv in H as [(cfg & w1 & Hcfg & H)|(? & Hcfg & ->)].
    2: { by apply getChatModelConfiguration_quiet in Hcfg. }
    apply getChatModelConfiguration_quiet in Hcfg as [F1 E1].
    apply bind_inv in H as [(w0 & w2 & H0 & H)|(? & H0 & _)]; [|discriminate].
    injection H0 as <- <-.
    apply bind_inv in H as [(mem & w2 & Hmem & H)|(? & Hmem & ->)].
    2: { unfold liftR in Hmem. by injection Hmem as _ <-. }
    unfold liftR in Hmem. injection Hmem as _ <-.
    apply bind_inv in H as [(? & w2 & Hd & H)|(? & Hd & _)].
    2: { destruct debug; discriminate. }
    assert (eventsOnly w w2 ∧ addedMessages (events w2) = addedMessages (events w))
      as [F2 E2].
    { destruct debug; injection Hd as _ <-.
      - split.
        + eapply eventsOnly_trans; [exact F1|]. by repeat split.
        + cbn [events emit]. rewrite !addedMessages_app. cbn.
          by rewrite !app_nil_r.
      - by split. }
    clear Hd F1 E1.
    destruct (truthy (getProp cfg "streaming") &&
              negb (ChainManager.isO1PreviewInstance m)).
    - apply bind_inv in H as [(w0 & w3 & H0 & H)|(? & H0 & _)]; [|discriminate].
      injection H0 as <- <-.
      destruct (chain w2) as [c|].
      2: { injection H as <- <-. by split. }
      apply bind_inv in H as [(stream & w3 & Hs & H)|(? & Hs & ->)].
      2: { unfold liftR in Hs. injection Hs as _ <-. by split. }
      unfold liftR in Hs. injection Hs as _ <-.
      apply bind_inv in H as [(full & w3 & Hc & H)|(? & Hc & ->)].
      2: { apply consume_quiet in Hc as [F3 E3]. split.
           - eapply eventsOnly_trans; eauto.
           - congruence. }
      apply consume_quiet in Hc as [F3 E3].
      unfold addMessage, modify in H. injection H as <- <-. split.
      + eapply eventsOnly_trans; [exact F2|].
        eapply eventsOnly_trans; [exact F3|apply eventsOnly_emit].
      + exists full. cbn [events emit]. rewrite addedMessages_app, E3, E2.
        reflexivity.
    - apply bind_inv in H as [(response & w3 & Hi & H)|(? & Hi & ->)].
      2: { unfold liftR in Hi. injection Hi as _ <-. by split. }
      unfold liftR in Hi. injection Hi as _ <-.
      unfold addMessage, modify in H. injection H as <- <-. split.
      + eapply eventsOnly_trans; [exact F2|apply eventsOnly_emit].
      + eexists. cbn [events emit]. rewrite addedMessages_app, E2. reflexivity. }
  unfold tryCatch. destruct (body w) as [[[]|e] wb] eqn:E;
    destruct (Hbody _ _ eq_refl) as [F Hmsg].
  - intros [= <- <-]. split; [done|]. split; [exact F|exact Hmsg].
  - unfold bind, consoleError, addMessage, modify. intros [= <- <-].
    split; [done|]. split.
    + eapply eventsOnly_trans; [exact F|]. by repeat split.
    + eexists. cbn [events emit]. rewrite !addedMessages_app, Hmsg. cbn.
      rewrite app_nil_r. reflexivity.
Qed.

(** The loop over a stream that is read to its end without the signal being
    set, and that then fails. *)
Lemma consume_to_failure (aborted : nat → bool) (rest : list Chunk) (e : Thrown) :
  ∀ (i : nat) (full : string) (w : World),
    (∀ j, (j < List.length rest)%nat → aborted (i + j) = false) →
    ∃ w', consume aborted i rest (Some e) full w = (Throw e, w').
Proof.
  induction rest as [|chunk rest IH]; intros i full w Hrun; cbn [consume].
  - by eexists.
  - assert (aborted i = false) as ->.
    { rewrite <- (Nat.add_0_r i). apply Hrun. cbn. lia. }
    assert (∀ j, (j < List.length rest)%nat → aborted (S i + j) = false) as Hrun'.
    { intros j Hj. replace (S i + j)%nat with (i + S j)%nat by lia.
      apply Hrun. cbn. lia. }
    destruct (contentOf chunk); by apply IH.
Qed.

(** X21. When the stream fails after some fragments and nobody has cancelled,
    the text received so far was shown as partial text only: the one
    message added is the error text, not the partial answer. *)
Theorem failed_stream_adds_error_not_partial_text
    (w : World) (userMessage : ChatMessage) (selectedText : option string)
    (aborted : nat → bool) (m : BaseChatModel) (cfg : Config)
    (history : Value) (c : RunnableSequence) (stream : ChatStream) (e : Thrown) :
  chatModel w = Some m →
  ChainManager.isO1PreviewInstance m = false →
  getChatModelConfiguration X (getModelKey w) w = (Ok cfg, w) →
  truthy (getProp cfg "streaming") = true →
  loadMemoryVariables (memoryId w) selectedText = Ok history →
  chain w = Some c →
  chainStream c history (message userMessage) = Ok stream →
  failure stream = Some e →
  (∀ j, (j < List.length (chunks stream))%nat → aborted j = false) →
  ∃ w',
    getAIResponse X loadMemoryVariables chainStream
      userMessage selectedText false aborted w = (Ok tt, w') ∧
    addedMessages (events w') =
      (addedMessages (events w) ++ [aiMessage X ("Error: " +:+ requestFailed e)])%list.
Proof.
  intros Hm Ho1 Hcfg Hstr Hmem Hchain Hstream Hfail Hrun.
  destruct (consume_to_failure aborted (chunks stream) e 0 "" w Hrun) as (w1 & Hc).
  pose proof (consume_quiet _ _ _ _ _ _ _ _ Hc) as [_ E1].
  eexists. split.
  - unfold getAIResponse.
    rewrite (bind_ok _ _ _ _ _ (getChatModel_some _ _ Hm)).
    erewrite tryCatch_throw.
    2: { erewrite bind_ok by reflexivity. cbn [id].
         erewrite bind_ok by exact Hcfg.
         erewrite bind_ok by reflexivity. cbn [id].
         erewrite bind_ok by (unfold liftR; rewrite Hmem; reflexivity).
         rewrite Ho1, Hstr.
         erewrite bind_ok by reflexivity.
         cbn [andb negb].
         erewrite bind_ok by reflexivity. cbn [id]. rewrite Hchain.
         erewrite bind_ok by (unfold liftR; rewrite Hstream; reflexivity).
         rewrite Hfail.
         erewrite bind_throw by exact Hc. reflexivity. }
    rewrite Ho1. cbn [andb].
    unfold bind, consoleError, addMessage, modify. reflexivity.
  - cbn [events emit]. rewrite !addedMessages_app, E1. cbn.
    by rewrite app_nil_r.
Qed.

(** X22. For an active o1-preview model the stream is never opened, whatever the
    configuration says about streaming: the answer depends neither on the
    chain's stream nor on the abort signal, and a reply whose content is
    not a string is added as the empty text. *)
Theorem o1_answer_is_single_shot
    (w : World) (userMessage : ChatMessage) (selectedText : option string)
    (debug : bool) (aborted : nat → bool) (m : BaseChatModel) :
  chatModel w = Some m →
  ChainManager.isO1PreviewInstance m = true →
  (∀ chainStream' aborted',
     getAIResponse X loadMemoryVariables chainStream
       userMessage selectedText debug aborted w
     = getAIResponse X loadMemoryVariables chainStream'
         userMessage selectedText debug aborted' w)
  ∧ (∀ cfg history response,
       getChatModelConfiguration X (getModelKey w) w = (Ok cfg, w) →
       loadMemoryVariables (memoryId w) selectedText = Ok history →
       invoke X m (message userMessage) = Ok response →
       debug = false →
       getAIResponse X loadMemoryVariables chainStream
         userMessage selectedText debug aborted w
       = (Ok tt,
          emit (EAddMessage
                  (aiMessage X (match response with VStr s => s | _ => "" end))) w)).
Proof.
  intros Hm Ho1. split.
  - intros chainStream' aborted'. unfold getAIResponse.
    rewrite !(bind_ok _ _ _ _ _ (getChatModel_some _ _ Hm)).
    rewrite Ho1. cbn [negb]. unfold tryCatch.
    unfold bind, gets, liftR. cbn beta iota delta [id].
    destruct (getChatModelConfiguration X (getModelKey w) w) as [[cfg|] w1];
      [|reflexivity].
    destruct (loadMemoryVariables (memoryId w1) selectedText); [|reflexivity].
    rewrite !andb_false_r. reflexivity.
  - intros cfg history response Hcfg Hmem Hinv ->. unfold getAIResponse.
    rewrite (bind_ok _ _ _ _ _ (getChatModel_some _ _ Hm)).
    apply tryCatch_ok.
    erewrite bind_ok by reflexivity. cbn [id].
    erewrite bind_ok by exact Hcfg.
    erewrite bind_ok by reflexivity. cbn [id].
    erewrite bind_ok by (unfold liftR; rewrite Hmem; reflexivity).
    rewrite Ho1, andb_false_r.
    erewrite bind_ok by reflexivity.
    erewrite bind_ok by (unfold liftR; rewrite Hinv; reflexivity).
    reflexivity.
Qed.

End Answer.

(** ** Activation in the second revision *)
Section ActivationV2.
Context (X : Externals).
Context (getModelKeyFromModel : V2.CustomModel → string).
Import V2.

(** What the o1-preview check does. *)
Lemma validateO1PreviewModel_run (customModel : CustomModel) (w : World) :
  isProvider X AZURE_OPENAI customModel = true →
  isO1PreviewModel (modelName customModel) = true →
  let s := settings w in
  let apiVersion :=
    strOr (azureOpenAIApiVersion customModel) (azureOpenAIApiVersion_s s) in
  validateO1PreviewModel X customModel w =
    if String.eqb (strOr (apiKey customModel) (azureOpenAIApiKey s)) "" ||
       String.eqb (strOr (azureOpenAIApiInstanceName customModel)
                         (azureOpenAIApiInstanceName_s s)) "" ||
       String.eqb (strOr (azureOpenAIApiDeploymentName customModel)
                         (azureOpenAIApiDeploymentName_s s)) "" ||
       String.eqb apiVersion ""
    then (Throw (mkError azureFieldsRequired), w)
    else (Ok (withApiVersion customModel apiVersion), w).
Proof.
  intros Haz Ho1. unfold validateO1PreviewModel. rewrite Haz, Ho1. cbn [negb orb].
  unfold bind, gets, throw, ret. cbn beta iota delta [id].
  by destruct (_ || _).
Qed.

(** X23. The configuration builder of this revision checks no setting. It fails
    for one kind of descriptor only: an o1-preview model on Azure for which
    neither the descriptor nor the settings give the key, the instance, the
    deployment or the API version; and then it has changed nothing. *)
Theorem second_revision_config_fails_only_for_incomplete_azure_o1
    (customModel : CustomModel) (w w' : World) (e : Thrown) :
  getModelConfig X customModel w = (Throw e, w') ↔
  (w' = w ∧ e = mkError azureFieldsRequired ∧
   isO1PreviewModel (modelName customModel) = true ∧
   isProvider X AZURE_OPENAI customModel = true ∧
   String.eqb (strOr (apiKey customModel) (azureOpenAIApiKey (settings w))) "" ||
   String.eqb (strOr (azureOpenAIApiInstanceName customModel)
                     (azureOpenAIApiInstanceName_s (settings w))) "" ||
   String.eqb (strOr (azureOpenAIApiDeploymentName customModel)
                     (azureOpenAIApiDeploymentName_s (settings w))) "" ||
   String.eqb (strOr (azureOpenAIApiVersion customModel)
                     (azureOpenAIApiVersion_s (settings w))) "" = true).
Proof.
  unfold getModelConfig. unfold bind at 1. unfold gets at 1.
  cbn beta iota delta [id].
  destruct (isO1PreviewModel (modelName customModel)) eqn:Ho1;
    destruct (isProvider X AZURE_OPENAI customModel) eqn:Haz; cbn [andb].
  2-4: split; [intros H; discriminate H | intros (_&_&?&?&_); discriminate].
  unfold bind at 1. rewrite (validateO1PreviewModel_run _ _ Haz Ho1).
  cbn zeta. destruct (_ || _).
  - split; [intros [= <- <-]; by repeat split | by intros (->&->&_)].
  - split; [intros H; discriminate H | intros (_&_&_&_&?); discriminate].
Qed.

(** The [stream] and [temperature] entries of a configuration. The
    provider blocks bind [streaming], never [stream]. *)
Lemma getModelConfig_base (customModel : CustomModel) (w w' : World) (cfg : Config) :
  getModelConfig X customModel w = (Ok cfg, w') →
  cfg !! "stream" =
    Some (VBool (if isO1PreviewModel (modelName customModel) then false
                 else default (default true (stream_s (settings w)))
                        (stream customModel))) ∧
  cfg !! "temperature" =
    Some (VNum (if isO1PreviewModel (modelName customModel) then 1
                else default (temperature_s (settings w))
                       (temperature customModel))).
Proof.
  unfold getModelConfig. unfold bind at 1. unfold gets at 1.
  cbn beta iota delta [id]. intros H.
  apply bind_inv in H as [(cm & w1 & Hcm & H)|(? & _ & ?)]; [|discriminate].
  assert (stream cm = stream customModel ∧ temperature cm = temperature customModel ∧
          provider cm = provider customModel) as (Es & Et & Ep).
  { destruct (isO1PreviewModel (modelName customModel)) eqn:Ho1;
      destruct (isProvider X AZURE_OPENAI customModel) eqn:Haz; cbn [andb] in Hcm;
      try (injection Hcm as <- _; by repeat split).
    rewrite (validateO1PreviewModel_run _ _ Haz Ho1) in Hcm. cbn zeta in Hcm.
    destruct (_ || _); [discriminate|]. injection Hcm as <- _. by repeat split. }
  unfold ret in H. injection H as <- _. rewrite Es, Et.
  destruct (providerOf X (provider cm)) as [[]|];
    destruct (isO1PreviewModel (modelName customModel)); split; reflexivity.
Qed.

(** X24. The three ways in which [setChatModel] ends. A call that returns has
    moved the selected key and installed a model; its constructor got no
    [stream] entry, and as [streaming] the [stream] value of the base
    configuration, whatever the provider block had bound to [streaming].
    A call that throws has either changed nothing but the log, or has left
    the manager without an active model. *)
Theorem second_revision_activation_outcomes
    (model : CustomModel) (w w' : World) (r : Result unit) :
  setChatModel X getModelKeyFromModel model w = (r, w') →
  settings w' = settings w ∧ modelMap w' = modelMap w ∧
  match r with
  | Ok _ =>
      userModelKey w' = Some (getModelKeyFromModel model) ∧
      ∃ entry args instance,
        modelMap w !! getModelKeyFromModel model = Some entry ∧
        newModel X (AIConstructor entry) args = Ok instance ∧
        chatModel w' = Some instance ∧
        args !! "stream" = None ∧
        args !! "streaming" =
          Some (VBool (if isO1PreviewModel (modelName model) then false
                       else default (default true (stream_s (settings w)))
                              (stream model)))
  | Throw _ =>
      (chatModel w' = chatModel w ∧ userModelKey w' = userModelKey w)
      ∨ chatModel w' = None
  end.
Proof.
  unfold setChatModel. intros H.
  apply bind_inv in H as [(w0 & w1 & H0 & H)|(? & H0 & _)]; [|discriminate].
  injection H0 as <- <-.
  destruct (modelMap w !! getModelKeyFromModel model) as [sel|] eqn:Hsel.
  2: { injection H as <- <-. repeat split. by left. }
  destruct (negb (hasApiKey sel)).
  { unfold bind, notice, modify, throw in H. injection H as <- <-.
    repeat split. by left. }
  apply bind_inv in H as [(cfg & w1 & Hcfg & H)|(? & Hcfg & ->)].
  2: { apply getModelConfig_frame in Hcfg as ->. repeat split. by left. }
  pose proof (getModelConfig_frame _ _ _ _ _ Hcfg) as ->.
  apply getModelConfig_base in Hcfg as [Hstream _].
  apply bind_inv in H as [(? & w2 & Hping & H)|(? & Hping & ->)].
  2: { destruct (negb (isO1PreviewModel (modelName model))); [|discriminate].
       apply tryCatch_inv in Hping as [(? & _ & ?)|(e1 & w3 & Hp & Hh)];
         [discriminate|].
       apply bind_inv in Hp as [(? & ? & _ & ?)|(? & Hp & _)]; [discriminate|].
       apply ping_frame in Hp as (Es & _ & _ & Em & _).
       unfold bind, notice, modify, throw in Hh. injection Hh as _ <-.
       repeat split; try done. by right. }
  assert (sameButEvents w w2) as (Es & Ek & Ec & Em & _).
  { destruct (negb (isO1PreviewModel (modelName model))).
    - apply tryCatch_inv in Hping as [(? & Hp & _)|(e1 & w3 & _ & Hh)].
      + apply bind_inv in Hp as [(? & w3 & Hp & Hr)|(? & _ & ?)]; [|discriminate].
        injection Hr as _ <-. by apply ping_frame in Hp.
      + unfold bind, notice, modify, throw in Hh. discriminate.
    - injection Hping as _ <-. apply sameButEvents_refl. }
  apply bind_inv in H as [(? & w3 & Hk & H)|(? & Hk & _)]; [|discriminate].
  unfold setModelKey, modify in Hk. injection Hk as _ <-.
  apply tryCatch_inv in H as [(? & H & ->)|(e' & w4 & Hnew & H)].
  - apply bind_inv in H as [(inst & w4 & Hnew & H)|(? & _ & ?)]; [|discriminate].
    unfold liftR in Hnew. injection Hnew as Hnew <-.
    unfold modify in H. injection H as _ <-.
    split; [exact Es|]. split; [exact Em|]. split; [done|].
    eexists sel, _, inst. split; [done|]. split; [exact Hnew|]. split; [done|].
    split.
    + rewrite lookup_insert_ne by done. apply lookup_delete_eq.
    + rewrite lookup_insert_eq. unfold getProp. by rewrite Hstream.
  - apply bind_inv in Hnew as [(inst & w5 & _ & Hnew)|(? & Hnew & _)];
      [discriminate|].
    unfold liftR in Hnew. injection Hnew as _ <-.
    unfold bind, consoleError, notice, modify, throw in H. injection H as <- <-.
    split; [exact Es|]. split; [exact Em|]. by right.
Qed.

(** X25. An o1-preview model is activated without a provider call: with the
    registry entry and the configuration in place the outcome is that of
    the constructor alone, which is told not to stream. When the
    constructor throws, the error is thrown on, the manager is left without
    an active model, and the selected key has already moved. *)
Theorem o1_activation_skips_ping
    (model : CustomModel) (w : World) (entry : RegistryEntry) (cfg : Config) :
  isO1PreviewModel (modelName model) = true →
  modelMap w !! getModelKeyFromModel model = Some entry →
  hasApiKey entry = true →
  getModelConfig X model w = (Ok cfg, w) →
  let key := getModelKeyFromModel model in
  setChatModel X getModelKeyFromModel model w =
    match newModel X (AIConstructor entry)
            (<["streaming" := VBool false]> (delete "stream" cfg)) with
    | Ok instance =>
        (Ok tt, with_chatModel (Some instance) (with_userModelKey (Some key) w))
    | Throw error =>
        (Throw error,
         with_chatModel None
           (emit (ENotice ("Error creating model: " +:+ key))
              (emit (EConsoleError "" (Some error))
                 (with_userModelKey (Some key) w))))
    end.
Proof.
  intros Ho1 Hsel Hkey Hcfg key. subst key.
  pose proof (getModelConfig_base _ _ _ _ Hcfg) as [Hstream _].
  rewrite Ho1 in Hstream.
  unfold setChatModel. unfold bind at 1. unfold gets at 1.
  cbn beta iota delta [id]. rewrite Hsel, Hkey. cbn [negb].
  erewrite bind_ok by exact Hcfg. rewrite Ho1. cbn [negb].
  erewrite bind_ok by reflexivity.
  erewrite bind_ok by reflexivity.
  unfold getProp. rewrite Hstream. cbn [default].
  unfold tryCatch, bind, liftR, modify, consoleError, notice, throw.
  by destruct (newModel X (AIConstructor entry) _).
Qed.

End ActivationV2.

(** ** Merging the active models *)
Section MergeModels.
Context (templateString : Value → string).
Import SettingsModel.

(** *** [Map.set] and [Map.has] *)

Lemma mapSet_keys (key : string) (v : Config) (m : ModelMap) :
  map fst (mapSet key v m) =
    if mapHas key m then map fst m else (map fst m ++ [key])%list.
Proof.
  induction m as [|[k x] m IH]; [reflexivity|].
  cbn [mapSet mapHas existsb fst].
  destruct (String.eqb_spec k key) as [->|Hne]; cbn [orb map fst]; [done|].
  rewrite IH. fold (mapHas key m). by destruct (mapHas key m).
Qed.

Lemma mapHas_In (key : string) (m : ModelMap) :
  mapHas key m = true ↔ In key (map fst m).
Proof.
  unfold mapHas. rewrite existsb_exists, in_map_iff. split.
  - intros ([k v] & Hin & E). apply String.eqb_eq in E. by exists (k, v).
  - intros ([k v] & E & Hin). exists (k, v). split; [done|].
    by apply String.eqb_eq.
Qed.

Lemma mapSet_NoDup (key : string) (v : Config) (m : ModelMap) :
  List.NoDup (map fst m) → List.NoDup (map fst (mapSet key v m)).
Proof.
  intros H. rewrite mapSet_keys. destruct (mapHas key m) eqn:E; [done|].
  apply NoDup_ListNoDup. apply NoDup_ListNoDup in H.
  apply NoDup_app. split; [done|]. split.
  - intros x Hx Hx'. apply list_elem_of_singleton in Hx' as ->.
    apply list_elem_of_In, mapHas_In in Hx. congruence.
  - apply NoDup_singleton.
Qed.

Lemma mapSet_In_new (key : string) (v : Config) (m : ModelMap) :
  In (key, v) (mapSet key v m).
Proof.
  induction m as [|[k x] m IH]; cbn [mapSet]; [by left|].
  destruct (String.eqb_spec k key) as [->|Hne]; [by left|by right].
Qed.

Lemma mapSet_In_other (key k : string) (v x : Config) (m : ModelMap) :
  k ≠ key → In (k, x) m → In (k, x) (mapSet key v m).
Proof.
  intros Hne. induction m as [|[k' x'] m IH]; [done|].
  cbn [mapSet]. intros [[= -> ->]|Hin].
  - destruct (String.eqb_spec k key); [done|by left].
  - destruct (String.eqb_spec k' key); right; [done|by apply IH].
Qed.

Lemma mapSet_In_inv (key k : string) (v x : Config) (m : ModelMap) :
  In (k, x) (mapSet key v m) → (k = key ∧ x = v) ∨ In (k, x) m.
Proof.
  induction m as [|[k' x'] m IH]; cbn [mapSet].
  - intros [[= <- <-]|[]]. by left.
  - destruct (String.eqb_spec k' key) as [->|Hne].
    + intros [[= <- <-]|Hin]; [by left|right; by right].
    + intros [[= <- <-]|Hin]; [right; by left|].
      destruct (IH Hin) as [?|?]; [by left|right; by right].
Qed.

(** *** The two loops *)

Lemma addExisting_keys (builtInModels : list Config)
    (modelConfigs : gmap string Config) (m : ModelMap) (model : Config) :
  List.NoDup (map fst m) →
  List.NoDup (map fst (addExisting templateString builtInModels modelConfigs m model)).
Proof. apply mapSet_NoDup. Qed.

Lemma addCore_keys (m : ModelMap) (model : Config) :
  List.NoDup (map fst m) → List.NoDup (map fst (addCore templateString m model)).
Proof.
  intros H. unfold addCore. destruct (mapHas _ m); [done|]. by apply mapSet_NoDup.
Qed.

Lemma foldl_invariant {A B} (P : A → Prop) (f : A → B → A) (l : list B) (a : A) :
  (∀ a b, P a → In b l → P (f a b)) → P a → P (foldl f a l).
Proof.
  revert a. induction l as [|b l IH]; intros a Hf Ha; [done|].
  cbn [foldl]. apply IH.
  - intros a' b' Ha' Hb'. apply Hf; [done|by right].
  - apply Hf; [done|by left].
Qed.

(** The key of a merged model, when neither the stored configuration nor
    the overlay hides the name and provider of the model it came from. *)
Lemma merged_value_key (b model cfg : Config) :
  is_Some (model !! "name") → is_Some (model !! "provider") →
  cfg !! "name" = None → cfg !! "provider" = None →
  getModelKey templateString (spread (spread b model) cfg) = getModelKey templateString model.
Proof.
  intros [n Hn] [p Hp] Hcn Hcp. unfold getModelKey, getProp, spread.
  rewrite !lookup_union, Hcn, Hcp, Hn, Hp.
  by destruct (b !! "name"), (b !! "provider").
Qed.

Lemma core_value_key (model : Config) :
  getModelKey templateString (<["core" := VBool true]> model) = getModelKey templateString model.
Proof.
  unfold getModelKey, getProp. by rewrite !lookup_insert_ne.
Qed.

Lemma mergedMap_invariant (existing builtIn : list Config)
    (modelConfigs : gmap string Config) :
  (∀ model, In model existing →
     is_Some (model !! "name") ∧ is_Some (model !! "provider")) →
  (∀ k cfg, modelConfigs !! k = Some cfg →
     cfg !! "name" = None ∧ cfg !! "provider" = None) →
  let m := mergedMap templateString existing builtIn modelConfigs in
  List.NoDup (map fst m) ∧ Forall (λ kv, getModelKey templateString kv.2 = kv.1) m.
Proof.
  intros Hex Hcfg. unfold mergedMap.
  apply (foldl_invariant
    (λ m : ModelMap,
       List.NoDup (map fst m) ∧ Forall (λ kv, getModelKey templateString kv.2 = kv.1) m)).
  - intros m b [Hnd Hk] _. split; [by apply addCore_keys|].
    unfold addCore. destruct (mapHas _ m); [done|].
    apply Forall_forall. intros [k x] Hin%list_elem_of_In.
    apply mapSet_In_inv in Hin as [[-> ->]|Hin].
    + apply core_value_key.
    + rewrite Forall_forall in Hk. by apply (Hk (k, x)), list_elem_of_In.
  - apply (foldl_invariant
      (λ m : ModelMap,
         List.NoDup (map fst m) ∧ Forall (λ kv, getModelKey templateString kv.2 = kv.1) m)).
    + intros m model [Hnd Hk] Hin. split; [by apply addExisting_keys|].
      unfold addExisting. apply Forall_forall. intros [k x] Hx%list_elem_of_In.
      apply mapSet_In_inv in Hx as [[-> ->]|Hx].
      * destruct (Hex _ Hin) as [Hn Hp]. cbn [fst snd].
        destruct (modelConfigs !! getModelKey templateString model) as [cfg|] eqn:E; cbn [default].
        -- destruct (Hcfg _ _ E) as [Hcn Hcp]. by apply merged_value_key.
        -- by apply merged_value_key.
      * rewrite Forall_forall in Hk. by apply (Hk (k, x)), list_elem_of_In.
    + split; [constructor|constructor].
Qed.

(** X26. As long as every existing model has a name and a provider, and no
    stored configuration overrides those two, no two models of the merged
    list have the same key. *)
Theorem merged_models_have_distinct_keys
    (existing builtIn : list Config) (modelConfigs : gmap string Config) :
  (∀ model, In model existing →
     is_Some (model !! "name") ∧ is_Some (model !! "provider")) →
  (∀ k cfg, modelConfigs !! k = Some cfg →
     cfg !! "name" = None ∧ cfg !! "provider" = None) →
  List.NoDup
    (map (getModelKey templateString) (mergeActiveModels templateString existing builtIn modelConfigs)).
Proof.
  intros Hex Hcfg.
  destruct (mergedMap_invariant existing builtIn modelConfigs Hex Hcfg) as [Hnd Hk].
  unfold mergeActiveModels. rewrite map_map.
  erewrite map_ext_in; [exact Hnd|].
  intros kv Hin. rewrite Forall_forall in Hk. by apply Hk, list_elem_of_In.
Qed.

(** Nothing is lost in the merge: every existing model and every built-in
    model has its key in the merged map. *)
Lemma mergedMap_covers (existing builtIn : list Config)
    (modelConfigs : gmap string Config) (model : Config) :
  In model existing ∨ In model builtIn →
  In (getModelKey templateString model)
     (map fst (mergedMap templateString existing builtIn modelConfigs)).
Proof.
  assert (∀ (l : list Config) (m : ModelMap) k,
            In k (map fst m) → In k (map fst (foldl (addCore templateString) m l)))
    as Hcore_keeps.
  { induction l as [|b l IH]; intros m k Hk; [done|]. cbn [foldl]. apply IH.
    unfold addCore. destruct (mapHas _ m) eqn:E; [done|].
    rewrite mapSet_keys, E. apply in_or_app. by left. }
  assert (∀ (l : list Config) (m : ModelMap) k,
            In k (map fst m) →
            In k (map fst (foldl (addExisting templateString builtIn modelConfigs) m l)))
    as Hex_keeps.
  { induction l as [|b l IH]; intros m k Hk; [done|]. cbn [foldl]. apply IH.
    unfold addExisting. rewrite mapSet_keys.
    destruct (mapHas _ m); [done|]. apply in_or_app. by left. }
  unfold mergedMap. intros [Hin|Hin].
  - apply Hcore_keeps. generalize (@nil (string * Config)).
    induction existing as [|b l IH]; intros m; [done|].
    cbn [foldl]. destruct Hin as [->|Hin]; [|by apply IH].
    apply Hex_keeps. unfold addExisting. rewrite mapSet_keys.
    destruct (mapHas _ m) eqn:E; [by apply mapHas_In|].
    apply in_or_app. right. by left.
  - generalize (foldl (addExisting templateString builtIn modelConfigs) [] existing).
    clear Hex_keeps.
    induction builtIn as [|b l IH]; intros m; [done|].
    cbn [foldl]. destruct Hin as [->|Hin]; [|by apply IH].
    apply Hcore_keeps. unfold addCore.
    destruct (mapHas _ m) eqn:E; [by apply mapHas_In|].
    rewrite mapSet_keys, E. apply in_or_app. right. by left.
Qed.

(** X27. Under the same conditions every existing model and every built-in
    model is represented in the merged list, by a model of its key. *)
Theorem merge_keeps_every_model
    (existing builtIn : list Config) (modelConfigs : gmap string Config)
    (model : Config) :
  (∀ model, In model existing →
     is_Some (model !! "name") ∧ is_Some (model !! "provider")) →
  (∀ k cfg, modelConfigs !! k = Some cfg →
     cfg !! "name" = None ∧ cfg !! "provider" = None) →
  In model existing ∨ In model builtIn →
  ∃ merged,
    In merged (mergeActiveModels templateString existing builtIn modelConfigs) ∧
    getModelKey templateString merged = getModelKey templateString model.
Proof.
  intros Hex Hcfg Hin.
  destruct (mergedMap_invariant existing builtIn modelConfigs Hex Hcfg) as [_ Hk].
  apply (mergedMap_covers existing builtIn modelConfigs) in Hin.
  apply in_map_iff in Hin as ([k v] & E & Hin). cbn [fst] in E. subst k.
  exists v. split.
  - unfold mergeActiveModels. apply in_map_iff. by exists (getModelKey templateString model, v).
  - rewrite Forall_forall in Hk. by apply (Hk (_, v)), list_elem_of_In.
Qed.

(** X28. An existing model whose key no other existing model has comes out of
    the merge as the built-in model of its key, overridden by itself,
    overridden by the configuration stored for the key; and it is not
    marked as a core model by the merge. *)
Theorem existing_model_overrides_builtin
    (existing builtIn : list Config) (modelConfigs : gmap string Config)
    (model : Config) :
  List.NoDup (map (getModelKey templateString) existing) →
  In model existing →
  In (spread
        (spread (default ∅ (List.find
                              (λ b, String.eqb (getModelKey templateString b) (getModelKey templateString model))
                              builtIn))
                model)
        (default ∅ (modelConfigs !! getModelKey templateString model)))
     (mergeActiveModels templateString existing builtIn modelConfigs).
Proof.
  intros Hnd Hin. unfold mergeActiveModels. apply in_map_iff.
  eexists (getModelKey templateString model, _). split; [reflexivity|].
  unfold mergedMap.
  assert (∀ (l : list Config) (m : ModelMap) kv,
            In kv m → In kv (foldl (addCore templateString) m l)) as Hcore_keeps.
  { induction l as [|b l IH]; intros m [k x] Hk; [done|]. cbn [foldl]. apply IH.
    unfold addCore. destruct (mapHas _ m) eqn:E; [done|].
    apply mapSet_In_other; [|done]. intros ->.
    assert (mapHas (getModelKey templateString b) m = true) as E'; [|congruence].
    apply mapHas_In, in_map_iff. by exists (getModelKey templateString b, x). }
  apply Hcore_keeps. clear Hcore_keeps.
  revert Hnd Hin. generalize (@nil (string * Config)).
  induction existing as [|b l IH]; intros m Hnd Hin; [done|].
  cbn [foldl]. cbn [map] in Hnd. apply List.NoDup_cons_iff in Hnd as [Hb Hnd].
  destruct Hin as [->|Hin]; [|by apply IH].
  assert (∀ (l' : list Config) (m' : ModelMap) x,
            ¬ In (getModelKey templateString model) (map (getModelKey templateString) l') →
            In (getModelKey templateString model, x) m' →
            In (getModelKey templateString model, x)
               (foldl (addExisting templateString builtIn modelConfigs) m' l'))
    as Hkeep.
  { induction l' as [|b' l' IH']; intros m' x Hno Hx; [done|]. cbn [foldl].
    apply IH'; [intros ?; apply Hno; by right|].
    unfold addExisting. apply mapSet_In_other; [|done].
    intros E. apply Hno. left. done. }
  apply Hkeep; [exact Hb|]. apply mapSet_In_new.
Qed.

End MergeModels.

(** ** The properties above on the sample states *)

Lemma getModelConfig_checks_settings_witness :
  ∃ cfg,
    V1.getModelConfig Sample.X Sample.gpt4o Sample.warm1 = (Ok cfg, Sample.warm1) ∧
    cfg !! "modelName" = Some (VStr "gpt-4o").
Proof.
  apply (proj2 (proj2 (getModelConfig_checks_settings Sample.X Sample.gpt4o
                         Sample.warm1))).
  - reflexivity.
  - reflexivity.
  - discriminate.
  - discriminate.
Defined.

Lemma unknown_provider_gets_base_configuration_witness :
  default ∅ (okValue (V1.getModelConfig Sample.X Sample.unlisted Sample.warm1))
    !! "openAIApiKey" = None.
Proof.
  apply (unknown_provider_gets_base_configuration Sample.X Sample.unlisted
           Sample.warm1 Sample.warm1).
  - vm_refl.
  - vm_refl.
  - intros H. apply list_elem_of_In in H. simpl in H.
    repeat destruct H as [H|H]; try discriminate H. exact H.
Defined.

Lemma token_budget_by_provider_witness :
  let w := Sample.fresh1 [Sample.o1OpenAI] LLM_CHAIN "o1-preview|openai" None in
  let cfg := default ∅ (okValue (V1.getModelConfig Sample.X Sample.o1OpenAI w)) in
  cfg !! "maxCompletionTokens" = Some (VNum 1000) ∧
  cfg !! "maxTokens" = None ∧
  cfg !! "temperature" = Some (VNum 1).
Proof.
  intros w cfg.
  apply (token_budget_by_provider Sample.X Sample.o1OpenAI w w cfg OPENAI).
  - vm_refl.
  - discriminate.
  - vm_refl.
Defined.

Lemma dispatched_configuration_has_no_callbacks_witness :
  let w := Sample.fresh1 [Sample.gpt4oAzure] LLM_CHAIN "gpt-4o|azure openai" None in
  default ∅ (okValue (V1.getChatModelConfiguration Sample.X "gpt-4o|azure openai" w))
    !! "callbacks" = None.
Proof.
  intros w.
  apply (dispatched_configuration_has_no_callbacks Sample.X
           "gpt-4o|azure openai" w w).
  vm_refl.
Defined.



Lemma azure_activation_reads_selected_key_witness :
  V1.setChatModel Sample.X Sample.gpt4oAzure Sample.mixedAzure =
    (Throw (mkError "No Azure deployment found for model: gpt-4o|openai"),
     Sample.mixedAzure).
Proof.
  apply (azure_activation_reads_selected_key Sample.X Sample.gpt4oAzure
           Sample.mixedAzure (Sample.entry1 "azure openai"));
    [vm_refl | vm_refl | reflexivity | vm_refl].
Defined.

Lemma azure_activation_needs_all_fields_witness :
  let text :=
    "Missing required field: azureOpenAIApiInstanceName for Azure OpenAI model: gpt-4o|azure openai" in
  V1.setChatModel Sample.X Sample.gpt4oAzure Sample.selectedAzureBare =
    (Throw (mkError text), V1.emit (ENotice text) Sample.selectedAzureBare).
Proof.
  apply (azure_activation_needs_all_fields Sample.X Sample.gpt4oAzure
           Sample.selectedAzureBare (Sample.entry1 "azure openai")
           Sample.deploymentBare "azureOpenAIApiInstanceName");
    [vm_refl | vm_refl | reflexivity | vm_refl | vm_refl].
Defined.

Lemma reload_saves_aligned_exchanges_witness :
  ChainManager.updateMemoryWithLoadedMessages "user" [Sample.hello; Sample.answer]
    = [ChainManager.ClearChatMemory; ChainManager.SaveContext "Say hello" "Hello!"].
Proof.
  apply (reload_saves_aligned_exchanges "user" [(Sample.hello, Sample.answer)]).
  repeat constructor.
Defined.

Lemma reload_after_leading_reply_saves_nothing_witness :
  ChainManager.updateMemoryWithLoadedMessages "user"
      [Sample.greeting; Sample.hello; Sample.answer]
    = [ChainManager.ClearChatMemory].
Proof.
  apply (reload_after_leading_reply_saves_nothing "user" Sample.greeting
           [(Sample.hello, Sample.answer)]).
  - discriminate.
  - repeat constructor. discriminate.
Defined.

Lemma missing_model_fails_with_manager_error_witness :
  let w := Sample.fresh1 [Sample.gpt4o] LLM_CHAIN "gpt-4o|openai" None in
  ChainManager.runChain Sample.X Sample.runnerOk Sample.hello Sample.plainOptions w
    = (Throw (mkError V1.noChatModel), w).
Proof.
  intros w.
  apply (missing_model_fails_with_manager_error Sample.X Sample.runnerOk w
           (Some LLM_CHAIN) ChainManager.noOptions Sample.hello Sample.plainOptions);
    reflexivity.
Defined.

Lemma setChain_rejects_without_effect_witness :
  let w := Sample.running1 [Sample.gpt4o] VAULT_QA_CHAIN "gpt-4o|openai" None
             Sample.instance4o None in
  ChainManager.setChain (Some VAULT_QA_CHAIN) ChainManager.noOptions w
    = (Throw (mkError ChainManager.noEmbeddings), w) ∧
  V1.embeddingsAPI w = None.
Proof.
  intros w.
  assert (ChainManager.setChain (Some VAULT_QA_CHAIN) ChainManager.noOptions w
          = (Throw (mkError ChainManager.noEmbeddings), w)) as Hrun by vm_refl.
  split; [exact Hrun|].
  destruct (setChain_rejects_without_effect _ _ _ _ _ Hrun)
    as [_ [[He _]|[[He _]|(_ & Hemb & _)]]];
    [discriminate He | discriminate He | exact Hemb].
Defined.

Lemma resumed_chain_keeps_captured_model_witness :
  V1.chatModel Sample.warmO1 = Some Sample.instanceO1 ∧
  ∃ w',
    ChainManager.resumeSetChain Sample.X Sample.openDb (Ok tt) Sample.pendingPlus
      Sample.warmO1 = (Ok tt, w') ∧
    V1.chain w' = Some (V1.LLMChain Sample.instance4o 0 (V1.chatPrompt Sample.plusReady)) ∧
    V1.chatModel w' = Some Sample.instanceO1.
Proof.
  split; [reflexivity|].
  destruct (resumed_chain_keeps_captured_model Sample.X Sample.openDb (Ok tt)
              ChainManager.noOptions Sample.plusReady Sample.plusReady
              Sample.warmO1 Sample.pendingPlus Sample.instance4o 0)
    as (w' & Hrun & Hchain & _ & Hmodel);
    [reflexivity | vm_refl | reflexivity | reflexivity |].
  exists w'. split; [exact Hrun|]. split; [exact Hchain | exact Hmodel].
Defined.

Lemma plain_turn_changes_only_the_log_witness :
  V1.eventsOnly Sample.warm1
    (ChainManager.runChain Sample.X Sample.runnerOk Sample.hello
       Sample.plainOptions Sample.warm1).2.
Proof.
  apply (plain_turn_changes_only_the_log Sample.X Sample.runnerOk Sample.warm1
           _ Sample.hello Sample.plainOptions Sample.instance4o Sample.chain4o
           (ChainManager.runChain Sample.X Sample.runnerOk Sample.hello
              Sample.plainOptions Sample.warm1).1);
    [reflexivity | vm_refl | reflexivity | reflexivity | apply surjective_pairing].
Defined.

Lemma turn_rebuilds_missing_chain_witness :
  V1.chain Sample.chainless = None ∧
  V1.chain (ChainManager.runChain Sample.X Sample.runnerOk Sample.hello
              Sample.plainOptions Sample.chainless).2
    = Some (V1.LLMChain Sample.instance4o 0 (V1.chatPrompt Sample.chainless)).
Proof.
  split; [reflexivity|].
  destruct (turn_rebuilds_missing_chain Sample.X Sample.runnerOk Sample.chainless
              Sample.hello Sample.plainOptions Sample.instance4o)
    as (w1 & _ & _ & Hchain);
    [reflexivity | vm_refl | reflexivity | reflexivity | reflexivity |].
  exact Hchain.
Defined.

Lemma plain_chain_follows_active_model_witness :
  let after := (ChainManager.createChainWithNewModel Sample.X Sample.warm1).2 in
  V1.chain after = Some Sample.chain4o ∧
  V1.chatModel after = Some Sample.instance4o.
Proof.
  intros after.
  assert (V1.chain after = Some Sample.chain4o) as Hchain by vm_refl.
  split; [exact Hchain|].
  refine (plain_chain_follows_active_model Sample.X Sample.warm1 after
            (ChainManager.createChainWithNewModel Sample.X Sample.warm1).1
            _ _ _ Sample.chain4o Hchain).
  - reflexivity.
  - intros c Hc. injection Hc as <-. reflexivity.
  - apply surjective_pairing.
Defined.

Lemma answer_adds_exactly_one_message_witness :
  let out :=
    LangchainStream.getAIResponse Sample.X Sample.loadMemory Sample.streamBroken
      Sample.hello None false Sample.neverAborted Sample.warm1 in
  out.1 = Ok tt ∧ V1.eventsOnly Sample.warm1 out.2.
Proof.
  intros out.
  destruct (answer_adds_exactly_one_message Sample.X Sample.loadMemory
              Sample.streamBroken Sample.warm1 out.2 Sample.hello None false
              Sample.neverAborted Sample.instance4o out.1)
    as (Hok & Hframe & _); [reflexivity | apply surjective_pairing |].
  split; [exact Hok | exact Hframe].
Defined.

Lemma failed_stream_adds_error_not_partial_text_witness :
  ∃ w',
    LangchainStream.getAIResponse Sample.X Sample.loadMemory Sample.streamBroken
      Sample.hello None false Sample.neverAborted Sample.warm1 = (Ok tt, w') ∧
    LangchainStream.addedMessages (V1.events w') =
      [LangchainStream.aiMessage Sample.X
         "Error: Model request failed: socket hang up"].
Proof.
  destruct (failed_stream_adds_error_not_partial_text Sample.X Sample.loadMemory
              Sample.streamBroken Sample.warm1 Sample.hello None Sample.neverAborted
              Sample.instance4o Sample.config4o (VArr []) Sample.chain4o
              Sample.brokenStream (mkError "socket hang up"))
    as (w' & Hrun & Hmsg);
    [reflexivity | vm_refl | vm_refl | vm_refl | reflexivity | reflexivity
    | reflexivity | reflexivity | reflexivity |].
  exists w'. split; [exact Hrun | exact Hmsg].
Defined.

Lemma o1_answer_is_single_shot_witness :
  LangchainStream.getAIResponse Sample.X Sample.loadMemory Sample.streamHello
    Sample.hello None false Sample.neverAborted Sample.warmO1
  = LangchainStream.getAIResponse Sample.X Sample.loadMemory Sample.streamBroken
      Sample.hello None false (Sample.abortAfter 0) Sample.warmO1.
Proof.
  apply (proj1 (o1_answer_is_single_shot Sample.X Sample.loadMemory
                  Sample.streamHello Sample.warmO1 Sample.hello None false
                  Sample.neverAborted Sample.instanceO1 eq_refl eq_refl)).
Defined.

Lemma second_revision_activation_outcomes_witness :
  let out := V2.setChatModel Sample.X Sample.key2 Sample.modelA Sample.ready2 in
  V2.settings out.2 = V2.settings Sample.ready2 ∧
  V2.modelMap out.2 = V2.modelMap Sample.ready2.
Proof.
  intros out.
  destruct (second_revision_activation_outcomes Sample.X Sample.key2 Sample.modelA
              Sample.ready2 out.2 out.1 (surjective_pairing out))
    as (Hs & Hm & _).
  split; [exact Hs | exact Hm].
Defined.

Lemma o1_activation_skips_ping_witness :
  let cfg :=
    default ∅ (okValue (V2.getModelConfig Sample.X Sample.o1Hosted Sample.readyO1)) in
  V2.setChatModel Sample.X Sample.key2 Sample.o1Hosted Sample.readyO1 =
    match newModel Sample.X ChatOpenAI
            (<["streaming" := VBool false]> (delete "stream" cfg)) with
    | Ok instance =>
        (Ok tt,
         V2.with_chatModel (Some instance)
           (V2.with_userModelKey (Some (Sample.key2 Sample.o1Hosted)) Sample.readyO1))
    | Throw error =>
        (Throw error,
         V2.with_chatModel None
           (V2.emit (ENotice ("Error creating model: " +:+ Sample.key2 Sample.o1Hosted))
              (V2.emit (EConsoleError "" (Some error))
                 (V2.with_userModelKey (Some (Sample.key2 Sample.o1Hosted))
                    Sample.readyO1))))
    end.
Proof.
  intros cfg.
  apply (o1_activation_skips_ping Sample.X Sample.key2 Sample.o1Hosted
           Sample.readyO1 Sample.entry2 cfg);
    [vm_refl | vm_refl | reflexivity | vm_refl].
Defined.

Lemma merged_models_have_distinct_keys_witness :
  List.NoDup
    (map (SettingsModel.getModelKey Sample.templateS)
       (SettingsModel.mergeActiveModels Sample.templateS [Sample.storedGpt4o]
          [Sample.coreGpt4o; Sample.coreClaude] Sample.storedConfigs)).
Proof.
  apply merged_models_have_distinct_keys.
  - intros model [<-|[]].
    split; [exists (VStr "gpt-4o") | exists (VStr "openai")]; vm_refl.
  - intros k cfg H. unfold Sample.storedConfigs in H.
    apply lookup_singleton_Some in H as [_ <-]. split; vm_refl.
Defined.

Lemma merge_keeps_every_model_witness :
  ∃ merged,
    In merged
      (SettingsModel.mergeActiveModels Sample.templateS [Sample.storedGpt4o]
         [Sample.coreGpt4o; Sample.coreClaude] Sample.storedConfigs) ∧
    SettingsModel.getModelKey Sample.templateS merged
      = SettingsModel.getModelKey Sample.templateS Sample.coreClaude.
Proof.
  apply merge_keeps_every_model.
  - intros model [<-|[]].
    split; [exists (VStr "gpt-4o") | exists (VStr "openai")]; vm_refl.
  - intros k cfg H. unfold Sample.storedConfigs in H.
    apply lookup_singleton_Some in H as [_ <-]. split; vm_refl.
  - right. right. by left.
Defined.

Lemma existing_model_overrides_builtin_witness :
  In (spread (spread Sample.coreGpt4o Sample.storedGpt4o)
        (obj [("temperature", VNum 1)]))
     (SettingsModel.mergeActiveModels Sample.templateS [Sample.storedGpt4o]
        [Sample.coreGpt4o; Sample.coreClaude] Sample.storedConfigs).
Proof.
  apply (existing_model_overrides_builtin Sample.templateS [Sample.storedGpt4o]
           [Sample.coreGpt4o; Sample.coreClaude] Sample.storedConfigs
           Sample.storedGpt4o).
  - repeat constructor. intros [].
  - by left.
Defined.
